(** * Exercise detectors of the Healius backend

    A shallow embedding of [backend/exercises/base.py],
    [shoulder_squeezes.py], [neck_rotations.py] and [ankle_circles.py].

    Numbers.  Python floats that only go through [+], [-], [*], [/], [abs]
    and comparisons are modelled as exact rationals ([Q]); the result of
    [math.atan2] is a real number ([R]).  Rounding, NaN, infinities and
    signed zeros are outside the model.  Python integers are [Z].

    Scope.  [calculate_distance] and [calculate_angle] of [base.py] are
    called by no detector; they are embedded over the real numbers in
    [Geometry].

    Effects.  A detector is an object mutated by [analyze]: every method
    takes the object ([self]) and returns the new object together with its
    result.  Exceptions are the [Raise] results of a small error monad; the
    object left behind by a raising call is not modelled. *)

From Stdlib Require Import QArith Qabs Reals Lra Lqa Lia List String ZArith Bool.
From Stdlib Require Import DecimalString Permutation.
Import ListNotations.

Local Open Scope Q_scope.

(** ** Python runtime *)

Module Py.

Inductive error := IndexError | ZeroDivisionError | TypeError | ValueError.

Inductive result (A : Type) : Type :=
| Return (a : A)
| Raise (e : error).
Arguments Return {A} a.
Arguments Raise {A} e.

Definition bind {A B} (m : result A) (k : A -> result B) : result B :=
  match m with
  | Return a => k a
  | Raise e => Raise e
  end.

(** Values stored in the [exercise_specific_data] dictionaries. *)
Inductive value :=
| VNone
| VBool (b : bool)
| VInt (n : Z)
| VFloat (q : Q)
| VAngle (r : R)
| VStr (s : string).

Definition dict := list (string * value).

(** [x < y] on numbers. *)
Definition ltb (x y : Q) : bool :=
  (Qnum x * QDen y <? Qnum y * QDen x)%Z.

(** [seq[idx]] for a non-negative index. *)
Definition getitem {A} (seq : list A) (idx : nat) : result A :=
  match nth_error seq idx with
  | Some a => Return a
  | None => Raise IndexError
  end.

(** [seq[indices]] with a list of indices (numpy fancy indexing). *)
Fixpoint take {A} (seq : list A) (indices : list nat) : result (list A) :=
  match indices with
  | [] => Return []
  | idx :: rest =>
      bind (getitem seq idx) (fun a =>
      bind (take seq rest) (fun l => Return (a :: l)))
  end.

(** [min(seq)]. *)
Definition min (seq : list Q) : result Q :=
  match seq with
  | [] => Raise ValueError
  | x :: rest => Return (fold_left (fun m y => if ltb y m then y else m) rest x)
  end.

(** [a / b] on floats.  A zero divisor raises, as it does on Python
    floats; on numpy scalars the quotient would be inf or nan, with a
    warning. *)
Definition div (a b : Q) : result Q :=
  if Qeq_bool b 0 then Raise ZeroDivisionError else Return (a / b).

(** [a - b] where [a] may be [None]. *)
Definition sub_opt (a : option Q) (b : Q) : result Q :=
  match a with
  | Some x => Return (x - b)
  | None => Raise TypeError
  end.

Definition unwrap (a : option Q) : result Q :=
  match a with
  | Some x => Return x
  | None => Raise TypeError
  end.

(** Truth value of an optional float: [None] and [0] are false. *)
Definition truthy (a : option Q) : bool :=
  match a with
  | Some x => negb (Qeq_bool x 0)
  | None => false
  end.

(** [str(n)] for an integer, as an f-string prints it. *)
Definition str (n : Z) : string := NilZero.string_of_int (Z.to_int n).

(** [seq[-4:]]. *)
Definition last4 {A} (seq : list A) : list A :=
  skipn (List.length seq - 4) seq.

(** [len(set(seq))]. *)
Definition len_set (seq : list Z) : nat := List.length (nodup Z.eq_dec seq).

End Py.

Notation "x <- m ;; k" := (Py.bind m (fun x => k))
  (at level 61, m at next level, right associativity).
Notation "' pat <- m ;; k" := (Py.bind m (fun x => match x with pat => k end))
  (at level 61, pat pattern, m at next level, right associativity).

(** ** server.py: keypoint indices *)

Module KeypointIndex.
Definition NOSE : nat := 0.
Definition LEFT_EYE : nat := 1.
Definition RIGHT_EYE : nat := 2.
Definition LEFT_EAR : nat := 3.
Definition RIGHT_EAR : nat := 4.
Definition LEFT_SHOULDER : nat := 5.
Definition RIGHT_SHOULDER : nat := 6.
Definition LEFT_ELBOW : nat := 7.
Definition RIGHT_ELBOW : nat := 8.
Definition LEFT_WRIST : nat := 9.
Definition RIGHT_WRIST : nat := 10.
Definition LEFT_HIP : nat := 11.
Definition RIGHT_HIP : nat := 12.
Definition LEFT_KNEE : nat := 13.
Definition RIGHT_KNEE : nat := 14.
Definition LEFT_ANKLE : nat := 15.
Definition RIGHT_ANKLE : nat := 16.
End KeypointIndex.

(** ** base.py *)

Inductive ExercisePhase := NOT_STARTED | SETUP | ACTIVE | COOLDOWN | COMPLETED.

Definition Point : Type := Q * Q.

Module ExerciseAnalysis.
Record t := {
  exercise_name : string;
  phase : ExercisePhase;
  form_score : Q;
  feedback_messages : list string;
  rep_count : Z;
  is_proper_position : bool;
  confidence : Q;
  exercise_specific_data : Py.dict;
}.
End ExerciseAnalysis.

Module BaseExercise.

Record t := {
  rep_count : Z;
  start_time : option Q;
  phase : ExercisePhase;
  confidence_threshold : Q;
  phase_durations : list (ExercisePhase * Q);
}.

(** The dictionary literal of [__init__], in insertion order. *)
Definition default_durations : list (ExercisePhase * Q) :=
  [(SETUP, 120); (ACTIVE, 120); (COOLDOWN, 60)].

Definition __init__ : t := {|
  rep_count := 0;
  start_time := None;
  phase := NOT_STARTED;
  confidence_threshold := 0.6;
  phase_durations := default_durations;
|}.

Definition set_phase (self : t) (p : ExercisePhase) : t := {|
  rep_count := rep_count self;
  start_time := start_time self;
  phase := p;
  confidence_threshold := confidence_threshold self;
  phase_durations := phase_durations self;
|}.

Definition set_rep_count (self : t) (n : Z) : t := {|
  rep_count := n;
  start_time := start_time self;
  phase := phase self;
  confidence_threshold := confidence_threshold self;
  phase_durations := phase_durations self;
|}.

(** The [for phase, duration in self.phase_durations.items()] loop:
    [Some phase] when the loop returns, [None] when it runs to its end. *)
Fixpoint update_phase_loop (elapsed_time cumulative_time : Q)
    (items : list (ExercisePhase * Q)) : option ExercisePhase :=
  match items with
  | [] => None
  | (phase, duration) :: rest =>
      let cumulative_time := cumulative_time + duration in
      if Py.ltb elapsed_time cumulative_time then Some phase
      else update_phase_loop elapsed_time cumulative_time rest
  end.

Definition update_phase (self : t) (elapsed_time : Q) : t * ExercisePhase :=
  if Py.ltb elapsed_time 0 then (self, NOT_STARTED)
  else
    match update_phase_loop elapsed_time 0 (phase_durations self) with
    | Some phase => (set_phase self phase, phase)
    | None => (set_phase self COMPLETED, COMPLETED)
    end.

Fixpoint check_confidence_loop (threshold : Q) (confidence : list Q)
    (required_indices : list nat) : Py.result bool :=
  match required_indices with
  | [] => Py.Return true
  | idx :: rest =>
      c <- Py.getitem confidence idx ;;
      if Py.ltb c threshold then Py.Return false
      else check_confidence_loop threshold confidence rest
  end.

Definition check_confidence (self : t) (confidence : list Q)
    (required_indices : list nat) : Py.result bool :=
  check_confidence_loop (confidence_threshold self) confidence required_indices.

End BaseExercise.

(** ** shoulder_squeezes.py *)

Module ShoulderSqueezesExercise.

Record t := {
  base : BaseExercise.t;
  baseline_distance : option Q;
  in_squeeze : bool;
  last_distance : option Q;
}.

Definition __init__ : t := {|
  base := BaseExercise.__init__;
  baseline_distance := None;
  in_squeeze := false;
  last_distance := None;
|}.

Definition set_base (self : t) (b : BaseExercise.t) : t := {|
  base := b;
  baseline_distance := baseline_distance self;
  in_squeeze := in_squeeze self;
  last_distance := last_distance self;
|}.

Definition set_baseline_distance (self : t) (d : option Q) : t := {|
  base := base self;
  baseline_distance := d;
  in_squeeze := in_squeeze self;
  last_distance := last_distance self;
|}.

Definition set_in_squeeze (self : t) (b : bool) : t := {|
  base := base self;
  baseline_distance := baseline_distance self;
  in_squeeze := b;
  last_distance := last_distance self;
|}.

Definition rep_count (self : t) : Z := BaseExercise.rep_count (base self).

Definition set_rep_count (self : t) (n : Z) : t :=
  set_base self (BaseExercise.set_rep_count (base self) n).

Definition name : string := "Shoulder Squeezes".

Definition description : string :=
  "Squeeze your shoulder blades together and hold, then release".

Definition required_keypoints : list nat :=
  [KeypointIndex.LEFT_SHOULDER; KeypointIndex.RIGHT_SHOULDER].

Definition float_or_none (a : option Q) : Py.value :=
  match a with
  | Some x => Py.VFloat x
  | None => Py.VNone
  end.

(** The [elif phase == ExercisePhase.ACTIVE] branch: the new object, the
    feedback messages and the form score. *)
Definition analyze_active (self : t) (shoulder_distance : Q)
    : Py.result (t * list string * Q) :=
  if Py.truthy (baseline_distance self) then
    diff <- Py.sub_opt (baseline_distance self) shoulder_distance ;;
    baseline <- Py.unwrap (baseline_distance self) ;;
    ratio <- Py.div diff baseline ;;
    let squeeze_percent := ratio * 100 in
    if Py.ltb 20 squeeze_percent then
      if negb (in_squeeze self) then
        Py.Return (set_in_squeeze self true,
                   ["Good squeeze! Hold for 2 seconds"%string], 90)
      else
        Py.Return (self, ["Keep holding the squeeze"%string], 85)
    else
      if in_squeeze self then
        let self := set_rep_count self (rep_count self + 1) in
        let self := set_in_squeeze self false in
        Py.Return (self,
                   [("Rep " ++ Py.str (rep_count self) ++ " complete!")%string],
                   70)
      else
        Py.Return (self, ["Squeeze your shoulder blades together"%string], 60)
  else Py.Return (self, [], 70).

(** The [if phase == ...] chain: the new object, the feedback messages
    and the form score (70 to start with). *)
Definition analyze_phase (self : t) (phase : ExercisePhase)
    (shoulder_distance elapsed_time : Q) : Py.result (t * list string * Q) :=
  match phase with
  | SETUP =>
      if match baseline_distance self with None => true | Some _ => false end
         || Py.ltb elapsed_time 10
      then
        Py.Return (set_baseline_distance self (Some shoulder_distance),
                   ["Stand tall with shoulders relaxed"%string], 70)
      else
        Py.Return (self,
                   ["Get ready to squeeze your shoulder blades"%string], 70)
  | ACTIVE => analyze_active self shoulder_distance
  | COOLDOWN =>
      Py.Return (self,
                 [("Great work! You completed " ++ Py.str (rep_count self)
                   ++ " shoulder squeezes")%string],
                 85)
  | _ => Py.Return (self, [], 70)
  end.

(** The analysis returned when the confidence check fails. *)
Definition low_confidence_analysis (self : t) (phase : ExercisePhase)
    : ExerciseAnalysis.t := {|
  ExerciseAnalysis.exercise_name := name;
  ExerciseAnalysis.phase := phase;
  ExerciseAnalysis.form_score := 0;
  ExerciseAnalysis.feedback_messages := ["Cannot see shoulders clearly"%string];
  ExerciseAnalysis.rep_count := rep_count self;
  ExerciseAnalysis.is_proper_position := false;
  ExerciseAnalysis.confidence := 0;
  ExerciseAnalysis.exercise_specific_data := [];
|}.

(** The analysis returned at the end of [analyze]; [lowest] is
    [min(confidence[self.required_keypoints])]. *)
Definition analysis (self : t) (phase : ExercisePhase) (form_score : Q)
    (feedback_messages : list string) (lowest shoulder_distance : Q)
    : ExerciseAnalysis.t := {|
  ExerciseAnalysis.exercise_name := name;
  ExerciseAnalysis.phase := phase;
  ExerciseAnalysis.form_score := form_score;
  ExerciseAnalysis.feedback_messages := feedback_messages;
  ExerciseAnalysis.rep_count := rep_count self;
  ExerciseAnalysis.is_proper_position := true;
  ExerciseAnalysis.confidence := lowest * 100;
  ExerciseAnalysis.exercise_specific_data :=
    [("shoulder_distance"%string, Py.VFloat shoulder_distance);
     ("baseline_distance"%string, float_or_none (baseline_distance self));
     ("in_squeeze"%string, Py.VBool (in_squeeze self))];
|}.

Definition analyze (self : t) (keypoints : list Point) (confidence : list Q)
    (elapsed_time : Q) : Py.result (t * ExerciseAnalysis.t) :=
  let '(b, phase) := BaseExercise.update_phase (base self) elapsed_time in
  let self := set_base self b in
  ok <- BaseExercise.check_confidence (base self) confidence required_keypoints ;;
  if negb ok then Py.Return (self, low_confidence_analysis self phase)
  else
    left_shoulder <- Py.getitem keypoints KeypointIndex.LEFT_SHOULDER ;;
    right_shoulder <- Py.getitem keypoints KeypointIndex.RIGHT_SHOULDER ;;
    let shoulder_distance := Qabs (fst left_shoulder - fst right_shoulder) in
    '(self, feedback_messages, form_score) <-
      analyze_phase self phase shoulder_distance elapsed_time ;;
    required <- Py.take confidence required_keypoints ;;
    lowest <- Py.min required ;;
    Py.Return (self, analysis self phase form_score feedback_messages lowest
                       shoulder_distance).

End ShoulderSqueezesExercise.

(** ** neck_rotations.py *)

(** The strings ['left'] and ['right'], of [rotation_direction] and
    [active_ankle]. *)
Inductive Direction := left | right.

Module NeckRotationsExercise.

Record t := {
  base : BaseExercise.t;
  shoulder_midpoint_x : option Q;
  last_nose_x : option Q;
  rotation_direction : option Direction;
  left_rotations : Z;
  right_rotations : Z;
  rotation_threshold : Q;
}.

Definition __init__ : t := {|
  base := BaseExercise.__init__;
  shoulder_midpoint_x := None;
  last_nose_x := None;
  rotation_direction := None;
  left_rotations := 0;
  right_rotations := 0;
  rotation_threshold := 30;
|}.

Definition set_base (self : t) (b : BaseExercise.t) : t := {|
  base := b;
  shoulder_midpoint_x := shoulder_midpoint_x self;
  last_nose_x := last_nose_x self;
  rotation_direction := rotation_direction self;
  left_rotations := left_rotations self;
  right_rotations := right_rotations self;
  rotation_threshold := rotation_threshold self;
|}.

Definition set_shoulder_midpoint_x (self : t) (x : option Q) : t := {|
  base := base self;
  shoulder_midpoint_x := x;
  last_nose_x := last_nose_x self;
  rotation_direction := rotation_direction self;
  left_rotations := left_rotations self;
  right_rotations := right_rotations self;
  rotation_threshold := rotation_threshold self;
|}.

Definition set_rotation_direction (self : t) (d : option Direction) : t := {|
  base := base self;
  shoulder_midpoint_x := shoulder_midpoint_x self;
  last_nose_x := last_nose_x self;
  rotation_direction := d;
  left_rotations := left_rotations self;
  right_rotations := right_rotations self;
  rotation_threshold := rotation_threshold self;
|}.

Definition set_left_rotations (self : t) (n : Z) : t := {|
  base := base self;
  shoulder_midpoint_x := shoulder_midpoint_x self;
  last_nose_x := last_nose_x self;
  rotation_direction := rotation_direction self;
  left_rotations := n;
  right_rotations := right_rotations self;
  rotation_threshold := rotation_threshold self;
|}.

Definition set_right_rotations (self : t) (n : Z) : t := {|
  base := base self;
  shoulder_midpoint_x := shoulder_midpoint_x self;
  last_nose_x := last_nose_x self;
  rotation_direction := rotation_direction self;
  left_rotations := left_rotations self;
  right_rotations := n;
  rotation_threshold := rotation_threshold self;
|}.

Definition rep_count (self : t) : Z := BaseExercise.rep_count (base self).

Definition set_rep_count (self : t) (n : Z) : t :=
  set_base self (BaseExercise.set_rep_count (base self) n).

Definition name : string := "Neck Rotations".

Definition description : string := "Slowly rotate your head left and right".

Definition required_keypoints : list nat :=
  [KeypointIndex.NOSE; KeypointIndex.LEFT_SHOULDER; KeypointIndex.RIGHT_SHOULDER].

(** [self.rotation_direction != d]. *)
Definition direction_ne (cur : option Direction) (d : Direction) : bool :=
  match cur, d with
  | Some left, left | Some right, right => false
  | _, _ => true
  end.

Definition direction_value (cur : option Direction) : Py.value :=
  match cur with
  | Some left => Py.VStr "left"
  | Some right => Py.VStr "right"
  | None => Py.VNone
  end.

(** The [elif phase == ExercisePhase.ACTIVE] branch. *)
Definition analyze_active (self : t) (nose_offset elapsed_time : Q)
    : t * list string * Q :=
  if Py.ltb elapsed_time 180 then
    if Py.ltb nose_offset (- rotation_threshold self) then
      if direction_ne (rotation_direction self) left then
        let self := set_left_rotations self (left_rotations self + 1) in
        let self := set_rotation_direction self (Some left) in
        (self, [("Left rotation " ++ Py.str (left_rotations self))%string], 90)
      else
        (self, ["Good left rotation, now slowly return to center"%string], 85)
    else if Py.ltb (rotation_threshold self) nose_offset then
      (self, ["Focus on rotating to your left for now"%string], 60)
    else
      (set_rotation_direction self None,
       ["Now rotate your head to the left"%string], 70)
  else
    if Py.ltb (rotation_threshold self) nose_offset then
      if direction_ne (rotation_direction self) right then
        let self := set_right_rotations self (right_rotations self + 1) in
        let self := set_rotation_direction self (Some right) in
        (self, [("Right rotation " ++ Py.str (right_rotations self))%string], 90)
      else
        (self, ["Good right rotation, now slowly return to center"%string], 85)
    else if Py.ltb nose_offset (- rotation_threshold self) then
      (self, ["Focus on rotating to your right for now"%string], 60)
    else
      (set_rotation_direction self None,
       ["Now rotate your head to the right"%string], 70).

(** The [if phase == ...] chain. *)
Definition analyze_phase (self : t) (phase : ExercisePhase)
    (shoulder_midpoint_x nose_offset elapsed_time : Q) : t * list string * Q :=
  match phase with
  | SETUP =>
      (set_shoulder_midpoint_x self (Some shoulder_midpoint_x),
       ["Keep your shoulders still, only move your head"%string], 70)
  | ACTIVE => analyze_active self nose_offset elapsed_time
  | COOLDOWN =>
      (self,
       [("Excellent! " ++ Py.str (left_rotations self) ++ " left, "
         ++ Py.str (right_rotations self) ++ " right rotations")%string],
       85)
  | _ => (self, [], 70)
  end.

(** The analysis returned when the confidence check fails. *)
Definition low_confidence_analysis (self : t) (phase : ExercisePhase)
    : ExerciseAnalysis.t := {|
  ExerciseAnalysis.exercise_name := name;
  ExerciseAnalysis.phase := phase;
  ExerciseAnalysis.form_score := 0;
  ExerciseAnalysis.feedback_messages :=
    ["Cannot see face and shoulders clearly"%string];
  ExerciseAnalysis.rep_count := (left_rotations self + right_rotations self)%Z;
  ExerciseAnalysis.is_proper_position := false;
  ExerciseAnalysis.confidence := 0;
  ExerciseAnalysis.exercise_specific_data := [];
|}.

(** The analysis returned at the end of [analyze]. *)
Definition analysis (self : t) (phase : ExercisePhase) (form_score : Q)
    (feedback_messages : list string) (lowest nose_offset : Q)
    : ExerciseAnalysis.t := {|
  ExerciseAnalysis.exercise_name := name;
  ExerciseAnalysis.phase := phase;
  ExerciseAnalysis.form_score := form_score;
  ExerciseAnalysis.feedback_messages := feedback_messages;
  ExerciseAnalysis.rep_count := rep_count self;
  ExerciseAnalysis.is_proper_position := true;
  ExerciseAnalysis.confidence := lowest * 100;
  ExerciseAnalysis.exercise_specific_data :=
    [("nose_offset"%string, Py.VFloat nose_offset);
     ("left_rotations"%string, Py.VInt (left_rotations self));
     ("right_rotations"%string, Py.VInt (right_rotations self));
     ("rotation_direction"%string, direction_value (rotation_direction self))];
|}.

Definition analyze (self : t) (keypoints : list Point) (confidence : list Q)
    (elapsed_time : Q) : Py.result (t * ExerciseAnalysis.t) :=
  let '(b, phase) := BaseExercise.update_phase (base self) elapsed_time in
  let self := set_base self b in
  ok <- BaseExercise.check_confidence (base self) confidence required_keypoints ;;
  if negb ok then Py.Return (self, low_confidence_analysis self phase)
  else
    nose <- Py.getitem keypoints KeypointIndex.NOSE ;;
    left_shoulder <- Py.getitem keypoints KeypointIndex.LEFT_SHOULDER ;;
    right_shoulder <- Py.getitem keypoints KeypointIndex.RIGHT_SHOULDER ;;
    let shoulder_midpoint_x := (fst left_shoulder + fst right_shoulder) / 2 in
    let nose_offset := fst nose - shoulder_midpoint_x in
    let '(self, feedback_messages, form_score) :=
      analyze_phase self phase shoulder_midpoint_x nose_offset elapsed_time in
    let self := set_rep_count self (left_rotations self + right_rotations self) in
    required <- Py.take confidence required_keypoints ;;
    lowest <- Py.min required ;;
    Py.Return (self, analysis self phase form_score feedback_messages lowest
                       nose_offset).

End NeckRotationsExercise.

(** ** The [math] module, on real numbers *)

Module math.

Definition pi : R := PI.

(** [math.atan2(y, x)]: the angle of the point [(x, y)], in (-pi, pi];
    [atan2(0, 0)] is [0]. *)
Definition atan2 (y x : R) : R :=
  if Rlt_dec 0 x then atan (y / x)
  else if Rlt_dec x 0 then
    if Rle_dec 0 y then atan (y / x) + PI else atan (y / x) - PI
  else
    if Rlt_dec 0 y then PI / 2
    else if Rlt_dec y 0 then - (PI / 2)
    else 0.

(** [x % m] on floats: the remainder with the sign of [m],
    [x - m * floor(x / m)]. *)
Definition mod_ (x m : R) : R := x - m * IZR (Int_part (x / m)).

End math.

(** ** ankle_circles.py *)

Module AnkleCirclesExercise.

Record t := {
  base : BaseExercise.t;
  angle_history : list R;
  circle_count : Z;
  last_quadrant : option Z;
  quadrant_visits : list Z;
  active_ankle : Direction;
}.

Definition __init__ : t := {|
  base := BaseExercise.__init__;
  angle_history := [];
  circle_count := 0;
  last_quadrant := None;
  quadrant_visits := [];
  active_ankle := right;
|}.

Definition set_base (self : t) (b : BaseExercise.t) : t := {|
  base := b;
  angle_history := angle_history self;
  circle_count := circle_count self;
  last_quadrant := last_quadrant self;
  quadrant_visits := quadrant_visits self;
  active_ankle := active_ankle self;
|}.

Definition set_angle_history (self : t) (h : list R) : t := {|
  base := base self;
  angle_history := h;
  circle_count := circle_count self;
  last_quadrant := last_quadrant self;
  quadrant_visits := quadrant_visits self;
  active_ankle := active_ankle self;
|}.

Definition set_circle_count (self : t) (n : Z) : t := {|
  base := base self;
  angle_history := angle_history self;
  circle_count := n;
  last_quadrant := last_quadrant self;
  quadrant_visits := quadrant_visits self;
  active_ankle := active_ankle self;
|}.

Definition set_last_quadrant (self : t) (q : option Z) : t := {|
  base := base self;
  angle_history := angle_history self;
  circle_count := circle_count self;
  last_quadrant := q;
  quadrant_visits := quadrant_visits self;
  active_ankle := active_ankle self;
|}.

Definition set_quadrant_visits (self : t) (v : list Z) : t := {|
  base := base self;
  angle_history := angle_history self;
  circle_count := circle_count self;
  last_quadrant := last_quadrant self;
  quadrant_visits := v;
  active_ankle := active_ankle self;
|}.

Definition set_active_ankle (self : t) (a : Direction) : t := {|
  base := base self;
  angle_history := angle_history self;
  circle_count := circle_count self;
  last_quadrant := last_quadrant self;
  quadrant_visits := quadrant_visits self;
  active_ankle := a;
|}.

Definition rep_count (self : t) : Z := BaseExercise.rep_count (base self).

Definition set_rep_count (self : t) (n : Z) : t :=
  set_base self (BaseExercise.set_rep_count (base self) n).

Definition name : string := "Ankle Circles".

Definition description : string := "Make circular motions with your ankles".

Definition required_keypoints : list nat :=
  [KeypointIndex.LEFT_ANKLE; KeypointIndex.RIGHT_ANKLE;
   KeypointIndex.LEFT_KNEE; KeypointIndex.RIGHT_KNEE].

Definition side_str (a : Direction) : string :=
  match a with
  | left => "left"
  | right => "right"
  end.

Definition _calculate_ankle_angle (ankle knee : Point) : R :=
  let dx := fst ankle - fst knee in
  let dy := snd ankle - snd knee in
  math.atan2 (Q2R dy) (Q2R dx).

Definition _get_quadrant (angle : R) : Z :=
  let normalized := math.mod_ angle (2 * math.pi) in
  if Rlt_dec normalized (math.pi / 2) then 1
  else if Rlt_dec normalized math.pi then 2
  else if Rlt_dec normalized (3 * math.pi / 2) then 3
  else 4.

(** The body of the first [if]: the object after it and whether the
    method has returned [True] from inside it. *)
Definition _detect_circle_completion_if (self : t) (quadrant : Z) : t * bool :=
  let self := set_quadrant_visits self (quadrant_visits self ++ [quadrant]) in
  if (4 <=? List.length (quadrant_visits self))%nat then
    let recent_quadrants := Py.last4 (quadrant_visits self) in
    if (Py.len_set recent_quadrants =? 4)%nat then
      let self := set_circle_count self (circle_count self + 1) in
      let self := set_quadrant_visits self [] in
      (self, true)
    else (self, false)
  else (self, false).

Definition _detect_circle_completion (self : t) (quadrant : Z) : t * bool :=
  let '(self, returned) :=
    match last_quadrant self with
    | Some last =>
        if negb (quadrant =? last)%Z
        then _detect_circle_completion_if self quadrant
        else (self, false)
    | None => (self, false)
    end in
  if returned then (self, true)
  else (set_last_quadrant self (Some quadrant), false).

(** [self.angle_history.append(a)] followed by the pop of the oldest
    sample when more than 100 are held. *)
Definition push_angle (self : t) (a : R) : t :=
  let self := set_angle_history self (angle_history self ++ [a]) in
  if (100 <? List.length (angle_history self))%nat
  then set_angle_history self (tl (angle_history self))
  else self.

(** The [elif phase == ExercisePhase.ACTIVE] branch. *)
Definition analyze_active (self : t) (current_angle : R) (current_quadrant : Z)
    (elapsed_time : Q) : t * list string * Q :=
  let self := push_angle self current_angle in
  let '(self, completed) := _detect_circle_completion self current_quadrant in
  let '(feedback_messages, form_score) :=
    if completed then
      ([("Circle " ++ Py.str (circle_count self) ++ " complete!")%string], 90)
    else
      ([if (current_quadrant =? 1)%Z then "Moving forward and out"%string
        else if (current_quadrant =? 2)%Z then "Moving back and out"%string
        else if (current_quadrant =? 3)%Z then "Moving back and in"%string
        else "Moving forward and in"%string], 75) in
  if Py.ltb 180 elapsed_time
     && match active_ankle self with right => true | left => false end
  then
    let self := set_active_ankle self left in
    let self := set_circle_count self 0 in
    let self := set_quadrant_visits self [] in
    let self := set_last_quadrant self None in
    (self, feedback_messages ++ ["Switch to left ankle circles"%string], form_score)
  else (self, feedback_messages, form_score).

(** The [if phase == ...] chain. *)
Definition analyze_phase (self : t) (phase : ExercisePhase)
    (current_angle : R) (current_quadrant : Z) (elapsed_time : Q)
    : t * list string * Q :=
  match phase with
  | SETUP =>
      (set_angle_history self (angle_history self ++ [current_angle]),
       [("Lift your " ++ side_str (active_ankle self)
         ++ " foot slightly and prepare to make circles")%string],
       70)
  | ACTIVE => analyze_active self current_angle current_quadrant elapsed_time
  | COOLDOWN =>
      (self,
       [("Great job! You completed " ++ Py.str (circle_count self)
         ++ " ankle circles")%string],
       85)
  | _ => (self, [], 70)
  end.

(** The knee and ankle of the limb being tracked. *)
Definition tracked_points (self : t) (keypoints : list Point)
    : Py.result (Point * Point) :=
  match active_ankle self with
  | right =>
      ankle <- Py.getitem keypoints KeypointIndex.RIGHT_ANKLE ;;
      knee <- Py.getitem keypoints KeypointIndex.RIGHT_KNEE ;;
      Py.Return (ankle, knee)
  | left =>
      ankle <- Py.getitem keypoints KeypointIndex.LEFT_ANKLE ;;
      knee <- Py.getitem keypoints KeypointIndex.LEFT_KNEE ;;
      Py.Return (ankle, knee)
  end.

(** The analysis returned when the confidence check fails. *)
Definition low_confidence_analysis (self : t) (phase : ExercisePhase)
    : ExerciseAnalysis.t := {|
  ExerciseAnalysis.exercise_name := name;
  ExerciseAnalysis.phase := phase;
  ExerciseAnalysis.form_score := 0;
  ExerciseAnalysis.feedback_messages :=
    ["Cannot see ankles and knees clearly"%string];
  ExerciseAnalysis.rep_count := circle_count self;
  ExerciseAnalysis.is_proper_position := false;
  ExerciseAnalysis.confidence := 0;
  ExerciseAnalysis.exercise_specific_data := [];
|}.

(** The analysis returned at the end of [analyze]. *)
Definition analysis (self : t) (phase : ExercisePhase) (form_score : Q)
    (feedback_messages : list string) (lowest : Q) (current_angle : R)
    (current_quadrant : Z) : ExerciseAnalysis.t := {|
  ExerciseAnalysis.exercise_name := name;
  ExerciseAnalysis.phase := phase;
  ExerciseAnalysis.form_score := form_score;
  ExerciseAnalysis.feedback_messages := feedback_messages;
  ExerciseAnalysis.rep_count := rep_count self;
  ExerciseAnalysis.is_proper_position := true;
  ExerciseAnalysis.confidence := lowest * 100;
  ExerciseAnalysis.exercise_specific_data :=
    [("current_angle"%string, Py.VAngle current_angle);
     ("current_quadrant"%string, Py.VInt current_quadrant);
     ("active_ankle"%string, Py.VStr (side_str (active_ankle self)));
     ("angle_history_length"%string,
      Py.VInt (Z.of_nat (List.length (angle_history self))))];
|}.

Definition analyze (self : t) (keypoints : list Point) (confidence : list Q)
    (elapsed_time : Q) : Py.result (t * ExerciseAnalysis.t) :=
  let '(b, phase) := BaseExercise.update_phase (base self) elapsed_time in
  let self := set_base self b in
  ok <- BaseExercise.check_confidence (base self) confidence required_keypoints ;;
  if negb ok then Py.Return (self, low_confidence_analysis self phase)
  else
    '(ankle, knee) <- tracked_points self keypoints ;;
    let current_angle := _calculate_ankle_angle ankle knee in
    let current_quadrant := _get_quadrant current_angle in
    let '(self, feedback_messages, form_score) :=
      analyze_phase self phase current_angle current_quadrant elapsed_time in
    let self := set_rep_count self (circle_count self) in
    required <- Py.take confidence required_keypoints ;;
    lowest <- Py.min required ;;
    Py.Return (self, analysis self phase form_score feedback_messages lowest
                       current_angle current_quadrant).

End AnkleCirclesExercise.

(** ** The registry of [__init__.py] and dynamic dispatch *)

Inductive Exercise :=
| ShoulderSqueezes (self : ShoulderSqueezesExercise.t)
| NeckRotations (self : NeckRotationsExercise.t)
| AnkleCircles (self : AnkleCirclesExercise.t).

Definition get_exercise (exercise_type : string) : Py.result Exercise :=
  if String.eqb exercise_type "shoulder_squeezes" then
    Py.Return (ShoulderSqueezes ShoulderSqueezesExercise.__init__)
  else if String.eqb exercise_type "neck_rotations" then
    Py.Return (NeckRotations NeckRotationsExercise.__init__)
  else if String.eqb exercise_type "ankle_circles" then
    Py.Return (AnkleCircles AnkleCirclesExercise.__init__)
  else Py.Raise Py.ValueError.

Definition lift {A} (inj : A -> Exercise) (r : Py.result (A * ExerciseAnalysis.t))
    : Py.result (Exercise * ExerciseAnalysis.t) :=
  '(self, analysis) <- r ;; Py.Return (inj self, analysis).

(** [exercise.analyze(keypoints, confidence, elapsed_time)] on a
    [BaseExercise] reference. *)
Definition analyze (exercise : Exercise) (keypoints : list Point)
    (confidence : list Q) (elapsed_time : Q)
    : Py.result (Exercise * ExerciseAnalysis.t) :=
  match exercise with
  | ShoulderSqueezes self =>
      lift ShoulderSqueezes
        (ShoulderSqueezesExercise.analyze self keypoints confidence elapsed_time)
  | NeckRotations self =>
      lift NeckRotations
        (NeckRotationsExercise.analyze self keypoints confidence elapsed_time)
  | AnkleCircles self =>
      lift AnkleCircles
        (AnkleCirclesExercise.analyze self keypoints confidence elapsed_time)
  end.

Definition required_keypoints (exercise : Exercise) : list nat :=
  match exercise with
  | ShoulderSqueezes _ => ShoulderSqueezesExercise.required_keypoints
  | NeckRotations _ => NeckRotationsExercise.required_keypoints
  | AnkleCircles _ => AnkleCirclesExercise.required_keypoints
  end.

Definition base (exercise : Exercise) : BaseExercise.t :=
  match exercise with
  | ShoulderSqueezes self => ShoulderSqueezesExercise.base self
  | NeckRotations self => NeckRotationsExercise.base self
  | AnkleCircles self => AnkleCirclesExercise.base self
  end.

(** ** Observations used in the statements *)

(** The count a detector reports when the confidence check fails. *)
Definition current_count (exercise : Exercise) : Z :=
  match exercise with
  | ShoulderSqueezes self => ShoulderSqueezesExercise.rep_count self
  | NeckRotations self =>
      (NeckRotationsExercise.left_rotations self
       + NeckRotationsExercise.right_rotations self)%Z
  | AnkleCircles self => AnkleCirclesExercise.circle_count self
  end.

(** The counters of a detector: [rep_count] first, then the counters of
    its own. *)
Definition counters (exercise : Exercise) : list Z :=
  match exercise with
  | ShoulderSqueezes self => [ShoulderSqueezesExercise.rep_count self]
  | NeckRotations self =>
      [NeckRotationsExercise.rep_count self;
       NeckRotationsExercise.left_rotations self;
       NeckRotationsExercise.right_rotations self]
  | AnkleCircles self =>
      [AnkleCirclesExercise.rep_count self;
       AnkleCirclesExercise.circle_count self]
  end.

Inductive Flag :=
| InSqueeze (b : bool)
| RotationDirection (d : option Direction)
| ActiveAnkle (a : Direction).

(** The hysteresis flag of the squeeze and rotation detectors; the ankle
    detector has none, its tracked limb stands in. *)
Definition flag (exercise : Exercise) : Flag :=
  match exercise with
  | ShoulderSqueezes self => InSqueeze (ShoulderSqueezesExercise.in_squeeze self)
  | NeckRotations self =>
      RotationDirection (NeckRotationsExercise.rotation_direction self)
  | AnkleCircles self => ActiveAnkle (AnkleCirclesExercise.active_ankle self)
  end.

(** The message of the analysis returned when the confidence check fails. *)
Definition cannot_see (exercise : Exercise) : string :=
  match exercise with
  | ShoulderSqueezes _ => "Cannot see shoulders clearly"
  | NeckRotations _ => "Cannot see face and shoulders clearly"
  | AnkleCircles _ => "Cannot see ankles and knees clearly"
  end.

(** A frame as the pose source delivers it: 17 points, 17 confidences. *)
Definition well_formed (keypoints : list Point) (confidence : list Q) : Prop :=
  List.length keypoints = 17%nat /\ List.length confidence = 17%nat.

(** Every required confidence is at least 0.6. *)
Definition passes (confidence : list Q) (required_indices : list nat) : Prop :=
  forall idx, In idx required_indices ->
    exists c, nth_error confidence idx = Some c /\ 0.6 <= c.

(** The configuration [__init__] sets and nothing changes. *)
Definition default_configuration (b : BaseExercise.t) : Prop :=
  BaseExercise.confidence_threshold b == 0.6 /\
  BaseExercise.phase_durations b = BaseExercise.default_durations.

Definition valid_score (q : Q) : Prop := 0 <= q <= 100.

(** A frame [(keypoints, confidence, elapsed_time)] that passes the gate
    during the Active phase of the default table. *)
Definition active_frame (required_indices : list nat)
    (frame : list Point * list Q * Q) : Prop :=
  let '(keypoints, confidence, elapsed_time) := frame in
  well_formed keypoints confidence /\
  passes confidence required_indices /\
  120 <= elapsed_time < 240.

(** The shoulder distance [analyze] computes on a frame is [d]. *)
Definition shoulders_at (frame : list Point * list Q * Q) (d : Q) : Prop :=
  exists left_shoulder right_shoulder,
    nth_error (fst (fst frame)) KeypointIndex.LEFT_SHOULDER = Some left_shoulder /\
    nth_error (fst (fst frame)) KeypointIndex.RIGHT_SHOULDER = Some right_shoulder /\
    Qabs (fst left_shoulder - fst right_shoulder) == d.

(** The nose offset [analyze] computes on a frame is [x]. *)
Definition nose_offset_at (frame : list Point * list Q * Q) (x : Q) : Prop :=
  exists nose left_shoulder right_shoulder,
    nth_error (fst (fst frame)) KeypointIndex.NOSE = Some nose /\
    nth_error (fst (fst frame)) KeypointIndex.LEFT_SHOULDER = Some left_shoulder /\
    nth_error (fst (fst frame)) KeypointIndex.RIGHT_SHOULDER = Some right_shoulder /\
    fst nose - (fst left_shoulder + fst right_shoulder) / 2 == x.

(** Feeding a detector a list of frames: the object and the analysis after
    each call, in order. *)
Fixpoint run {A}
    (step : A -> list Point -> list Q -> Q -> Py.result (A * ExerciseAnalysis.t))
    (self : A) (frames : list (list Point * list Q * Q))
    : Py.result (list (A * ExerciseAnalysis.t)) :=
  match frames with
  | [] => Py.Return []
  | (keypoints, confidence, elapsed_time) :: rest =>
      '(self, analysis) <- step self keypoints confidence elapsed_time ;;
      trace <- run step self rest ;;
      Py.Return ((self, analysis) :: trace)
  end.

(** [_detect_circle_completion] called on each quadrant in turn: the final
    object and the value each call returned. *)
Fixpoint detect_all (self : AnkleCirclesExercise.t) (quadrants : list Z)
    : AnkleCirclesExercise.t * list bool :=
  match quadrants with
  | [] => (self, [])
  | quadrant :: rest =>
      let '(self, completed) :=
        AnkleCirclesExercise._detect_circle_completion self quadrant in
      let '(self, returned) := detect_all self rest in
      (self, completed :: returned)
  end.

(** What [_detect_circle_completion] reads and writes: the circle count,
    the last quadrant and the transition log. *)
Definition detection_state (self : AnkleCirclesExercise.t)
    : Z * option Z * list Z :=
  (AnkleCirclesExercise.circle_count self,
   AnkleCirclesExercise.last_quadrant self,
   AnkleCirclesExercise.quadrant_visits self).

(** A fresh ankle detector put in the given detection state. *)
Definition with_detection_state (d : Z * option Z * list Z)
    : AnkleCirclesExercise.t :=
  let '(count, last, visits) := d in
  AnkleCirclesExercise.set_circle_count
    (AnkleCirclesExercise.set_last_quadrant
       (AnkleCirclesExercise.set_quadrant_visits
          AnkleCirclesExercise.__init__ visits) last) count.

(** ** Sample frames

    [server.py] sends [np.ones(17) * 0.8] as confidences when a pose is
    found, and all-zero keypoints and confidences when none is. *)

Definition confidence_found : list Q := repeat 0.8 17.
Definition confidence_none : list Q := repeat 0 17.
Definition keypoints_none : list Point := repeat (0, 0) 17.

(** Keypoints with the given nose, shoulders, knees and ankles; the other
    points at the origin. *)
Definition keypoints_of (nose l_shoulder r_shoulder l_knee r_knee l_ankle r_ankle : Point)
    : list Point :=
  [nose; (0, 0); (0, 0); (0, 0); (0, 0); l_shoulder; r_shoulder;
   (0, 0); (0, 0); (0, 0); (0, 0); (0, 0); (0, 0);
   l_knee; r_knee; l_ankle; r_ankle].

(** Shoulders [d] pixels apart. *)
Definition shoulders_apart (d : Q) : list Point :=
  keypoints_of (0, 0) (d, 0) (0, 0) (0, 0) (0, 0) (0, 0) (0, 0).

(** Nose at horizontal offset [x] from the middle of the shoulders. *)
Definition nose_at (x : Q) : list Point :=
  keypoints_of (x, 0) (-50, 0) (50, 0) (0, 0) (0, 0) (0, 0) (0, 0).

(** The squeeze detector after one Setup frame with the shoulders 100
    pixels apart. *)
Definition shoulder_after_setup : ShoulderSqueezesExercise.t :=
  ShoulderSqueezesExercise.set_baseline_distance
    (ShoulderSqueezesExercise.set_base ShoulderSqueezesExercise.__init__
       (BaseExercise.set_phase BaseExercise.__init__ SETUP))
    (Some (Qabs (100 - 0))).

(** Active-phase frames with the shoulders 100, 100, 75, 75 and 100 pixels
    apart. *)
Definition squeeze_frames : list (list Point * list Q * Q) :=
  map (fun d => (shoulders_apart d, confidence_found, 130)) [100; 100; 75; 75; 100].

(** First-half Active frames with the nose at offsets 0, -40, -40, 0, -40. *)
Definition rotation_frames : list (list Point * list Q * Q) :=
  map (fun x => (nose_at x, confidence_found, 150)) [0; -40; -40; 0; -40].

(** The ankle detector once a first frame has been seen in quadrant 4. *)
Definition ankle_in_quadrant_4 : AnkleCirclesExercise.t :=
  AnkleCirclesExercise.set_last_quadrant AnkleCirclesExercise.__init__ (Some 4%Z).

(** Right knee at the origin and right ankle at [p]. *)
Definition ankle_at (p : Point) : list Point :=
  keypoints_of (0, 0) (0, 0) (0, 0) (0, 0) (0, 0) (0, 0) p.

(** Active-phase frames with the right ankle in quadrants 4, 1, 2, 3, 4. *)
Definition circle_frames : list (list Point * list Q * Q) :=
  map (fun p => (ankle_at p, confidence_found, 130))
    [(1, -1); (1, 1); (-1, 1); (-1, -1); (1, -1)].

Module Import Short.
Module SS := ShoulderSqueezesExercise.
Module NR := NeckRotationsExercise.
Module AC := AnkleCirclesExercise.
Module EA := ExerciseAnalysis.
End Short.

(** ** base.py: the geometry helpers

    [calculate_distance] and [calculate_angle] are methods of
    [BaseExercise] that do not read the object.  Their points are pairs of
    real numbers, as they go through [math.sqrt] and [math.acos]; both
    raise [ValueError] outside their domain. *)

Module Geometry.

Definition RPoint : Type := R * R.

(** [math.sqrt(x)]. *)
Definition math_sqrt (x : R) : Py.result R :=
  if Rle_dec 0 x then Py.Return (sqrt x) else Py.Raise Py.ValueError.

(** [math.acos(x)]. *)
Definition math_acos (x : R) : Py.result R :=
  if Rle_dec (-1) x then
    if Rle_dec x 1 then Py.Return (acos x) else Py.Raise Py.ValueError
  else Py.Raise Py.ValueError.

(** [math.degrees(x)]. *)
Definition math_degrees (x : R) : R := x * (180 / PI).

Definition calculate_distance (p1 p2 : RPoint) : Py.result R :=
  math_sqrt ((fst p1 - fst p2) ^ 2 + (snd p1 - snd p2) ^ 2).

Definition calculate_angle (p1 p2 p3 : RPoint) : Py.result R :=
  let v1 := (fst p1 - fst p2, snd p1 - snd p2)%R in
  let v2 := (fst p3 - fst p2, snd p3 - snd p2)%R in
  let dot_product := (fst v1 * fst v2 + snd v1 * snd v2)%R in
  mag1 <- math_sqrt (fst v1 ^ 2 + snd v1 ^ 2) ;;
  mag2 <- math_sqrt (fst v2 ^ 2 + snd v2 ^ 2) ;;
  if Req_dec_T mag1 0 then Py.Return 0%R
  else if Req_dec_T mag2 0 then Py.Return 0%R
  else
    let cos_angle := (dot_product / (mag1 * mag2))%R in
    let cos_angle := Rmax (-1) (Rmin 1 cos_angle) in
    angle_rad <- math_acos cos_angle ;;
    Py.Return (math_degrees angle_rad).

End Geometry.

(** ** Sessions *)

(** The detectors a session can hold: a fresh one from the registry, or
    one left by a call of [analyze] that returned. *)
Inductive reachable : Exercise -> Prop :=
| reachable_fresh (exercise_type : string) (exercise : Exercise) :
    get_exercise exercise_type = Py.Return exercise ->
    reachable exercise
| reachable_analyze (exercise exercise' : Exercise) keypoints confidence
    elapsed_time (a : ExerciseAnalysis.t) :
    reachable exercise ->
    analyze exercise keypoints confidence elapsed_time = Py.Return (exercise', a) ->
    reachable exercise'.

(** What holds of the transition log of the ankle detector between calls:
    it holds quadrants 1 to 4 only, never the same one twice in a row, and
    when it is not empty its last entry is the last quadrant seen. *)
Definition ankle_log_invariant (self : AnkleCirclesExercise.t) : Prop :=
  Forall (fun q => 1 <= q <= 4)%Z (AnkleCirclesExercise.quadrant_visits self) /\
  (forall q, AnkleCirclesExercise.last_quadrant self = Some q -> 1 <= q <= 4)%Z /\
  (AnkleCirclesExercise.quadrant_visits self <> [] ->
   AnkleCirclesExercise.last_quadrant self
   = Some (last (AnkleCirclesExercise.quadrant_visits self) 0%Z)) /\
  (forall before x y after,
     AnkleCirclesExercise.quadrant_visits self = before ++ x :: y :: after ->
     x <> y).

(** What holds of every detector of a session. *)
Definition session_invariant (exercise : Exercise) : Prop :=
  default_configuration (base exercise) /\
  BaseExercise.rep_count (base exercise) = current_count exercise /\
  (0 <= current_count exercise)%Z /\
  match exercise with
  | ShoulderSqueezes _ => True
  | NeckRotations self =>
      NeckRotationsExercise.rotation_threshold self = 30 /\
      (0 <= NeckRotationsExercise.left_rotations self)%Z /\
      (0 <= NeckRotationsExercise.right_rotations self)%Z
  | AnkleCircles self => ankle_log_invariant self
  end.

(** The position of a phase in the declaration of [ExercisePhase]. *)
Definition phase_rank (phase : ExercisePhase) : nat :=
  match phase with
  | NOT_STARTED => 0
  | SETUP => 1
  | ACTIVE => 2
  | COOLDOWN => 3
  | COMPLETED => 4
  end.

(** The sum of the durations of a table. *)
Definition total_duration (items : list (ExercisePhase * Q)) : Q :=
  fold_right (fun item acc => snd item + acc) 0 items.

(** * Properties *)

(** ** Comparisons *)

Lemma ltb_lt (x y : Q) : Py.ltb x y = true <-> x < y.
Proof. unfold Py.ltb, Qlt. apply Z.ltb_lt. Qed.

Lemma ltb_ge (x y : Q) : Py.ltb x y = false <-> y <= x.
Proof. unfold Py.ltb, Qle. apply Z.ltb_ge. Qed.

Ltac qlra := Lqa.lra.
Ltac rlra := Lra.lra.

Ltac ltb_cases :=
  repeat match goal with
  | |- context [Py.ltb ?x ?y] =>
      let E := fresh "E" in
      destruct (Py.ltb x y) eqn:E;
      [apply ltb_lt in E | apply ltb_ge in E]
  end.

(** ** PhaseClock *)

Lemma update_phase_default_cases (self : BaseExercise.t) (elapsed_time : Q) :
  BaseExercise.phase_durations self = BaseExercise.default_durations ->
  snd (BaseExercise.update_phase self elapsed_time) =
    if Py.ltb elapsed_time 0 then NOT_STARTED
    else if Py.ltb elapsed_time 120 then SETUP
    else if Py.ltb elapsed_time 240 then ACTIVE
    else if Py.ltb elapsed_time 300 then COOLDOWN
    else COMPLETED.
Proof.
  intros Hd. unfold BaseExercise.update_phase. rewrite Hd.
  unfold BaseExercise.default_durations.
  cbn [BaseExercise.update_phase_loop].
  ltb_cases; cbn [snd]; try reflexivity; exfalso; qlra.
Qed.

(** C1: with the default durations, [update_phase] returns NotStarted below
    0, Setup on [0,120), Active on [120,240), Cooldown on [240,300) and
    Completed from 300 on; 120 itself is Active. *)
Theorem update_phase_default (self : BaseExercise.t) (elapsed_time : Q) :
  BaseExercise.phase_durations self = BaseExercise.default_durations ->
  let phase := snd (BaseExercise.update_phase self elapsed_time) in
  (elapsed_time < 0 -> phase = NOT_STARTED) /\
  (0 <= elapsed_time < 120 -> phase = SETUP) /\
  (120 <= elapsed_time < 240 -> phase = ACTIVE) /\
  (240 <= elapsed_time < 300 -> phase = COOLDOWN) /\
  (300 <= elapsed_time -> phase = COMPLETED) /\
  (elapsed_time == 120 -> phase = ACTIVE).
Proof.
  intros Hd phase. subst phase.
  rewrite (update_phase_default_cases self elapsed_time Hd).
  repeat split; intros H; ltb_cases; try reflexivity; exfalso; qlra.
Qed.

Lemma update_phase_default_witness :
  snd (BaseExercise.update_phase BaseExercise.__init__ 120) = ACTIVE.
Proof.
  apply (update_phase_default BaseExercise.__init__ 120 eq_refl).
  reflexivity.
Defined.

(** ** Indexing, [min] and the confidence gate *)

Lemma getitem_lt {A} (seq : list A) (idx : nat) :
  (idx < List.length seq)%nat ->
  exists a, nth_error seq idx = Some a /\ Py.getitem seq idx = Py.Return a.
Proof.
  intros H. unfold Py.getitem.
  destruct (nth_error seq idx) eqn:E.
  - eauto.
  - apply nth_error_None in E. lia.
Qed.

Lemma take_total {A} (seq : list A) (indices : list nat) :
  Forall (fun idx => (idx < List.length seq)%nat) indices ->
  exists l, Py.take seq indices = Py.Return l /\ List.length l = List.length indices.
Proof.
  induction 1 as [|idx rest Hidx _ IH]; cbn [Py.take].
  - exists []. split; reflexivity.
  - destruct (getitem_lt seq idx Hidx) as (a & _ & ->).
    destruct IH as (l & -> & Hl). cbn [Py.bind].
    exists (a :: l). split; [reflexivity | cbn [List.length]; lia].
Qed.

Lemma min_total (seq : list Q) :
  seq <> [] -> exists m, Py.min seq = Py.Return m.
Proof. destruct seq; [congruence | intros _; cbn; eauto]. Qed.

Lemma update_phase_threshold (self : BaseExercise.t) (elapsed_time : Q) :
  BaseExercise.confidence_threshold (fst (BaseExercise.update_phase self elapsed_time))
  = BaseExercise.confidence_threshold self.
Proof.
  unfold BaseExercise.update_phase.
  destruct (Py.ltb elapsed_time 0); [reflexivity|].
  destruct (BaseExercise.update_phase_loop _ _ _); reflexivity.
Qed.

Lemma update_phase_durations (self : BaseExercise.t) (elapsed_time : Q) :
  BaseExercise.phase_durations (fst (BaseExercise.update_phase self elapsed_time))
  = BaseExercise.phase_durations self.
Proof.
  unfold BaseExercise.update_phase.
  destruct (Py.ltb elapsed_time 0); [reflexivity|].
  destruct (BaseExercise.update_phase_loop _ _ _); reflexivity.
Qed.

Lemma update_phase_rep_count (self : BaseExercise.t) (elapsed_time : Q) :
  BaseExercise.rep_count (fst (BaseExercise.update_phase self elapsed_time))
  = BaseExercise.rep_count self.
Proof.
  unfold BaseExercise.update_phase.
  destruct (Py.ltb elapsed_time 0); [reflexivity|].
  destruct (BaseExercise.update_phase_loop _ _ _); reflexivity.
Qed.

(** The phase returned depends on the object only through its table. *)
Lemma update_phase_snd_durations (self self' : BaseExercise.t) (elapsed_time : Q) :
  BaseExercise.phase_durations self' = BaseExercise.phase_durations self ->
  snd (BaseExercise.update_phase self' elapsed_time)
  = snd (BaseExercise.update_phase self elapsed_time).
Proof.
  intros H. unfold BaseExercise.update_phase. rewrite H.
  destruct (Py.ltb elapsed_time 0); [reflexivity|].
  destruct (BaseExercise.update_phase_loop _ _ _); reflexivity.
Qed.

(** With every required index in range, the gate returns whether no
    required confidence is below the threshold. *)
Lemma check_confidence_loop_spec (threshold : Q) (confidence : list Q)
    (required_indices : list nat) :
  Forall (fun idx => (idx < List.length confidence)%nat) required_indices ->
  BaseExercise.check_confidence_loop threshold confidence required_indices
  = Py.Return
      (forallb (fun idx => negb (Py.ltb (nth idx confidence 0) threshold))
         required_indices).
Proof.
  induction 1 as [|idx rest Hidx _ IH]; cbn [BaseExercise.check_confidence_loop forallb].
  - reflexivity.
  - destruct (getitem_lt confidence idx Hidx) as (c & Hc & ->). cbn [Py.bind].
    rewrite (nth_error_nth confidence idx 0 Hc).
    destruct (Py.ltb c threshold); [reflexivity | exact IH].
Qed.

Lemma check_confidence_low (self : BaseExercise.t) (confidence : list Q)
    (required_indices : list nat) (idx : nat) (c : Q) :
  Forall (fun idx => (idx < List.length confidence)%nat) required_indices ->
  In idx required_indices ->
  nth_error confidence idx = Some c ->
  c < BaseExercise.confidence_threshold self ->
  BaseExercise.check_confidence self confidence required_indices = Py.Return false.
Proof.
  intros Hr Hin Hc Hlow. unfold BaseExercise.check_confidence.
  rewrite (check_confidence_loop_spec _ _ _ Hr). f_equal.
  apply not_true_is_false. intros Hall.
  rewrite forallb_forall in Hall. specialize (Hall idx Hin).
  rewrite (nth_error_nth confidence idx 0 Hc) in Hall.
  apply ltb_lt in Hlow. rewrite Hlow in Hall. discriminate.
Qed.

Lemma check_confidence_total (self : BaseExercise.t) (confidence : list Q)
    (required_indices : list nat) :
  Forall (fun idx => (idx < List.length confidence)%nat) required_indices ->
  exists ok,
    BaseExercise.check_confidence self confidence required_indices = Py.Return ok.
Proof.
  intros Hr. unfold BaseExercise.check_confidence.
  rewrite (check_confidence_loop_spec _ _ _ Hr). eauto.
Qed.

Lemma required_in_range (exercise : Exercise) (confidence : list Q) :
  List.length confidence = 17%nat ->
  Forall (fun idx => (idx < List.length confidence)%nat) (required_keypoints exercise).
Proof.
  intros ->. destruct exercise; cbn; repeat constructor.
Qed.

(** ** The shape of [analyze] on a well-formed frame *)

Ltac in_range H := rewrite H; cbv; lia.

Lemma shoulder_analyze_shape (self : SS.t) keypoints confidence elapsed_time :
  well_formed keypoints confidence ->
  let b := fst (BaseExercise.update_phase (SS.base self) elapsed_time) in
  let phase := snd (BaseExercise.update_phase (SS.base self) elapsed_time) in
  exists ok lowest left_shoulder right_shoulder,
    BaseExercise.check_confidence (SS.base self) confidence SS.required_keypoints
      = Py.Return ok /\
    nth_error keypoints KeypointIndex.LEFT_SHOULDER = Some left_shoulder /\
    nth_error keypoints KeypointIndex.RIGHT_SHOULDER = Some right_shoulder /\
    SS.analyze self keypoints confidence elapsed_time =
      if ok then
        let d := Qabs (fst left_shoulder - fst right_shoulder) in
        '(self', feedback_messages, form_score) <-
          SS.analyze_phase (SS.set_base self b) phase d elapsed_time ;;
        Py.Return (self', SS.analysis self' phase form_score feedback_messages lowest d)
      else
        Py.Return (SS.set_base self b,
                   SS.low_confidence_analysis (SS.set_base self b) phase).
Proof.
  intros [Hk Hc] b phase.
  pose proof (required_in_range (ShoulderSqueezes self) confidence Hc) as Hr.
  cbn [required_keypoints] in Hr.
  destruct (check_confidence_total (SS.base self) confidence _ Hr) as [ok Hok].
  destruct (take_total confidence _ Hr) as (req & Hreq & Hlen).
  destruct (min_total req) as [lowest Hmin].
  { destruct req; [discriminate Hlen | congruence]. }
  destruct (getitem_lt keypoints KeypointIndex.LEFT_SHOULDER) as (ls & Hls & Gls);
    [in_range Hk|].
  destruct (getitem_lt keypoints KeypointIndex.RIGHT_SHOULDER) as (rs & Hrs & Grs);
    [in_range Hk|].
  exists ok, lowest, ls, rs. repeat split; try assumption.
  unfold SS.analyze. subst b phase.
  destruct (BaseExercise.update_phase (SS.base self) elapsed_time) as [b phase] eqn:Hup.
  cbn [fst snd SS.base SS.set_base].
  assert (Hb : BaseExercise.check_confidence b confidence SS.required_keypoints
               = Py.Return ok).
  { unfold BaseExercise.check_confidence in *.
    replace b with (fst (BaseExercise.update_phase (SS.base self) elapsed_time))
      by (rewrite Hup; reflexivity).
    rewrite update_phase_threshold. exact Hok. }
  rewrite Hb. cbn [Py.bind]. destruct ok; cbn [negb]; [|reflexivity].
  rewrite Gls, Grs. cbn [Py.bind].
  destruct (SS.analyze_phase _ _ _ _) as [[[self' fm] fs]|e]; cbn [Py.bind];
    [|reflexivity].
  rewrite Hreq. cbn [Py.bind]. rewrite Hmin. reflexivity.
Qed.

Lemma neck_analyze_shape (self : NR.t) keypoints confidence elapsed_time :
  well_formed keypoints confidence ->
  let b := fst (BaseExercise.update_phase (NR.base self) elapsed_time) in
  let phase := snd (BaseExercise.update_phase (NR.base self) elapsed_time) in
  exists ok lowest nose left_shoulder right_shoulder,
    BaseExercise.check_confidence (NR.base self) confidence NR.required_keypoints
      = Py.Return ok /\
    nth_error keypoints KeypointIndex.NOSE = Some nose /\
    nth_error keypoints KeypointIndex.LEFT_SHOULDER = Some left_shoulder /\
    nth_error keypoints KeypointIndex.RIGHT_SHOULDER = Some right_shoulder /\
    NR.analyze self keypoints confidence elapsed_time =
      if ok then
        let shoulder_midpoint_x := (fst left_shoulder + fst right_shoulder) / 2 in
        let nose_offset := fst nose - shoulder_midpoint_x in
        let '(self', feedback_messages, form_score) :=
          NR.analyze_phase (NR.set_base self b) phase shoulder_midpoint_x
            nose_offset elapsed_time in
        let self' :=
          NR.set_rep_count self'
            (NR.left_rotations self' + NR.right_rotations self') in
        Py.Return (self', NR.analysis self' phase form_score feedback_messages
                            lowest nose_offset)
      else
        Py.Return (NR.set_base self b,
                   NR.low_confidence_analysis (NR.set_base self b) phase).
Proof.
  intros [Hk Hc] b phase.
  pose proof (required_in_range (NeckRotations self) confidence Hc) as Hr.
  cbn [required_keypoints] in Hr.
  destruct (check_confidence_total (NR.base self) confidence _ Hr) as [ok Hok].
  destruct (take_total confidence _ Hr) as (req & Hreq & Hlen).
  destruct (min_total req) as [lowest Hmin].
  { destruct req; [discriminate Hlen | congruence]. }
  destruct (getitem_lt keypoints KeypointIndex.NOSE) as (n & Hn & Gn);
    [in_range Hk|].
  destruct (getitem_lt keypoints KeypointIndex.LEFT_SHOULDER) as (ls & Hls & Gls);
    [in_range Hk|].
  destruct (getitem_lt keypoints KeypointIndex.RIGHT_SHOULDER) as (rs & Hrs & Grs);
    [in_range Hk|].
  exists ok, lowest, n, ls, rs. repeat split; try assumption.
  unfold NR.analyze. subst b phase.
  destruct (BaseExercise.update_phase (NR.base self) elapsed_time) as [b phase] eqn:Hup.
  cbn [fst snd NR.base NR.set_base].
  assert (Hb : BaseExercise.check_confidence b confidence NR.required_keypoints
               = Py.Return ok).
  { unfold BaseExercise.check_confidence in *.
    replace b with (fst (BaseExercise.update_phase (NR.base self) elapsed_time))
      by (rewrite Hup; reflexivity).
    rewrite update_phase_threshold. exact Hok. }
  rewrite Hb. cbn [Py.bind]. destruct ok; cbn [negb]; [|reflexivity].
  rewrite Gn, Gls, Grs. cbn [Py.bind].
  destruct (NR.analyze_phase _ _ _ _ _) as [[self' fm] fs].
  rewrite Hreq. cbn [Py.bind]. rewrite Hmin. reflexivity.
Qed.

Lemma tracked_points_total (self : AC.t) (keypoints : list Point) :
  List.length keypoints = 17%nat ->
  exists ankle knee, AC.tracked_points self keypoints = Py.Return (ankle, knee).
Proof.
  intros Hk. unfold AC.tracked_points.
  destruct (getitem_lt keypoints KeypointIndex.LEFT_ANKLE) as (la & _ & Gla);
    [in_range Hk|].
  destruct (getitem_lt keypoints KeypointIndex.RIGHT_ANKLE) as (ra & _ & Gra);
    [in_range Hk|].
  destruct (getitem_lt keypoints KeypointIndex.LEFT_KNEE) as (lk & _ & Glk);
    [in_range Hk|].
  destruct (getitem_lt keypoints KeypointIndex.RIGHT_KNEE) as (rk & _ & Grk);
    [in_range Hk|].
  rewrite Gla, Gra, Glk, Grk.
  destruct (AC.active_ankle self); cbn [Py.bind]; eauto.
Qed.

Lemma ankle_analyze_shape (self : AC.t) keypoints confidence elapsed_time :
  well_formed keypoints confidence ->
  let b := fst (BaseExercise.update_phase (AC.base self) elapsed_time) in
  let phase := snd (BaseExercise.update_phase (AC.base self) elapsed_time) in
  exists ok lowest ankle knee,
    BaseExercise.check_confidence (AC.base self) confidence AC.required_keypoints
      = Py.Return ok /\
    AC.tracked_points self keypoints = Py.Return (ankle, knee) /\
    AC.analyze self keypoints confidence elapsed_time =
      if ok then
        let current_angle := AC._calculate_ankle_angle ankle knee in
        let current_quadrant := AC._get_quadrant current_angle in
        let '(self', feedback_messages, form_score) :=
          AC.analyze_phase (AC.set_base self b) phase current_angle
            current_quadrant elapsed_time in
        let self' := AC.set_rep_count self' (AC.circle_count self') in
        Py.Return (self', AC.analysis self' phase form_score feedback_messages
                            lowest current_angle current_quadrant)
      else
        Py.Return (AC.set_base self b,
                   AC.low_confidence_analysis (AC.set_base self b) phase).
Proof.
  intros [Hk Hc] b phase.
  pose proof (required_in_range (AnkleCircles self) confidence Hc) as Hr.
  cbn [required_keypoints] in Hr.
  destruct (check_confidence_total (AC.base self) confidence _ Hr) as [ok Hok].
  destruct (take_total confidence _ Hr) as (req & Hreq & Hlen).
  destruct (min_total req) as [lowest Hmin].
  { destruct req; [discriminate Hlen | congruence]. }
  destruct (tracked_points_total self keypoints Hk) as (ankle & knee & Htp).
  exists ok, lowest, ankle, knee. repeat split; try assumption.
  unfold AC.analyze. subst b phase.
  destruct (BaseExercise.update_phase (AC.base self) elapsed_time) as [b phase] eqn:Hup.
  cbn [fst snd AC.base AC.set_base].
  assert (Hb : BaseExercise.check_confidence b confidence AC.required_keypoints
               = Py.Return ok).
  { unfold BaseExercise.check_confidence in *.
    replace b with (fst (BaseExercise.update_phase (AC.base self) elapsed_time))
      by (rewrite Hup; reflexivity).
    rewrite update_phase_threshold. exact Hok. }
  rewrite Hb. cbn [Py.bind]. destruct ok; cbn [negb]; [|reflexivity].
  change (AC.tracked_points (AC.set_base self b) keypoints)
    with (AC.tracked_points self keypoints).
  rewrite Htp. cbn [Py.bind].
  destruct (AC.analyze_phase _ _ _ _ _) as [[self' fm] fs].
  rewrite Hreq. cbn [Py.bind]. rewrite Hmin. reflexivity.
Qed.

(** ** ConfidenceGate *)

Ltac bind_inv H x :=
  match type of H with
  | Py.bind ?m _ = Py.Return _ =>
      let E := fresh "E" in
      destruct m as [x|] eqn:E; cbn [Py.bind] in H; [|discriminate H]
  end.

Lemma shoulder_analyze_low (self : SS.t) keypoints confidence elapsed_time :
  BaseExercise.check_confidence (SS.base self) confidence SS.required_keypoints
    = Py.Return false ->
  let self' :=
    SS.set_base self (fst (BaseExercise.update_phase (SS.base self) elapsed_time)) in
  SS.analyze self keypoints confidence elapsed_time =
    Py.Return (self',
      SS.low_confidence_analysis self'
        (snd (BaseExercise.update_phase (SS.base self) elapsed_time))).
Proof.
  intros Hlow self'. subst self'. unfold SS.analyze.
  pose proof (update_phase_threshold (SS.base self) elapsed_time) as Ht.
  destruct (BaseExercise.update_phase (SS.base self) elapsed_time) as [b phase].
  cbn [fst snd SS.base SS.set_base] in *.
  unfold BaseExercise.check_confidence in *. rewrite Ht, Hlow. reflexivity.
Qed.

Lemma neck_analyze_low (self : NR.t) keypoints confidence elapsed_time :
  BaseExercise.check_confidence (NR.base self) confidence NR.required_keypoints
    = Py.Return false ->
  let self' :=
    NR.set_base self (fst (BaseExercise.update_phase (NR.base self) elapsed_time)) in
  NR.analyze self keypoints confidence elapsed_time =
    Py.Return (self',
      NR.low_confidence_analysis self'
        (snd (BaseExercise.update_phase (NR.base self) elapsed_time))).
Proof.
  intros Hlow self'. subst self'. unfold NR.analyze.
  pose proof (update_phase_threshold (NR.base self) elapsed_time) as Ht.
  destruct (BaseExercise.update_phase (NR.base self) elapsed_time) as [b phase].
  cbn [fst snd NR.base NR.set_base] in *.
  unfold BaseExercise.check_confidence in *. rewrite Ht, Hlow. reflexivity.
Qed.

Lemma ankle_analyze_low (self : AC.t) keypoints confidence elapsed_time :
  BaseExercise.check_confidence (AC.base self) confidence AC.required_keypoints
    = Py.Return false ->
  let self' :=
    AC.set_base self (fst (BaseExercise.update_phase (AC.base self) elapsed_time)) in
  AC.analyze self keypoints confidence elapsed_time =
    Py.Return (self',
      AC.low_confidence_analysis self'
        (snd (BaseExercise.update_phase (AC.base self) elapsed_time))).
Proof.
  intros Hlow self'. subst self'. unfold AC.analyze.
  pose proof (update_phase_threshold (AC.base self) elapsed_time) as Ht.
  destruct (BaseExercise.update_phase (AC.base self) elapsed_time) as [b phase].
  cbn [fst snd AC.base AC.set_base] in *.
  unfold BaseExercise.check_confidence in *. rewrite Ht, Hlow. reflexivity.
Qed.

(** Every analysis reports the count the detector holds when the call
    ends. *)
Lemma analyze_reports_current_count (exercise exercise' : Exercise)
    keypoints confidence elapsed_time (a : EA.t) :
  analyze exercise keypoints confidence elapsed_time = Py.Return (exercise', a) ->
  EA.rep_count a = current_count exercise'.
Proof.
  destruct exercise as [self|self|self]; cbn [analyze]; unfold lift; intros H;
    bind_inv H r; destruct r as [self' a']; injection H as <- <-;
    cbn [current_count].
  - unfold SS.analyze in E.
    destruct (BaseExercise.update_phase _ _) as [b phase].
    bind_inv E ok. destruct ok; cbn [negb] in E.
    + bind_inv E ls. bind_inv E rs. bind_inv E r. destruct r as [[s fm] fs].
      bind_inv E req. bind_inv E lowest.
      injection E as <- <-. reflexivity.
    + injection E as <- <-. reflexivity.
  - unfold NR.analyze in E.
    destruct (BaseExercise.update_phase _ _) as [b phase].
    bind_inv E ok. destruct ok; cbn [negb] in E.
    + bind_inv E n. bind_inv E ls. bind_inv E rs.
      destruct (NR.analyze_phase _ _ _ _ _) as [[s fm] fs].
      bind_inv E req. bind_inv E lowest. injection E as <- <-. reflexivity.
    + injection E as <- <-. reflexivity.
  - unfold AC.analyze in E.
    destruct (BaseExercise.update_phase _ _) as [b phase].
    bind_inv E ok. destruct ok; cbn [negb] in E.
    + bind_inv E pts. destruct pts as [ankle knee].
      destruct (AC.analyze_phase _ _ _ _ _) as [[s fm] fs].
      bind_inv E req. bind_inv E lowest. injection E as <- <-. reflexivity.
    + injection E as <- <-. reflexivity.
Qed.

(** C2: when a required keypoint's confidence is below the 0.6 threshold,
    every detector returns an analysis with score 0, confidence 0, not in
    proper position, one explanatory message, and the rep count that the
    previous call reported; no counter or flag of the detector changes. *)
Theorem low_confidence_degraded (previous exercise : Exercise)
    keypoints0 confidence0 elapsed_time0 (a0 : EA.t)
    keypoints confidence elapsed_time (idx : nat) (c : Q) :
  analyze previous keypoints0 confidence0 elapsed_time0 = Py.Return (exercise, a0) ->
  BaseExercise.confidence_threshold (base exercise) == 0.6 ->
  List.length confidence = 17%nat ->
  In idx (required_keypoints exercise) ->
  nth_error confidence idx = Some c ->
  c < 0.6 ->
  exists exercise' a,
    analyze exercise keypoints confidence elapsed_time = Py.Return (exercise', a) /\
    EA.form_score a = 0 /\
    EA.confidence a = 0 /\
    EA.is_proper_position a = false /\
    EA.feedback_messages a = [cannot_see exercise] /\
    EA.rep_count a = EA.rep_count a0 /\
    counters exercise' = counters exercise /\
    flag exercise' = flag exercise.
Proof.
  intros Hprev Hthr Hlen Hin Hc Hlow.
  rewrite (analyze_reports_current_count _ _ _ _ _ _ Hprev).
  assert (Hgate : BaseExercise.check_confidence (base exercise) confidence
                    (required_keypoints exercise) = Py.Return false).
  { apply (check_confidence_low _ _ _ idx c); auto using required_in_range.
    rewrite Hthr. exact Hlow. }
  clear Hprev Hthr Hin Hc Hlow.
  destruct exercise as [self|self|self]; cbn [analyze base required_keypoints] in *.
  - rewrite (shoulder_analyze_low self _ _ _ Hgate). cbn [lift Py.bind].
    eexists _, _. split; [reflexivity|].
    cbn. unfold SS.rep_count. cbn. rewrite update_phase_rep_count. auto 8.
  - rewrite (neck_analyze_low self _ _ _ Hgate). cbn [lift Py.bind].
    eexists _, _. split; [reflexivity|].
    cbn. unfold NR.rep_count. cbn. rewrite update_phase_rep_count. auto 8.
  - rewrite (ankle_analyze_low self _ _ _ Hgate). cbn [lift Py.bind].
    eexists _, _. split; [reflexivity|].
    cbn. unfold AC.rep_count. cbn. rewrite update_phase_rep_count. auto 8.
Qed.

Lemma low_confidence_degraded_witness :
  exists exercise' a,
    analyze (ShoulderSqueezes shoulder_after_setup) keypoints_none confidence_none 6
      = Py.Return (exercise', a) /\
    EA.form_score a = 0 /\
    EA.confidence a = 0 /\
    EA.is_proper_position a = false /\
    EA.rep_count a = 0%Z.
Proof.
  destruct (low_confidence_degraded
              (ShoulderSqueezes SS.__init__) (ShoulderSqueezes shoulder_after_setup)
              (shoulders_apart 100) confidence_found 5
              (SS.analysis shoulder_after_setup SETUP 70
                 ["Stand tall with shoulders relaxed"%string] 0.8
                 (Qabs (100 - 0)))
              keypoints_none confidence_none 6 5%nat 0)
    as (exercise' & a & H & Hs & Hc & Hp & _ & Hr & _).
  - reflexivity.
  - reflexivity.
  - reflexivity.
  - cbn. auto.
  - reflexivity.
  - reflexivity.
  - exists exercise', a. auto.
Defined.

(** ** The squeeze branch *)

Lemma truthy_spec (a : option Q) :
  Py.truthy a = true <-> exists x, a = Some x /\ ~ x == 0.
Proof.
  destruct a as [x|]; cbn [Py.truthy].
  - rewrite negb_true_iff. split.
    + intros H. exists x. split; [reflexivity|].
      intros Hx. apply Qeq_bool_iff in Hx. congruence.
    + intros (y & [= <-] & Hy). destruct (Qeq_bool x 0) eqn:E; [|reflexivity].
      apply Qeq_bool_iff in E. contradiction.
  - split; [discriminate | intros (y & [=] & _)].
Qed.

(** With an established baseline the Active branch evaluates the squeeze
    percentage and raises nothing. *)
Lemma shoulder_active_established (self : SS.t) (d baseline : Q) :
  SS.baseline_distance self = Some baseline ->
  ~ baseline == 0 ->
  let squeeze_percent := (baseline - d) / baseline * 100 in
  SS.analyze_active self d =
    Py.Return
      (if Py.ltb 20 squeeze_percent then
         if negb (SS.in_squeeze self) then
           (SS.set_in_squeeze self true,
            ["Good squeeze! Hold for 2 seconds"%string], 90)
         else (self, ["Keep holding the squeeze"%string], 85)
       else
         if SS.in_squeeze self then
           (SS.set_in_squeeze (SS.set_rep_count self (SS.rep_count self + 1)) false,
            [("Rep " ++ Py.str (SS.rep_count self + 1) ++ " complete!")%string], 70)
         else (self, ["Squeeze your shoulder blades together"%string], 60)).
Proof.
  intros Hb Hnz sp. subst sp. unfold SS.analyze_active.
  assert (Ht : Py.truthy (SS.baseline_distance self) = true)
    by (apply truthy_spec; eauto).
  rewrite Ht, Hb. cbn [Py.sub_opt Py.unwrap Py.bind]. unfold Py.div.
  destruct (Qeq_bool baseline 0) eqn:E.
  { apply Qeq_bool_iff in E. contradiction. }
  cbn [Py.bind].
  destruct (Py.ltb 20 _); destruct (SS.in_squeeze self); reflexivity.
Qed.

(** Without one (baseline [None] or zero) the branch is skipped. *)
Lemma shoulder_active_skipped (self : SS.t) (d : Q) :
  Py.truthy (SS.baseline_distance self) = false ->
  SS.analyze_active self d = Py.Return (self, [], 70).
Proof. intros H. unfold SS.analyze_active. rewrite H. reflexivity. Qed.

Ltac score := unfold valid_score; split; discriminate.

Lemma shoulder_analyze_phase_total (self : SS.t) phase (d elapsed_time : Q) :
  exists self' feedback_messages form_score,
    SS.analyze_phase self phase d elapsed_time
      = Py.Return (self', feedback_messages, form_score) /\
    valid_score form_score.
Proof.
  destruct phase; cbn [SS.analyze_phase]; try (eexists _, _, _; split; [reflexivity | score]).
  - destruct (_ || _); eexists _, _, _; (split; [reflexivity | score]).
  - destruct (Py.truthy (SS.baseline_distance self)) eqn:Ht.
    + apply truthy_spec in Ht. destruct Ht as (b & Hb & Hnz).
      rewrite (shoulder_active_established self d b Hb Hnz).
      destruct (Py.ltb 20 _); destruct (SS.in_squeeze self); cbn [negb];
        eexists _, _, _; (split; [reflexivity | score]).
    + rewrite (shoulder_active_skipped self d Ht).
      eexists _, _, _; (split; [reflexivity | score]).
Qed.

Lemma neck_analyze_phase_score (self : NR.t) phase (m o elapsed_time : Q) :
  valid_score (snd (NR.analyze_phase self phase m o elapsed_time)).
Proof.
  destruct phase; cbn [NR.analyze_phase snd]; try score.
  unfold NR.analyze_active.
  repeat match goal with
         | |- context [if ?c then _ else _] => destruct c
         end; cbn [snd]; score.
Qed.

Lemma ankle_analyze_phase_score (self : AC.t) phase (a : R) (q : Z) (elapsed_time : Q) :
  valid_score (snd (AC.analyze_phase self phase a q elapsed_time)).
Proof.
  destruct phase; cbn [AC.analyze_phase snd]; try score.
  unfold AC.analyze_active.
  destruct (AC._detect_circle_completion _ _) as [s completed].
  destruct completed; destruct (_ && _); cbn [snd]; score.
Qed.

(** ** Form score *)

(** C8: on every well-formed frame and at every elapsed time, each detector
    returns an analysis, and its form score lies in [0, 100]. *)
Theorem form_score_bounded (exercise : Exercise) keypoints confidence elapsed_time :
  well_formed keypoints confidence ->
  exists exercise' a,
    analyze exercise keypoints confidence elapsed_time = Py.Return (exercise', a) /\
    0 <= EA.form_score a <= 100.
Proof.
  intros Hwf. destruct exercise as [self|self|self]; cbn [analyze].
  - destruct (shoulder_analyze_shape self _ _ elapsed_time Hwf)
      as (ok & lowest & ls & rs & _ & _ & _ & ->).
    destruct ok.
    + cbv zeta.
      destruct (shoulder_analyze_phase_total
                  (SS.set_base self (fst (BaseExercise.update_phase (SS.base self) elapsed_time)))
                  (snd (BaseExercise.update_phase (SS.base self) elapsed_time))
                  (Qabs (fst ls - fst rs)) elapsed_time)
        as (self' & fm & fs & -> & Hs).
      cbn [lift Py.bind]. eexists _, _. split; [reflexivity | exact Hs].
    + cbn [lift Py.bind]. eexists _, _. split; [reflexivity | cbn; score].
  - destruct (neck_analyze_shape self _ _ elapsed_time Hwf)
      as (ok & lowest & n & ls & rs & _ & _ & _ & _ & ->).
    destruct ok.
    + cbv zeta.
      match goal with
      | |- context [NR.analyze_phase ?s ?p ?m ?o ?t] =>
          pose proof (neck_analyze_phase_score s p m o t) as Hs;
          destruct (NR.analyze_phase s p m o t) as [[self' fm] fs]
      end.
      cbn [lift Py.bind]. eexists _, _. split; [reflexivity | exact Hs].
    + cbn [lift Py.bind]. eexists _, _. split; [reflexivity | cbn; score].
  - destruct (ankle_analyze_shape self _ _ elapsed_time Hwf)
      as (ok & lowest & ankle & knee & _ & _ & ->).
    destruct ok.
    + cbv zeta.
      match goal with
      | |- context [AC.analyze_phase ?s ?p ?a ?q ?t] =>
          pose proof (ankle_analyze_phase_score s p a q t) as Hs;
          destruct (AC.analyze_phase s p a q t) as [[self' fm] fs]
      end.
      cbn [lift Py.bind]. eexists _, _. split; [reflexivity | exact Hs].
    + cbn [lift Py.bind]. eexists _, _. split; [reflexivity | cbn; score].
Qed.

Lemma form_score_bounded_witness :
  exists exercise' a,
    analyze (ShoulderSqueezes shoulder_after_setup) (shoulders_apart 75)
      confidence_found 130 = Py.Return (exercise', a) /\
    0 <= EA.form_score a <= 100.
Proof.
  apply (form_score_bounded (ShoulderSqueezes shoulder_after_setup)
           (shoulders_apart 75) confidence_found 130).
  split; reflexivity.
Defined.

(** ** Frames that pass the gate during the Active phase *)

Lemma check_confidence_pass (self : BaseExercise.t) (confidence : list Q)
    (required_indices : list nat) :
  BaseExercise.confidence_threshold self == 0.6 ->
  passes confidence required_indices ->
  BaseExercise.check_confidence self confidence required_indices = Py.Return true.
Proof.
  intros Hthr Hp. unfold BaseExercise.check_confidence.
  rewrite check_confidence_loop_spec.
  - f_equal. apply forallb_forall. intros idx Hin.
    destruct (Hp idx Hin) as (c & Hc & Hge).
    rewrite (nth_error_nth confidence idx 0 Hc).
    apply negb_true_iff, ltb_ge. rewrite Hthr. exact Hge.
  - apply Forall_forall. intros idx Hin.
    destruct (Hp idx Hin) as (c & Hc & _).
    apply nth_error_Some. congruence.
Qed.

Lemma update_phase_active (self : BaseExercise.t) (elapsed_time : Q) :
  BaseExercise.phase_durations self = BaseExercise.default_durations ->
  120 <= elapsed_time < 240 ->
  snd (BaseExercise.update_phase self elapsed_time) = ACTIVE.
Proof.
  intros Hd Ht. rewrite (update_phase_default_cases self elapsed_time Hd).
  ltb_cases; try reflexivity; exfalso; qlra.
Qed.

Lemma update_phase_configuration (self : BaseExercise.t) (elapsed_time : Q) :
  default_configuration self ->
  default_configuration (fst (BaseExercise.update_phase self elapsed_time)).
Proof.
  intros [Ht Hd]. split.
  - rewrite update_phase_threshold. exact Ht.
  - rewrite update_phase_durations. exact Hd.
Qed.

(** ** Shoulder squeezes: one Active frame *)

(** One Active-phase frame that passes the gate, for a detector with the
    default configuration.  [d] is the shoulder distance of the frame. *)
Lemma shoulder_active_frame (self : SS.t) keypoints confidence elapsed_time
    (left_shoulder right_shoulder : Point) :
  default_configuration (SS.base self) ->
  well_formed keypoints confidence ->
  passes confidence SS.required_keypoints ->
  120 <= elapsed_time < 240 ->
  nth_error keypoints KeypointIndex.LEFT_SHOULDER = Some left_shoulder ->
  nth_error keypoints KeypointIndex.RIGHT_SHOULDER = Some right_shoulder ->
  let d := Qabs (fst left_shoulder - fst right_shoulder) in
  exists lowest,
    SS.analyze self keypoints confidence elapsed_time =
      '(self', feedback_messages, form_score) <-
        SS.analyze_active
          (SS.set_base self
             (fst (BaseExercise.update_phase (SS.base self) elapsed_time))) d ;;
      Py.Return (self', SS.analysis self' ACTIVE form_score feedback_messages lowest d).
Proof.
  intros [Hthr Hdur] Hwf Hpass Ht Hls Hrs d.
  destruct (shoulder_analyze_shape self _ _ elapsed_time Hwf)
    as (ok & lowest & ls & rs & Hok & Hls' & Hrs' & ->).
  rewrite (check_confidence_pass _ _ _ Hthr Hpass) in Hok. injection Hok as <-.
  rewrite Hls in Hls'. injection Hls' as <-.
  rewrite Hrs in Hrs'. injection Hrs' as <-.
  rewrite (update_phase_active _ _ Hdur Ht).
  exists lowest. reflexivity.
Qed.

(** What an Active frame does to a detector with an established baseline:
    [in_squeeze] becomes whether the squeeze exceeds 20 percent, and a rep
    is counted exactly on a release. *)
Lemma shoulder_active_step (self : SS.t) keypoints confidence elapsed_time
    (left_shoulder right_shoulder : Point) (baseline : Q) :
  default_configuration (SS.base self) ->
  well_formed keypoints confidence ->
  passes confidence SS.required_keypoints ->
  120 <= elapsed_time < 240 ->
  nth_error keypoints KeypointIndex.LEFT_SHOULDER = Some left_shoulder ->
  nth_error keypoints KeypointIndex.RIGHT_SHOULDER = Some right_shoulder ->
  SS.baseline_distance self = Some baseline ->
  ~ baseline == 0 ->
  let d := Qabs (fst left_shoulder - fst right_shoulder) in
  let squeezed := Py.ltb 20 ((baseline - d) / baseline * 100) in
  exists self' a,
    SS.analyze self keypoints confidence elapsed_time = Py.Return (self', a) /\
    default_configuration (SS.base self') /\
    SS.baseline_distance self' = Some baseline /\
    SS.in_squeeze self' = squeezed /\
    SS.rep_count self' =
      (SS.rep_count self + if negb squeezed && SS.in_squeeze self then 1 else 0)%Z /\
    EA.rep_count a = SS.rep_count self' /\
    EA.form_score a =
      (if squeezed then if SS.in_squeeze self then 85 else 90
       else if SS.in_squeeze self then 70 else 60).
Proof.
  intros Hcfg Hwf Hpass Ht Hls Hrs Hb Hnz d squeezed.
  destruct (shoulder_active_frame self _ _ _ _ _ Hcfg Hwf Hpass Ht Hls Hrs)
    as [lowest ->].
  fold d.
  pose proof (update_phase_configuration _ elapsed_time Hcfg) as Hcfg'.
  pose proof (update_phase_rep_count (SS.base self) elapsed_time) as Hrep.
  set (b := fst (BaseExercise.update_phase (SS.base self) elapsed_time)) in *.
  rewrite (shoulder_active_established (SS.set_base self b) d baseline Hb Hnz).
  fold squeezed. cbn [Py.bind SS.set_base SS.in_squeeze].
  destruct squeezed; destruct (SS.in_squeeze self) eqn:Hin; cbn [negb andb];
    eexists _, _; (split; [reflexivity|]);
    unfold SS.rep_count; cbn; rewrite ?Hin, ?Hrep;
    repeat split; try assumption; try reflexivity; try apply Hcfg'; lia.
Qed.

Lemma ltb_proper (x y y' : Q) : y == y' -> Py.ltb x y = Py.ltb x y'.
Proof.
  intros H. destruct (Py.ltb x y') eqn:E.
  - apply ltb_lt. apply ltb_lt in E. rewrite H. exact E.
  - apply ltb_ge. apply ltb_ge in E. rewrite H. exact E.
Qed.

Lemma ltb_proper_l (x x' y : Q) : x == x' -> Py.ltb x y = Py.ltb x' y.
Proof.
  intros H. destruct (Py.ltb x' y) eqn:E.
  - apply ltb_lt. apply ltb_lt in E. rewrite H. exact E.
  - apply ltb_ge. apply ltb_ge in E. rewrite H. exact E.
Qed.

Lemma squeezed_at (baseline d b' d' : Q) :
  baseline == b' -> d == d' ->
  Py.ltb 20 ((baseline - d) / baseline * 100) = Py.ltb 20 ((b' - d') / b' * 100).
Proof. intros Hb Hd. apply ltb_proper. rewrite Hb, Hd. reflexivity. Qed.

(** One step of the five-frame scenario: the step lemma with the distance
    and the baseline known up to equality of rationals. *)
Lemma shoulder_scenario_step (self : SS.t) frame (baseline d : Q) :
  default_configuration (SS.base self) ->
  SS.baseline_distance self = Some baseline ->
  baseline == 100 ->
  active_frame SS.required_keypoints frame ->
  shoulders_at frame d ->
  let squeezed := Py.ltb 20 ((100 - d) / 100 * 100) in
  exists self' a,
    SS.analyze self (fst (fst frame)) (snd (fst frame)) (snd frame)
      = Py.Return (self', a) /\
    default_configuration (SS.base self') /\
    SS.baseline_distance self' = Some baseline /\
    SS.in_squeeze self' = squeezed /\
    SS.rep_count self' =
      (SS.rep_count self + if negb squeezed && SS.in_squeeze self then 1 else 0)%Z /\
    EA.rep_count a = SS.rep_count self' /\
    EA.form_score a =
      (if squeezed then if SS.in_squeeze self then 85 else 90
       else if SS.in_squeeze self then 70 else 60).
Proof.
  intros Hcfg Hb Hb100 Hf (ls & rs & Hls & Hrs & Hd) squeezed.
  destruct frame as [[keypoints confidence] elapsed_time].
  destruct Hf as (Hwf & Hpass & Ht). cbn [fst snd] in *.
  assert (Hnz : ~ baseline == 0) by (rewrite Hb100; discriminate).
  destruct (shoulder_active_step self _ _ _ _ _ baseline Hcfg Hwf Hpass Ht Hls Hrs Hb Hnz)
    as (self' & a & Ha & H).
  exists self', a. split; [exact Ha|].
  subst squeezed. rewrite <- (squeezed_at baseline _ 100 d Hb100 Hd). exact H.
Qed.

(** ** Shoulder squeezes: hysteresis *)

(** The comparison is strict: with baseline 100 a distance of exactly 80,
    a squeeze of 20 percent, does not enter the squeeze. *)
Lemma squeeze_of_20_percent_not_entered :
  Py.ltb 20 ((100 - 80) / 100 * 100) = false.
Proof. reflexivity. Qed.

(** C3: in the Active phase with an established baseline, a squeeze above
    20 percent while not in a squeeze sets [in_squeeze] with score 90, and
    a squeeze of at most 20 percent while in a squeeze counts exactly one
    rep and clears [in_squeeze]; with baseline 100 and the distances
    100, 100, 75, 75, 100 the flag is set at the first 75 and the one rep
    is counted at the final 100. *)
Theorem squeeze_hysteresis :
  (forall (self : SS.t) keypoints confidence elapsed_time
          (left_shoulder right_shoulder : Point) (baseline : Q),
      default_configuration (SS.base self) ->
      active_frame SS.required_keypoints (keypoints, confidence, elapsed_time) ->
      nth_error keypoints KeypointIndex.LEFT_SHOULDER = Some left_shoulder ->
      nth_error keypoints KeypointIndex.RIGHT_SHOULDER = Some right_shoulder ->
      SS.baseline_distance self = Some baseline ->
      ~ baseline == 0 ->
      let d := Qabs (fst left_shoulder - fst right_shoulder) in
      let squeeze_percent := (baseline - d) / baseline * 100 in
      exists self' a,
        SS.analyze self keypoints confidence elapsed_time = Py.Return (self', a) /\
        (20 < squeeze_percent -> SS.in_squeeze self = false ->
           SS.in_squeeze self' = true /\
           EA.form_score a = 90 /\
           SS.rep_count self' = SS.rep_count self) /\
        (squeeze_percent <= 20 -> SS.in_squeeze self = true ->
           SS.in_squeeze self' = false /\
           SS.rep_count self' = (SS.rep_count self + 1)%Z /\
           EA.rep_count a = (SS.rep_count self + 1)%Z)) /\
  (forall (self : SS.t) (frames : list (list Point * list Q * Q)) (baseline : Q),
      default_configuration (SS.base self) ->
      SS.baseline_distance self = Some baseline ->
      baseline == 100 ->
      SS.in_squeeze self = false ->
      Forall (active_frame SS.required_keypoints) frames ->
      Forall2 shoulders_at frames [100; 100; 75; 75; 100] ->
      let n := SS.rep_count self in
      exists trace,
        run SS.analyze self frames = Py.Return trace /\
        map (fun r => SS.in_squeeze (fst r)) trace = [false; false; true; true; false] /\
        map (fun r => SS.rep_count (fst r)) trace = [n; n; n; n; (n + 1)%Z] /\
        map (fun r => EA.rep_count (snd r)) trace = [n; n; n; n; (n + 1)%Z] /\
        map (fun r => EA.form_score (snd r)) trace = [60; 60; 90; 85; 70]).
Proof.
  split.
  - intros self keypoints confidence elapsed_time ls rs baseline
      Hcfg (Hwf & Hpass & Ht) Hls Hrs Hb Hnz d sp.
    destruct (shoulder_active_step self _ _ _ _ _ baseline Hcfg Hwf Hpass Ht Hls Hrs Hb Hnz)
      as (self' & a & Ha & _ & _ & Hin & Hrep & Harep & Hscore).
    fold d in Hin, Hrep, Hscore. fold sp in Hin, Hrep, Hscore.
    exists self', a. split; [exact Ha|]. split.
    + intros Hsp Hs. apply ltb_lt in Hsp.
      rewrite Hsp, Hs in *. cbn [negb andb] in Hrep.
      repeat split; try assumption. lia.
    + intros Hsp Hs. apply ltb_ge in Hsp.
      rewrite Hsp, Hs in *. cbn [negb andb] in Hrep.
      repeat split; try assumption. congruence.
  - intros self frames baseline Hcfg Hb Hb100 Hs Hact Hd n.
    inversion Hd as [|f1 d1 r1 l1 H1 Hd1]; subst; clear Hd.
    inversion Hd1 as [|f2 d2 r2 l2 H2 Hd2]; subst; clear Hd1.
    inversion Hd2 as [|f3 d3 r3 l3 H3 Hd3]; subst; clear Hd2.
    inversion Hd3 as [|f4 d4 r4 l4 H4 Hd4]; subst; clear Hd3.
    inversion Hd4 as [|f5 d5 r5 l5 H5 Hd5]; subst; clear Hd4.
    inversion Hd5; subst; clear Hd5.
    inversion Hact as [|? ? A1 Hact1]; subst; clear Hact.
    inversion Hact1 as [|? ? A2 Hact2]; subst; clear Hact1.
    inversion Hact2 as [|? ? A3 Hact3]; subst; clear Hact2.
    inversion Hact3 as [|? ? A4 Hact4]; subst; clear Hact3.
    inversion Hact4 as [|? ? A5 _]; subst; clear Hact4.
    destruct (shoulder_scenario_step self f1 baseline 100 Hcfg Hb Hb100 A1 H1)
      as (s1 & a1 & E1 & C1 & B1 & I1 & R1 & Q1 & F1).
    destruct (shoulder_scenario_step s1 f2 baseline 100 C1 B1 Hb100 A2 H2)
      as (s2 & a2 & E2 & C2 & B2 & I2 & R2 & Q2 & F2).
    destruct (shoulder_scenario_step s2 f3 baseline 75 C2 B2 Hb100 A3 H3)
      as (s3 & a3 & E3 & C3 & B3 & I3 & R3 & Q3 & F3).
    destruct (shoulder_scenario_step s3 f4 baseline 75 C3 B3 Hb100 A4 H4)
      as (s4 & a4 & E4 & C4 & B4 & I4 & R4 & Q4 & F4).
    destruct (shoulder_scenario_step s4 f5 baseline 100 C4 B4 Hb100 A5 H5)
      as (s5 & a5 & E5 & C5 & B5 & I5 & R5 & Q5 & F5).
    change (Py.ltb 20 ((100 - 100) / 100 * 100)) with false in *.
    change (Py.ltb 20 ((100 - 75) / 100 * 100)) with true in *.
    rewrite Hs in *. rewrite I1 in *. rewrite I2 in *. rewrite I3 in *.
    rewrite I4 in *.
    cbn [negb andb] in *.
    destruct f1 as [[k1 c1] t1], f2 as [[k2 c2] t2], f3 as [[k3 c3] t3],
             f4 as [[k4 c4] t4], f5 as [[k5 c5] t5].
    cbn [fst snd] in *. cbn [run]. rewrite E1. cbn [Py.bind].
    rewrite E2. cbn [Py.bind]. rewrite E3. cbn [Py.bind].
    rewrite E4. cbn [Py.bind]. rewrite E5. cbn [Py.bind].
    eexists. split; [reflexivity|]. cbn [map fst snd].
    rewrite I1, I2, I3, I4, I5, F1, F2, F3, F4, F5, Q1, Q2, Q3, Q4, Q5.
    replace (SS.rep_count s5) with (n + 1)%Z by (subst n; lia).
    replace (SS.rep_count s4) with n by (subst n; lia).
    replace (SS.rep_count s3) with n by (subst n; lia).
    replace (SS.rep_count s2) with n by (subst n; lia).
    replace (SS.rep_count s1) with n by (subst n; lia).
    repeat split.
Qed.

Ltac passes_found :=
  let idx := fresh "idx" in
  let Hin := fresh "Hin" in
  intros idx Hin; cbn in Hin;
  repeat (destruct Hin as [<-|Hin]; [eexists; split; [reflexivity | discriminate]|]);
  destruct Hin.

Ltac active_found :=
  split;
  [split; reflexivity
  |split; [passes_found | split; [discriminate | reflexivity]]].

Lemma squeeze_hysteresis_witness :
  exists trace,
    run SS.analyze shoulder_after_setup squeeze_frames = Py.Return trace /\
    map (fun r => SS.in_squeeze (fst r)) trace = [false; false; true; true; false] /\
    map (fun r => SS.rep_count (fst r)) trace = [0; 0; 0; 0; 1]%Z.
Proof.
  destruct squeeze_hysteresis as [_ H].
  destruct (H shoulder_after_setup squeeze_frames (Qabs (100 - 0)))
    as (trace & Hrun & Hin & Hrep & _).
  - split; reflexivity.
  - reflexivity.
  - reflexivity.
  - reflexivity.
  - unfold squeeze_frames. cbn [map].
    repeat (apply Forall_cons; [active_found|]). apply Forall_nil.
  - repeat constructor; eexists _, _; repeat split; reflexivity.
  - exists trace. auto.
Defined.

(** ** Shoulder squeezes: no baseline *)

Lemma truthy_false (a : option Q) :
  a = None \/ (exists x, a = Some x /\ x == 0) -> Py.truthy a = false.
Proof.
  intros [-> | (x & -> & Hx)]; cbn [Py.truthy]; [reflexivity|].
  apply negb_false_iff, Qeq_bool_iff. exact Hx.
Qed.

Lemma getitem_raises {A} (seq : list A) (idx : nat) (e : Py.error) :
  Py.getitem seq idx = Py.Raise e -> e = Py.IndexError.
Proof.
  unfold Py.getitem. destruct (nth_error seq idx); congruence.
Qed.

Lemma take_raises {A} (seq : list A) (indices : list nat) (e : Py.error) :
  Py.take seq indices = Py.Raise e -> e = Py.IndexError.
Proof.
  induction indices as [|idx rest IH]; cbn [Py.take]; [discriminate|].
  destruct (Py.getitem seq idx) eqn:E; cbn [Py.bind].
  - destruct (Py.take seq rest); cbn [Py.bind]; [discriminate|].
    intros [= <-]. apply IH. reflexivity.
  - intros [= <-]. exact (getitem_raises _ _ _ E).
Qed.

Lemma take_length {A} (seq : list A) (indices : list nat) (l : list A) :
  Py.take seq indices = Py.Return l -> List.length l = List.length indices.
Proof.
  revert l. induction indices as [|idx rest IH]; cbn [Py.take]; intros l.
  - intros [= <-]. reflexivity.
  - destruct (Py.getitem seq idx); cbn [Py.bind]; [|discriminate].
    destruct (Py.take seq rest) as [l'|]; cbn [Py.bind]; [|discriminate].
    intros [= <-]. cbn [List.length]. f_equal. apply IH. reflexivity.
Qed.

Lemma check_confidence_raises (self : BaseExercise.t) confidence required_indices e :
  BaseExercise.check_confidence self confidence required_indices = Py.Raise e ->
  e = Py.IndexError.
Proof.
  unfold BaseExercise.check_confidence.
  induction required_indices as [|idx rest IH];
    cbn [BaseExercise.check_confidence_loop]; [discriminate|].
  destruct (Py.getitem confidence idx) as [c|e'] eqn:E; cbn [Py.bind].
  - destruct (Py.ltb c _); [discriminate | exact IH].
  - intros [= <-]. exact (getitem_raises _ _ _ E).
Qed.

(** Whatever the frame, the squeeze detector raises neither
    [ZeroDivisionError] nor [TypeError]: an exception can only come from an
    index out of range. *)
Lemma shoulder_analyze_raises (self : SS.t) keypoints confidence elapsed_time e :
  SS.analyze self keypoints confidence elapsed_time = Py.Raise e ->
  e = Py.IndexError.
Proof.
  unfold SS.analyze.
  destruct (BaseExercise.update_phase (SS.base self) elapsed_time) as [b phase].
  cbn [SS.base SS.set_base].
  destruct (BaseExercise.check_confidence b confidence SS.required_keypoints)
    as [ok|e'] eqn:Hc; cbn [Py.bind].
  2:{ intros [= <-]. exact (check_confidence_raises _ _ _ _ Hc). }
  destruct ok; cbn [negb]; [|discriminate].
  destruct (Py.getitem keypoints KeypointIndex.LEFT_SHOULDER) as [ls|e'] eqn:Hls;
    cbn [Py.bind].
  2:{ intros [= <-]. exact (getitem_raises _ _ _ Hls). }
  destruct (Py.getitem keypoints KeypointIndex.RIGHT_SHOULDER) as [rs|e'] eqn:Hrs;
    cbn [Py.bind].
  2:{ intros [= <-]. exact (getitem_raises _ _ _ Hrs). }
  match goal with
  | |- context [SS.analyze_phase ?s ?p ?d ?t] =>
      destruct (shoulder_analyze_phase_total s p d t) as (s' & fm & fs & -> & _)
  end.
  cbn [Py.bind].
  destruct (Py.take confidence SS.required_keypoints) as [req|e'] eqn:Hreq;
    cbn [Py.bind].
  2:{ intros [= <-]. exact (take_raises _ _ _ Hreq). }
  apply take_length in Hreq.
  destruct req; [discriminate Hreq | cbn [Py.min Py.bind]; discriminate].
Qed.

(** C10: in the Active phase, when [baseline_distance] is [None] or zero
    the squeeze-detection branch is skipped: the call returns (no division
    by a zero or missing baseline is attempted), the flag, the counter and
    the baseline are unchanged, and the analysis is the base one: score 70,
    no message, the current rep count, proper position. *)
Theorem squeeze_skipped_without_baseline (self : SS.t)
    keypoints confidence elapsed_time :
  default_configuration (SS.base self) ->
  active_frame SS.required_keypoints (keypoints, confidence, elapsed_time) ->
  SS.baseline_distance self = None \/
    (exists x, SS.baseline_distance self = Some x /\ x == 0) ->
  exists self' a,
    SS.analyze self keypoints confidence elapsed_time = Py.Return (self', a) /\
    SS.in_squeeze self' = SS.in_squeeze self /\
    SS.rep_count self' = SS.rep_count self /\
    SS.baseline_distance self' = SS.baseline_distance self /\
    EA.phase a = ACTIVE /\
    EA.form_score a = 70 /\
    EA.feedback_messages a = [] /\
    EA.rep_count a = SS.rep_count self /\
    EA.is_proper_position a = true.
Proof.
  intros Hcfg (Hwf & Hpass & Ht) Hb.
  destruct (getitem_lt keypoints KeypointIndex.LEFT_SHOULDER) as (ls & Hls & _);
    [destruct Hwf as [Hk _]; in_range Hk|].
  destruct (getitem_lt keypoints KeypointIndex.RIGHT_SHOULDER) as (rs & Hrs & _);
    [destruct Hwf as [Hk _]; in_range Hk|].
  destruct (shoulder_active_frame self _ _ _ _ _ Hcfg Hwf Hpass Ht Hls Hrs)
    as [lowest ->].
  rewrite shoulder_active_skipped by (apply truthy_false; exact Hb).
  cbn [Py.bind]. eexists _, _. split; [reflexivity|].
  cbn. unfold SS.rep_count. cbn. rewrite update_phase_rep_count. auto 10.
Qed.

Lemma squeeze_skipped_without_baseline_witness :
  exists self' a,
    SS.analyze SS.__init__ (shoulders_apart 75) confidence_found 130
      = Py.Return (self', a) /\
    SS.in_squeeze self' = false /\
    SS.rep_count self' = 0%Z /\
    EA.form_score a = 70 /\
    EA.feedback_messages a = [].
Proof.
  destruct (squeeze_skipped_without_baseline SS.__init__ (shoulders_apart 75)
              confidence_found 130)
    as (self' & a & H & Hi & Hr & _ & _ & Hs & Hf & _).
  - split; reflexivity.
  - active_found.
  - left. reflexivity.
  - exists self', a. auto.
Defined.

(** ** Neck rotations: one Active frame before 180 s *)

Lemma ltb_proper2 (x x' y y' : Q) :
  x == x' -> y == y' -> Py.ltb x y = Py.ltb x' y'.
Proof.
  intros Hx Hy. rewrite (ltb_proper x y y' Hy). apply ltb_proper_l. exact Hx.
Qed.

(** What a first-half Active frame whose nose offset is [x] does to the
    rotation detector (threshold 30). *)
Lemma neck_active_left_step (self : NR.t) frame (x : Q) :
  default_configuration (NR.base self) ->
  NR.rotation_threshold self == 30 ->
  active_frame NR.required_keypoints frame ->
  snd frame < 180 ->
  nose_offset_at frame x ->
  let far_left := Py.ltb x (-30) in
  let far_right := Py.ltb 30 x in
  exists self' a,
    NR.analyze self (fst (fst frame)) (snd (fst frame)) (snd frame)
      = Py.Return (self', a) /\
    default_configuration (NR.base self') /\
    NR.rotation_threshold self' == 30 /\
    NR.left_rotations self' =
      (NR.left_rotations self
       + if far_left && NR.direction_ne (NR.rotation_direction self) left
         then 1 else 0)%Z /\
    NR.right_rotations self' = NR.right_rotations self /\
    NR.rotation_direction self' =
      (if far_left then Some left
       else if far_right then NR.rotation_direction self else None) /\
    NR.rep_count self' = (NR.left_rotations self' + NR.right_rotations self')%Z /\
    EA.rep_count a = (NR.left_rotations self' + NR.right_rotations self')%Z.
Proof.
  intros Hcfg Hthr Hf Hlt (n & ls & rs & Hn & Hls & Hrs & Hx) far_left far_right.
  destruct frame as [[keypoints confidence] elapsed_time].
  destruct Hf as (Hwf & Hpass & Ht). cbn [fst snd] in *.
  destruct (neck_analyze_shape self _ _ elapsed_time Hwf)
    as (ok & lowest & n' & ls' & rs' & Hok & Hn' & Hls' & Hrs' & ->).
  destruct Hcfg as [Hc Hdur].
  rewrite (check_confidence_pass _ _ _ Hc Hpass) in Hok. injection Hok as <-.
  rewrite Hn in Hn'. injection Hn' as <-.
  rewrite Hls in Hls'. injection Hls' as <-.
  rewrite Hrs in Hrs'. injection Hrs' as <-.
  rewrite (update_phase_active _ _ Hdur Ht).
  pose proof (update_phase_configuration _ elapsed_time (conj Hc Hdur)) as Hcfg'.
  set (b := fst (BaseExercise.update_phase (NR.base self) elapsed_time)) in *.
  cbv zeta. cbn [NR.analyze_phase]. unfold NR.analyze_active.
  cbn [NR.set_base NR.rotation_threshold NR.rotation_direction NR.left_rotations].
  assert (H180 : Py.ltb elapsed_time 180 = true) by (apply ltb_lt; exact Hlt).
  rewrite H180.
  rewrite (ltb_proper2 _ x _ (-30) Hx) by (rewrite Hthr; reflexivity).
  rewrite (ltb_proper2 _ 30 _ x Hthr Hx).
  fold far_left far_right.
  destruct far_left;
    [destruct (NR.rotation_direction self) as [[|]|] eqn:Hdir|destruct far_right];
    cbn [andb NR.direction_ne]; eexists _, _; (split; [reflexivity|]); cbn;
    rewrite ?Hdir;
    repeat split; try assumption; try reflexivity; try apply Hcfg'; lia.
Qed.

(** ** Neck rotations: debounce *)

(** C4: in the Active phase before 180 s, with threshold 30 and passing
    confidences, a leftward excursion is counted only when the tracked
    direction is not already 'left', a sample in the dead zone clears the
    tracked direction, and the offsets 0, -40, -40, 0, -40 add exactly two
    left rotations (2 on a fresh detector). *)
Theorem left_rotation_debounce :
  (forall (self : NR.t) frame (x : Q),
      default_configuration (NR.base self) ->
      NR.rotation_threshold self == 30 ->
      active_frame NR.required_keypoints frame ->
      snd frame < 180 ->
      nose_offset_at frame x ->
      exists self' a,
        NR.analyze self (fst (fst frame)) (snd (fst frame)) (snd frame)
          = Py.Return (self', a) /\
        (x < -30 -> NR.rotation_direction self <> Some left ->
           NR.rotation_direction self' = Some left /\
           NR.left_rotations self' = (NR.left_rotations self + 1)%Z) /\
        (x < -30 -> NR.rotation_direction self = Some left ->
           NR.rotation_direction self' = Some left /\
           NR.left_rotations self' = NR.left_rotations self) /\
        (-30 <= x <= 30 ->
           NR.rotation_direction self' = None /\
           NR.left_rotations self' = NR.left_rotations self)) /\
  (forall (self : NR.t) (frames : list (list Point * list Q * Q)),
      default_configuration (NR.base self) ->
      NR.rotation_threshold self == 30 ->
      Forall (active_frame NR.required_keypoints) frames ->
      Forall (fun frame => snd frame < 180) frames ->
      Forall2 nose_offset_at frames [0; -40; -40; 0; -40] ->
      let n := NR.left_rotations self in
      exists trace,
        run NR.analyze self frames = Py.Return trace /\
        map (fun r => NR.left_rotations (fst r)) trace
          = [n; n + 1; n + 1; n + 1; n + 2]%Z /\
        map (fun r => NR.rotation_direction (fst r)) trace
          = [None; Some left; Some left; None; Some left] /\
        map (fun r => NR.right_rotations (fst r)) trace
          = repeat (NR.right_rotations self) 5).
Proof.
  split.
  - intros self frame x Hcfg Hthr Hf Hlt Hx.
    destruct (neck_active_left_step self frame x Hcfg Hthr Hf Hlt Hx)
      as (self' & a & Ha & _ & _ & Hl & _ & Hd & _).
    exists self', a. split; [exact Ha|]. split; [|split].
    + intros Hx' Hne. apply ltb_lt in Hx'. rewrite Hx' in Hd, Hl.
      split; [exact Hd|]. rewrite Hl.
      destruct (NR.rotation_direction self) as [[|]|]; cbn; congruence.
    + intros Hx' He. apply ltb_lt in Hx'. rewrite Hx' in Hd, Hl.
      split; [exact Hd|]. rewrite Hl, He. cbn. lia.
    + intros [H1 H2]. apply ltb_ge in H1, H2. rewrite H1 in Hl, Hd.
      rewrite H2 in Hd. split; [exact Hd|]. rewrite Hl. cbn. lia.
  - intros self frames Hcfg Hthr Hact Hlt Hd n.
    inversion Hd as [|f1 d1 r1 l1 H1 Hd1]; subst; clear Hd.
    inversion Hd1 as [|f2 d2 r2 l2 H2 Hd2]; subst; clear Hd1.
    inversion Hd2 as [|f3 d3 r3 l3 H3 Hd3]; subst; clear Hd2.
    inversion Hd3 as [|f4 d4 r4 l4 H4 Hd4]; subst; clear Hd3.
    inversion Hd4 as [|f5 d5 r5 l5 H5 Hd5]; subst; clear Hd4.
    inversion Hd5; subst; clear Hd5.
    inversion Hact as [|? ? A1 Hact1]; subst; clear Hact.
    inversion Hact1 as [|? ? A2 Hact2]; subst; clear Hact1.
    inversion Hact2 as [|? ? A3 Hact3]; subst; clear Hact2.
    inversion Hact3 as [|? ? A4 Hact4]; subst; clear Hact3.
    inversion Hact4 as [|? ? A5 _]; subst; clear Hact4.
    inversion Hlt as [|? ? T1 Hlt1]; subst; clear Hlt.
    inversion Hlt1 as [|? ? T2 Hlt2]; subst; clear Hlt1.
    inversion Hlt2 as [|? ? T3 Hlt3]; subst; clear Hlt2.
    inversion Hlt3 as [|? ? T4 Hlt4]; subst; clear Hlt3.
    inversion Hlt4 as [|? ? T5 _]; subst; clear Hlt4.
    destruct (neck_active_left_step self f1 0 Hcfg Hthr A1 T1 H1)
      as (s1 & a1 & E1 & C1 & Th1 & L1 & R1 & D1 & _).
    destruct (neck_active_left_step s1 f2 (-40) C1 Th1 A2 T2 H2)
      as (s2 & a2 & E2 & C2 & Th2 & L2 & R2 & D2 & _).
    destruct (neck_active_left_step s2 f3 (-40) C2 Th2 A3 T3 H3)
      as (s3 & a3 & E3 & C3 & Th3 & L3 & R3 & D3 & _).
    destruct (neck_active_left_step s3 f4 0 C3 Th3 A4 T4 H4)
      as (s4 & a4 & E4 & C4 & Th4 & L4 & R4 & D4 & _).
    destruct (neck_active_left_step s4 f5 (-40) C4 Th4 A5 T5 H5)
      as (s5 & a5 & E5 & C5 & Th5 & L5 & R5 & D5 & _).
    change (Py.ltb 0 (-30)) with false in *.
    change (Py.ltb 30 0) with false in *.
    change (Py.ltb (-40) (-30)) with true in *.
    cbn [andb] in *.
    rewrite D1 in L2. rewrite D2 in L3. rewrite D4 in L5.
    cbn [NR.direction_ne] in *.
    destruct f1 as [[k1 c1] t1], f2 as [[k2 c2] t2], f3 as [[k3 c3] t3],
             f4 as [[k4 c4] t4], f5 as [[k5 c5] t5].
    cbn [fst snd] in *. cbn [run]. rewrite E1. cbn [Py.bind].
    rewrite E2. cbn [Py.bind]. rewrite E3. cbn [Py.bind].
    rewrite E4. cbn [Py.bind]. rewrite E5. cbn [Py.bind].
    eexists. split; [reflexivity|]. cbn [map fst snd repeat].
    rewrite D1, D2, D3, D4, D5, R5, R4, R3, R2, R1.
    replace (NR.left_rotations s5) with (n + 2)%Z by (subst n; lia).
    replace (NR.left_rotations s4) with (n + 1)%Z by (subst n; lia).
    replace (NR.left_rotations s3) with (n + 1)%Z by (subst n; lia).
    replace (NR.left_rotations s2) with (n + 1)%Z by (subst n; lia).
    replace (NR.left_rotations s1) with n by (subst n; lia).
    repeat split.
Qed.

Lemma left_rotation_debounce_witness :
  exists trace,
    run NR.analyze NR.__init__ rotation_frames = Py.Return trace /\
    map (fun r => NR.left_rotations (fst r)) trace = [0; 1; 1; 1; 2]%Z.
Proof.
  destruct left_rotation_debounce as [_ H].
  destruct (H NR.__init__ rotation_frames) as (trace & Hrun & Hl & _).
  - split; reflexivity.
  - reflexivity.
  - unfold rotation_frames. cbn [map].
    repeat (apply Forall_cons; [active_found|]). apply Forall_nil.
  - unfold rotation_frames. cbn [map].
    repeat (apply Forall_cons; [reflexivity|]). apply Forall_nil.
  - unfold rotation_frames. cbn [map].
    repeat (apply Forall2_cons; [eexists _, _, _; repeat split; reflexivity|]).
    apply Forall2_nil.
  - exists trace. auto.
Defined.

(** ** Ankle circles: completion *)

Lemma last4_length {A} (seq : list A) :
  (4 <= List.length seq)%nat -> List.length (Py.last4 seq) = 4%nat.
Proof. intros H. unfold Py.last4. rewrite length_skipn. lia. Qed.

Lemma len_set_NoDup (seq : list Z) :
  NoDup seq -> Py.len_set seq = List.length seq.
Proof. intros H. unfold Py.len_set. rewrite (nodup_fixed_point Z.eq_dec H). reflexivity. Qed.

Lemma len_set_permutation (seq : list Z) :
  Permutation seq [1; 2; 3; 4]%Z -> Py.len_set seq = 4%nat.
Proof.
  intros H. rewrite len_set_NoDup.
  - apply (Permutation_length H).
  - apply (Permutation_NoDup (Permutation_sym H)).
    repeat constructor; cbn; intuition discriminate.
Qed.

(** A first observed quadrant is remembered but is not a transition. *)
Lemma detect_first_quadrant (self : AC.t) (quadrant : Z) :
  AC.last_quadrant self = None ->
  AC._detect_circle_completion self quadrant
  = (AC.set_last_quadrant self (Some quadrant), false).
Proof. intros H. unfold AC._detect_circle_completion. rewrite H. reflexivity. Qed.

(** C5: when a quadrant change makes the most recent four logged
    transitions hold the four quadrants, in any order, the circle count
    grows by exactly one and the log is emptied; the transitions 1, 2, 3, 4
    logged from an empty log and count 0 give count 1 and an empty log. *)
Theorem circle_completion :
  (forall (self : AC.t) (quadrant last : Z),
      AC.last_quadrant self = Some last ->
      quadrant <> last ->
      Permutation (Py.last4 (AC.quadrant_visits self ++ [quadrant])) [1; 2; 3; 4]%Z ->
      let '(self', completed) := AC._detect_circle_completion self quadrant in
      completed = true /\
      AC.circle_count self' = (AC.circle_count self + 1)%Z /\
      AC.quadrant_visits self' = []) /\
  (forall (self : AC.t) (last : Z),
      AC.last_quadrant self = Some last ->
      last <> 1%Z ->
      AC.quadrant_visits self = [] ->
      AC.circle_count self = 0%Z ->
      let '(self', returned) := detect_all self [1; 2; 3; 4]%Z in
      returned = [false; false; false; true] /\
      AC.circle_count self' = 1%Z /\
      AC.quadrant_visits self' = []).
Proof.
  split.
  - intros self quadrant last Hlast Hne Hperm.
    assert (Hlen : (4 <= List.length (AC.quadrant_visits self ++ [quadrant]))%nat).
    { apply Permutation_length in Hperm. unfold Py.last4 in Hperm.
      rewrite length_skipn in Hperm. cbn [List.length] in Hperm. lia. }
    unfold AC._detect_circle_completion. rewrite Hlast.
    apply Z.eqb_neq in Hne. rewrite Hne. cbn [negb].
    unfold AC._detect_circle_completion_if.
    cbn [AC.set_quadrant_visits AC.quadrant_visits].
    apply Nat.leb_le in Hlen. rewrite Hlen.
    rewrite (len_set_permutation _ Hperm). cbn [Nat.eqb].
    cbn. auto.
  - intros self last Hlast Hne Hlog Hcount.
    cbn [detect_all]. unfold AC._detect_circle_completion at 1.
    rewrite Hlast. assert (H1 : (1 =? last)%Z = false) by (apply Z.eqb_neq; congruence).
    rewrite H1. cbn [negb]. unfold AC._detect_circle_completion_if.
    cbn [AC.set_quadrant_visits AC.quadrant_visits]. rewrite Hlog.
    cbn. rewrite Hcount. auto.
Qed.

Lemma circle_completion_witness :
  let '(self', returned) := detect_all ankle_in_quadrant_4 [1; 2; 3; 4]%Z in
  returned = [false; false; false; true] /\
  AC.circle_count self' = 1%Z /\
  AC.quadrant_visits self' = [].
Proof.
  destruct circle_completion as [_ H].
  apply (H ankle_in_quadrant_4 4%Z); try reflexivity. discriminate.
Defined.

(** On a fresh detector the first of the frames in quadrants 1, 2, 3, 4 is
    not a transition: three are logged and no circle is counted. *)
Lemma fresh_detector_quadrants_1234 :
  let '(self', returned) := detect_all AC.__init__ [1; 2; 3; 4]%Z in
  returned = [false; false; false; false] /\
  AC.circle_count self' = 0%Z /\
  AC.quadrant_visits self' = [2; 3; 4]%Z.
Proof. cbn. auto. Qed.

(** ** Ankle circles: switching limb *)

Lemma ankle_active_frame (self : AC.t) keypoints confidence elapsed_time :
  default_configuration (AC.base self) ->
  active_frame AC.required_keypoints (keypoints, confidence, elapsed_time) ->
  exists lowest ankle knee,
    AC.tracked_points self keypoints = Py.Return (ankle, knee) /\
    AC.analyze self keypoints confidence elapsed_time =
      let current_angle := AC._calculate_ankle_angle ankle knee in
      let current_quadrant := AC._get_quadrant current_angle in
      let '(self', feedback_messages, form_score) :=
        AC.analyze_active
          (AC.set_base self
             (fst (BaseExercise.update_phase (AC.base self) elapsed_time)))
          current_angle current_quadrant elapsed_time in
      let self' := AC.set_rep_count self' (AC.circle_count self') in
      Py.Return (self', AC.analysis self' ACTIVE form_score feedback_messages
                          lowest current_angle current_quadrant).
Proof.
  intros [Hthr Hdur] (Hwf & Hpass & Ht).
  destruct (ankle_analyze_shape self _ _ elapsed_time Hwf)
    as (ok & lowest & ankle & knee & Hok & Htp & ->).
  rewrite (check_confidence_pass _ _ _ Hthr Hpass) in Hok. injection Hok as <-.
  rewrite (update_phase_active _ _ Hdur Ht).
  exists lowest, ankle, knee. split; [exact Htp | reflexivity].
Qed.

(** Recording an angle touches the angle history only. *)
Lemma push_angle_fields (self : AC.t) (a : R) :
  AC.circle_count (AC.push_angle self a) = AC.circle_count self /\
  AC.last_quadrant (AC.push_angle self a) = AC.last_quadrant self /\
  AC.quadrant_visits (AC.push_angle self a) = AC.quadrant_visits self /\
  AC.active_ankle (AC.push_angle self a) = AC.active_ankle self /\
  AC.base (AC.push_angle self a) = AC.base self.
Proof.
  unfold AC.push_angle. cbn [AC.set_angle_history AC.angle_history].
  destruct (100 <? _)%nat; cbn; auto.
Qed.

Lemma detect_active_ankle (self : AC.t) (quadrant : Z) :
  AC.active_ankle (fst (AC._detect_circle_completion self quadrant))
  = AC.active_ankle self.
Proof.
  unfold AC._detect_circle_completion, AC._detect_circle_completion_if.
  destruct (AC.last_quadrant self) as [last|]; [|reflexivity].
  destruct (negb (quadrant =? last)%Z); [|reflexivity].
  cbn [AC.set_quadrant_visits AC.quadrant_visits].
  destruct (4 <=? _)%nat; [|reflexivity].
  destruct (_ =? 4)%nat; reflexivity.
Qed.

(** C6, as the code has it: a call that passes the confidence gate in the
    Active phase with [elapsed_time > 180], on a detector still tracking
    the right ankle, switches to the left ankle and resets the circle
    count, the transition log and the last quadrant; the count reported by
    that call is 0. *)
Theorem ankle_switch_in_active_phase (self : AC.t) keypoints confidence elapsed_time :
  default_configuration (AC.base self) ->
  active_frame AC.required_keypoints (keypoints, confidence, elapsed_time) ->
  180 < elapsed_time ->
  AC.active_ankle self = right ->
  exists self' a,
    AC.analyze self keypoints confidence elapsed_time = Py.Return (self', a) /\
    AC.active_ankle self' = left /\
    AC.circle_count self' = 0%Z /\
    AC.quadrant_visits self' = [] /\
    AC.last_quadrant self' = None /\
    EA.rep_count a = 0%Z.
Proof.
  intros Hcfg Hf Ht Hright.
  destruct (ankle_active_frame self _ _ _ Hcfg Hf) as (lowest & ankle & knee & _ & ->).
  cbv zeta. unfold AC.analyze_active.
  destruct (AC._detect_circle_completion _ _) as [s completed] eqn:Hdet.
  assert (Hs : AC.active_ankle s = right).
  { change s with (fst (s, completed)). rewrite <- Hdet.
    rewrite detect_active_ankle.
    destruct (push_angle_fields
                (AC.set_base self
                   (fst (BaseExercise.update_phase (AC.base self) elapsed_time)))
                (AC._calculate_ankle_angle ankle knee)) as (_ & _ & _ & -> & _).
    exact Hright. }
  apply ltb_lt in Ht. rewrite Ht, Hs. cbn [andb].
  destruct completed; eexists _, _; (split; [reflexivity|]); cbn; auto.
Qed.

Lemma ankle_switch_in_active_phase_witness :
  exists self' a,
    AC.analyze AC.__init__ keypoints_none confidence_found 200 = Py.Return (self', a) /\
    AC.active_ankle self' = left /\
    AC.circle_count self' = 0%Z.
Proof.
  destruct (ankle_switch_in_active_phase AC.__init__ keypoints_none
              confidence_found 200)
    as (self' & a & H & Ha & Hc & _).
  - split; reflexivity.
  - active_found.
  - reflexivity.
  - reflexivity.
  - exists self', a. auto.
Defined.

(** C6 as stated fails: a call at 250 s, in the Cooldown phase, passes the
    gate on a fresh detector and leaves the right ankle active. *)
Lemma ankle_switch_counterexample :
  exists self' a,
    AC.active_ankle AC.__init__ = right /\
    180 < 250 /\
    AC.analyze AC.__init__ keypoints_none confidence_found 250 = Py.Return (self', a) /\
    EA.phase a = COOLDOWN /\
    AC.active_ankle self' = right /\
    AC.active_ankle self' <> left.
Proof.
  destruct (ankle_analyze_shape AC.__init__ keypoints_none confidence_found 250)
    as (ok & lowest & ankle & knee & Hok & _ & Ha).
  { split; reflexivity. }
  rewrite (check_confidence_pass _ confidence_found AC.required_keypoints) in Hok;
    [|reflexivity|passes_found].
  injection Hok as <-.
  change (snd (BaseExercise.update_phase (AC.base AC.__init__) 250)) with COOLDOWN in Ha.
  cbv zeta in Ha. cbn [AC.analyze_phase] in Ha.
  eexists _, _. split; [reflexivity|]. split; [reflexivity|].
  split; [exact Ha|]. cbn. repeat split. discriminate.
Qed.

(** So does a call at 200 s that fails the confidence gate. *)
Lemma ankle_low_confidence_keeps_right :
  exists self' a,
    AC.analyze AC.__init__ keypoints_none confidence_none 200 = Py.Return (self', a) /\
    AC.active_ankle self' = right.
Proof.
  rewrite ankle_analyze_low.
  - eexists _, _. split; reflexivity.
  - reflexivity.
Qed.

(** ** A second call on the same frame *)

(** The squeeze detector: what the phase chain leaves behind, and that
    running it again on an object with the same baseline and flag changes
    neither the flag, nor the counter, nor the baseline. *)
Lemma shoulder_phase_twice (s0 s0' s1 : SS.t) phase (d elapsed_time : Q) fm fs :
  SS.analyze_phase s0 phase d elapsed_time = Py.Return (s1, fm, fs) ->
  SS.baseline_distance s0' = SS.baseline_distance s1 ->
  SS.in_squeeze s0' = SS.in_squeeze s1 ->
  exists s2 fm' fs',
    SS.analyze_phase s0' phase d elapsed_time = Py.Return (s2, fm', fs') /\
    SS.in_squeeze s2 = SS.in_squeeze s0' /\
    SS.rep_count s2 = SS.rep_count s0' /\
    SS.baseline_distance s2 = SS.baseline_distance s0'.
Proof.
  intros H Hb Hi.
  destruct phase; cbn [SS.analyze_phase] in *;
    try (eexists _, _, _; split; [reflexivity | auto]).
  - (* SETUP *)
    destruct (SS.baseline_distance s0) as [b0|] eqn:Hb0; cbn [orb] in H.
    + destruct (Py.ltb elapsed_time 10) eqn:Ht; injection H as <- <- <-;
        cbn [SS.set_baseline_distance SS.baseline_distance] in Hb;
        rewrite Hb, ?Hb0; cbn [orb]; rewrite ?Ht;
        eexists _, _, _; (split; [reflexivity|]); cbn; repeat split; congruence.
    + injection H as <- <- <-.
      cbn [SS.set_baseline_distance SS.baseline_distance] in Hb.
      rewrite Hb. cbn [orb].
      destruct (Py.ltb elapsed_time 10);
        eexists _, _, _; (split; [reflexivity|]); cbn; auto.
  - (* ACTIVE *)
    destruct (Py.truthy (SS.baseline_distance s0)) eqn:Ht.
    + apply truthy_spec in Ht. destruct Ht as (b & Hb0 & Hnz).
      rewrite (shoulder_active_established s0 d b Hb0 Hnz) in H.
      assert (Hb1 : SS.baseline_distance s1 = Some b).
      { destruct (Py.ltb 20 _); destruct (SS.in_squeeze s0); cbn [negb] in H;
          injection H as <- <- <-; exact Hb0. }
      assert (Hi1 : SS.in_squeeze s1 = Py.ltb 20 ((b - d) / b * 100)).
      { destruct (Py.ltb 20 _); destruct (SS.in_squeeze s0) eqn:Hi0; cbn [negb] in H;
          injection H as <- <- <-; cbn; auto. }
      rewrite Hb1 in Hb. rewrite Hi1 in Hi.
      rewrite (shoulder_active_established s0' d b Hb Hnz). rewrite Hi.
      destruct (Py.ltb 20 _); cbn [negb];
        eexists _, _, _; (split; [reflexivity|]); auto.
    + rewrite (shoulder_active_skipped s0 d Ht) in H. injection H as <- <- <-.
      rewrite <- Hb in Ht. rewrite (shoulder_active_skipped s0' d Ht).
      eexists _, _, _; (split; [reflexivity|]); auto.
Qed.

(** The phase chain of the squeeze detector leaves the configuration of
    the base object alone and moves [rep_count] only. *)
Lemma shoulder_phase_base (s0 s1 : SS.t) phase (d elapsed_time : Q) fm fs :
  SS.analyze_phase s0 phase d elapsed_time = Py.Return (s1, fm, fs) ->
  BaseExercise.confidence_threshold (SS.base s1)
    = BaseExercise.confidence_threshold (SS.base s0) /\
  BaseExercise.phase_durations (SS.base s1)
    = BaseExercise.phase_durations (SS.base s0).
Proof.
  intros H. destruct phase; cbn [SS.analyze_phase] in H;
    try (injection H as <- <- <-; auto).
  - destruct (_ || _); injection H as <- <- <-; auto.
  - unfold SS.analyze_active in H.
    destruct (Py.truthy _); [|injection H as <- <- <-; auto].
    destruct (Py.sub_opt _ _); cbn [Py.bind] in H; [|discriminate].
    destruct (Py.unwrap _); cbn [Py.bind] in H; [|discriminate].
    destruct (Py.div _ _); cbn [Py.bind] in H; [|discriminate].
    destruct (Py.ltb 20 _); destruct (SS.in_squeeze s0); cbn [negb] in H;
      injection H as <- <- <-; auto.
Qed.

Lemma check_confidence_threshold (b b' : BaseExercise.t) confidence required_indices :
  BaseExercise.confidence_threshold b' = BaseExercise.confidence_threshold b ->
  BaseExercise.check_confidence b' confidence required_indices
  = BaseExercise.check_confidence b confidence required_indices.
Proof. intros H. unfold BaseExercise.check_confidence. rewrite H. reflexivity. Qed.

Lemma shoulder_twice (self : SS.t) keypoints confidence elapsed_time :
  well_formed keypoints confidence ->
  exists s1 a1 s2 a2,
    SS.analyze self keypoints confidence elapsed_time = Py.Return (s1, a1) /\
    SS.analyze s1 keypoints confidence elapsed_time = Py.Return (s2, a2) /\
    SS.rep_count s2 = SS.rep_count s1 /\
    SS.in_squeeze s2 = SS.in_squeeze s1 /\
    EA.rep_count a2 = EA.rep_count a1.
Proof.
  intros Hwf.
  destruct (shoulder_analyze_shape self _ _ elapsed_time Hwf)
    as (ok & lowest & ls & rs & Hok & Hls & Hrs & E1).
  set (b := fst (BaseExercise.update_phase (SS.base self) elapsed_time)) in *.
  set (phase := snd (BaseExercise.update_phase (SS.base self) elapsed_time)) in *.
  assert (Hbt : BaseExercise.confidence_threshold b
                = BaseExercise.confidence_threshold (SS.base self))
    by apply update_phase_threshold.
  assert (Hbd : BaseExercise.phase_durations b
                = BaseExercise.phase_durations (SS.base self))
    by apply update_phase_durations.
  destruct ok.
  - cbv zeta in E1.
    destruct (shoulder_analyze_phase_total (SS.set_base self b) phase
                (Qabs (fst ls - fst rs)) elapsed_time)
      as (s1 & fm & fs & Hph & _).
    rewrite Hph in E1. cbn [Py.bind] in E1.
    destruct (shoulder_phase_base _ _ _ _ _ _ _ Hph) as [Ht1 Hd1].
    cbn [SS.set_base SS.base] in Ht1, Hd1.
    destruct (shoulder_analyze_shape s1 _ _ elapsed_time Hwf)
      as (ok' & lowest' & ls' & rs' & Hok' & Hls' & Hrs' & E2).
    rewrite (check_confidence_threshold (SS.base self)) in Hok' by congruence.
    rewrite Hok in Hok'. injection Hok' as <-.
    rewrite Hls in Hls'. injection Hls' as <-.
    rewrite Hrs in Hrs'. injection Hrs' as <-.
    rewrite (update_phase_snd_durations (SS.base self)) in E2 by congruence.
    fold phase in E2. cbv zeta in E2.
    set (b' := fst (BaseExercise.update_phase (SS.base s1) elapsed_time)) in *.
    destruct (shoulder_phase_twice _ (SS.set_base s1 b') _ _ _ _ _ _ Hph eq_refl eq_refl)
      as (s2 & fm' & fs' & Hph' & Hi2 & Hr2 & _).
    rewrite Hph' in E2. cbn [Py.bind] in E2.
    eexists _, _, _, _. split; [exact E1|]. split; [exact E2|].
    assert (Hr : SS.rep_count s2 = SS.rep_count s1).
    { rewrite Hr2. unfold SS.rep_count. cbn [SS.set_base SS.base].
      apply update_phase_rep_count. }
    cbn. auto.
  - destruct (shoulder_analyze_shape (SS.set_base self b) _ _ elapsed_time Hwf)
      as (ok' & lowest' & ls' & rs' & Hok' & _ & _ & E2).
    cbn [SS.set_base SS.base] in Hok', E2.
    rewrite (check_confidence_threshold (SS.base self)) in Hok' by congruence.
    rewrite Hok in Hok'. injection Hok' as <-.
    eexists _, _, _, _. split; [exact E1|]. split; [exact E2|].
    cbn. unfold SS.rep_count. cbn. rewrite update_phase_rep_count. auto.
Qed.

Lemma neck_phase_base (s0 : NR.t) phase (m o elapsed_time : Q) :
  let s1 := fst (fst (NR.analyze_phase s0 phase m o elapsed_time)) in
  NR.base s1 = NR.base s0 /\
  NR.rotation_threshold s1 = NR.rotation_threshold s0.
Proof.
  destruct phase; cbn [NR.analyze_phase fst]; auto.
  unfold NR.analyze_active.
  repeat match goal with
         | |- context [if ?c then _ else _] => destruct c
         end; cbn; auto.
Qed.

(** The rotation detector: running the phase chain again on an object with
    the direction the first run left moves no counter and keeps the
    direction. *)
Lemma neck_phase_twice (s0 s0' : NR.t) phase (m o elapsed_time : Q) :
  let s1 := fst (fst (NR.analyze_phase s0 phase m o elapsed_time)) in
  NR.rotation_threshold s0' = NR.rotation_threshold s0 ->
  NR.rotation_direction s0' = NR.rotation_direction s1 ->
  let s2 := fst (fst (NR.analyze_phase s0' phase m o elapsed_time)) in
  NR.left_rotations s2 = NR.left_rotations s0' /\
  NR.right_rotations s2 = NR.right_rotations s0' /\
  NR.rotation_direction s2 = NR.rotation_direction s0'.
Proof.
  destruct phase; cbn [NR.analyze_phase fst]; auto.
  unfold NR.analyze_active. intros Hthr Hdir. rewrite Hthr.
  destruct (Py.ltb elapsed_time 180);
    destruct (Py.ltb o (- NR.rotation_threshold s0));
    destruct (Py.ltb (NR.rotation_threshold s0) o);
    destruct (NR.rotation_direction s0) as [[|]|] eqn:Hd0;
    cbn in Hdir; rewrite ?Hd0 in Hdir; rewrite ?Hdir; cbn; auto.
Qed.

Lemma neck_twice (self : NR.t) keypoints confidence elapsed_time :
  well_formed keypoints confidence ->
  exists s1 a1 s2 a2,
    NR.analyze self keypoints confidence elapsed_time = Py.Return (s1, a1) /\
    NR.analyze s1 keypoints confidence elapsed_time = Py.Return (s2, a2) /\
    NR.rep_count s2 = NR.rep_count s1 /\
    NR.left_rotations s2 = NR.left_rotations s1 /\
    NR.right_rotations s2 = NR.right_rotations s1 /\
    NR.rotation_direction s2 = NR.rotation_direction s1 /\
    EA.rep_count a2 = EA.rep_count a1.
Proof.
  intros Hwf.
  destruct (neck_analyze_shape self _ _ elapsed_time Hwf)
    as (ok & lowest & n & ls & rs & Hok & Hn & Hls & Hrs & E1).
  set (b := fst (BaseExercise.update_phase (NR.base self) elapsed_time)) in *.
  set (phase := snd (BaseExercise.update_phase (NR.base self) elapsed_time)) in *.
  assert (Hbt : BaseExercise.confidence_threshold b
                = BaseExercise.confidence_threshold (NR.base self))
    by apply update_phase_threshold.
  assert (Hbd : BaseExercise.phase_durations b
                = BaseExercise.phase_durations (NR.base self))
    by apply update_phase_durations.
  destruct ok.
  - cbv zeta in E1.
    set (m := (fst ls + fst rs) / 2) in *. set (o := fst n - m) in *.
    pose proof (neck_phase_base (NR.set_base self b) phase m o elapsed_time) as Hbase.
    cbv zeta in Hbase. destruct Hbase as [Hb1 Ht1].
    destruct (NR.analyze_phase (NR.set_base self b) phase m o elapsed_time)
      as [[s1 fm] fs] eqn:Hph.
    cbn [fst NR.set_base NR.base NR.rotation_threshold] in Hb1, Ht1.
    set (s1' := NR.set_rep_count s1 (NR.left_rotations s1 + NR.right_rotations s1)) in *.
    destruct (neck_analyze_shape s1' _ _ elapsed_time Hwf)
      as (ok' & lowest' & n' & ls' & rs' & Hok' & Hn' & Hls' & Hrs' & E2).
    assert (Hs1t : BaseExercise.confidence_threshold (NR.base s1')
                   = BaseExercise.confidence_threshold (NR.base self)).
    { subst s1'. cbn. rewrite Hb1. exact Hbt. }
    assert (Hs1d : BaseExercise.phase_durations (NR.base s1')
                   = BaseExercise.phase_durations (NR.base self)).
    { subst s1'. cbn. rewrite Hb1. exact Hbd. }
    rewrite (check_confidence_threshold (NR.base self)) in Hok' by exact Hs1t.
    rewrite Hok in Hok'. injection Hok' as <-.
    rewrite Hn in Hn'. injection Hn' as <-.
    rewrite Hls in Hls'. injection Hls' as <-.
    rewrite Hrs in Hrs'. injection Hrs' as <-.
    rewrite (update_phase_snd_durations (NR.base self)) in E2 by exact Hs1d.
    fold phase in E2. cbv zeta in E2. fold m in E2. fold o in E2.
    set (b' := fst (BaseExercise.update_phase (NR.base s1') elapsed_time)) in *.
    pose proof (neck_phase_twice (NR.set_base self b) (NR.set_base s1' b')
                  phase m o elapsed_time) as Htw.
    cbv zeta in Htw. rewrite Hph in Htw. cbn [fst] in Htw.
    destruct Htw as (Hl2 & Hr2 & Hd2); [exact Ht1 | reflexivity |].
    destruct (NR.analyze_phase (NR.set_base s1' b') phase m o elapsed_time)
      as [[s2 fm'] fs'].
    cbn [fst] in Hl2, Hr2, Hd2.
    eexists _, _, _, _. split; [exact E1|]. split; [exact E2|].
    cbn. cbn in Hl2, Hr2, Hd2. rewrite Hl2, Hr2, Hd2. auto 6.
  - destruct (neck_analyze_shape (NR.set_base self b) _ _ elapsed_time Hwf)
      as (ok' & lowest' & n' & ls' & rs' & Hok' & _ & _ & _ & E2).
    cbn [NR.set_base NR.base] in Hok', E2.
    rewrite (check_confidence_threshold (NR.base self)) in Hok' by congruence.
    rewrite Hok in Hok'. injection Hok' as <-.
    eexists _, _, _, _. split; [exact E1|]. split; [exact E2|].
    cbn. unfold NR.rep_count. cbn. rewrite update_phase_rep_count. auto 6.
Qed.

Lemma detect_base (self : AC.t) (quadrant : Z) :
  AC.base (fst (AC._detect_circle_completion self quadrant)) = AC.base self.
Proof.
  unfold AC._detect_circle_completion, AC._detect_circle_completion_if.
  destruct (AC.last_quadrant self) as [last|]; [|reflexivity].
  destruct (negb (quadrant =? last)%Z); [|reflexivity].
  cbn [AC.set_quadrant_visits AC.quadrant_visits].
  destruct (4 <=? _)%nat; [|reflexivity].
  destruct (_ =? 4)%nat; reflexivity.
Qed.

(** Calling [_detect_circle_completion] again with the same quadrant, on an
    object holding the log, the last quadrant and the count the first call
    left, counts nothing: after a completion the log holds that one
    quadrant, otherwise the quadrant is the last one seen. *)
Lemma detect_twice (s0 s0' : AC.t) (quadrant : Z) :
  let s1 := fst (AC._detect_circle_completion s0 quadrant) in
  AC.last_quadrant s0' = AC.last_quadrant s1 ->
  AC.quadrant_visits s0' = AC.quadrant_visits s1 ->
  AC.circle_count (fst (AC._detect_circle_completion s0' quadrant))
  = AC.circle_count s0'.
Proof.
  cbv zeta. unfold AC._detect_circle_completion, AC._detect_circle_completion_if.
  cbn [AC.set_quadrant_visits AC.quadrant_visits].
  destruct (AC.last_quadrant s0) as [last|] eqn:Hl0.
  - destruct (quadrant =? last)%Z eqn:Hq; cbn [negb].
    + cbn. intros -> _. rewrite Z.eqb_refl. reflexivity.
    + destruct (4 <=? _)%nat.
      * destruct (_ =? 4)%nat.
        -- cbn. rewrite Hl0. intros -> ->. rewrite Hq. reflexivity.
        -- cbn. intros -> _. rewrite Z.eqb_refl. reflexivity.
      * cbn. intros -> _. rewrite Z.eqb_refl. reflexivity.
  - cbn. intros -> _. rewrite Z.eqb_refl. reflexivity.
Qed.

(** The object the Active branch of the ankle detector leaves. *)
Lemma ankle_active_state (s0 : AC.t) (a : R) (q : Z) (elapsed_time : Q) :
  fst (fst (AC.analyze_active s0 a q elapsed_time)) =
    let sd := fst (AC._detect_circle_completion (AC.push_angle s0 a) q) in
    if Py.ltb 180 elapsed_time
       && match AC.active_ankle s0 with right => true | left => false end
    then
      AC.set_last_quadrant
        (AC.set_quadrant_visits
           (AC.set_circle_count (AC.set_active_ankle sd left) 0) []) None
    else sd.
Proof.
  unfold AC.analyze_active. cbv zeta.
  pose proof (detect_active_ankle (AC.push_angle s0 a) q) as Ha.
  destruct (push_angle_fields s0 a) as (_ & _ & _ & Hp & _). rewrite Hp in Ha.
  destruct (AC._detect_circle_completion (AC.push_angle s0 a) q) as [sd completed].
  cbn [fst] in *. rewrite Ha.
  destruct completed; destruct (_ && _); reflexivity.
Qed.

Lemma ankle_phase_base (s0 : AC.t) phase (a : R) (q : Z) (elapsed_time : Q) :
  AC.base (fst (fst (AC.analyze_phase s0 phase a q elapsed_time))) = AC.base s0.
Proof.
  destruct phase; cbn [AC.analyze_phase fst]; try reflexivity.
  rewrite ankle_active_state. cbv zeta.
  destruct (_ && _); cbn; rewrite detect_base;
    apply (push_angle_fields s0 a).
Qed.

(** The ankle detector: running the phase chain again moves neither the
    circle count nor the tracked limb.  The second run sees the same
    quadrant unless the first run switched limb. *)
Lemma ankle_phase_twice (s0 s0' : AC.t) phase (a a' : R) (q q' : Z) (elapsed_time : Q) :
  let s1 := fst (fst (AC.analyze_phase s0 phase a q elapsed_time)) in
  AC.circle_count s0' = AC.circle_count s1 ->
  AC.last_quadrant s0' = AC.last_quadrant s1 ->
  AC.quadrant_visits s0' = AC.quadrant_visits s1 ->
  AC.active_ankle s0' = AC.active_ankle s1 ->
  (AC.active_ankle s1 = AC.active_ankle s0 -> q' = q) ->
  let s2 := fst (fst (AC.analyze_phase s0' phase a' q' elapsed_time)) in
  AC.circle_count s2 = AC.circle_count s0' /\
  AC.active_ankle s2 = AC.active_ankle s0'.
Proof.
  destruct phase; cbn [AC.analyze_phase fst]; cbv zeta; auto.
  rewrite !ankle_active_state. cbv zeta.
  destruct (push_angle_fields s0 a) as (Hc0 & Hl0 & Hv0 & Ha0 & _).
  destruct (push_angle_fields s0' a') as (Hc0' & Hl0' & Hv0' & Ha0' & _).
  destruct (Py.ltb 180 elapsed_time); cbn [andb].
  - destruct (AC.active_ankle s0) eqn:Hact.
    + (* left already: no switch *)
      intros Hc Hl Hv Ha Hq.
      rewrite detect_active_ankle, Ha0 in Ha.
      rewrite detect_active_ankle, Ha0 in Hq. specialize (Hq eq_refl). subst q'.
      rewrite Ha.
      rewrite detect_active_ankle, Ha0'.
      rewrite (detect_twice (AC.push_angle s0 a) (AC.push_angle s0' a') q)
        by (cbv zeta; congruence).
      split; [exact Hc0' | exact Ha].
    + (* the first run switched *)
      cbn [AC.set_last_quadrant AC.set_quadrant_visits AC.set_circle_count
           AC.set_active_ankle AC.circle_count AC.last_quadrant
           AC.quadrant_visits AC.active_ankle].
      intros Hc Hl Hv Ha _. rewrite Ha.
      rewrite detect_active_ankle, Ha0'.
      rewrite detect_first_quadrant by congruence.
      cbn. split; [exact Hc0' | exact Ha].
  - intros Hc Hl Hv Ha Hq.
    rewrite detect_active_ankle, Ha0 in Hq. specialize (Hq eq_refl). subst q'.
    rewrite detect_active_ankle, Ha0'.
    rewrite (detect_twice (AC.push_angle s0 a) (AC.push_angle s0' a') q)
      by (cbv zeta; congruence).
    split; [exact Hc0' | reflexivity].
Qed.

Lemma tracked_points_active_ankle (s s' : AC.t) (keypoints : list Point) :
  AC.active_ankle s' = AC.active_ankle s ->
  AC.tracked_points s' keypoints = AC.tracked_points s keypoints.
Proof. intros H. unfold AC.tracked_points. rewrite H. reflexivity. Qed.

Lemma ankle_twice (self : AC.t) keypoints confidence elapsed_time :
  well_formed keypoints confidence ->
  exists s1 a1 s2 a2,
    AC.analyze self keypoints confidence elapsed_time = Py.Return (s1, a1) /\
    AC.analyze s1 keypoints confidence elapsed_time = Py.Return (s2, a2) /\
    AC.rep_count s2 = AC.rep_count s1 /\
    AC.circle_count s2 = AC.circle_count s1 /\
    AC.active_ankle s2 = AC.active_ankle s1 /\
    EA.rep_count a2 = EA.rep_count a1.
Proof.
  intros Hwf.
  destruct (ankle_analyze_shape self _ _ elapsed_time Hwf)
    as (ok & lowest & ankle & knee & Hok & Htp & E1).
  set (b := fst (BaseExercise.update_phase (AC.base self) elapsed_time)) in *.
  set (phase := snd (BaseExercise.update_phase (AC.base self) elapsed_time)) in *.
  assert (Hbt : BaseExercise.confidence_threshold b
                = BaseExercise.confidence_threshold (AC.base self))
    by apply update_phase_threshold.
  assert (Hbd : BaseExercise.phase_durations b
                = BaseExercise.phase_durations (AC.base self))
    by apply update_phase_durations.
  destruct ok.
  - cbv zeta in E1.
    set (a := AC._calculate_ankle_angle ankle knee) in *.
    set (q := AC._get_quadrant a) in *.
    pose proof (ankle_phase_base (AC.set_base self b) phase a q elapsed_time) as Hb1.
    destruct (AC.analyze_phase (AC.set_base self b) phase a q elapsed_time)
      as [[s1 fm] fs] eqn:Hph.
    cbn [fst AC.set_base AC.base] in Hb1.
    set (s1' := AC.set_rep_count s1 (AC.circle_count s1)) in *.
    destruct (ankle_analyze_shape s1' _ _ elapsed_time Hwf)
      as (ok' & lowest' & ankle' & knee' & Hok' & Htp' & E2).
    assert (Hs1t : BaseExercise.confidence_threshold (AC.base s1')
                   = BaseExercise.confidence_threshold (AC.base self)).
    { subst s1'. cbn. rewrite Hb1. exact Hbt. }
    assert (Hs1d : BaseExercise.phase_durations (AC.base s1')
                   = BaseExercise.phase_durations (AC.base self)).
    { subst s1'. cbn. rewrite Hb1. exact Hbd. }
    rewrite (check_confidence_threshold (AC.base self)) in Hok' by exact Hs1t.
    rewrite Hok in Hok'. injection Hok' as <-.
    rewrite (update_phase_snd_durations (AC.base self)) in E2 by exact Hs1d.
    fold phase in E2. cbv zeta in E2.
    set (a' := AC._calculate_ankle_angle ankle' knee') in *.
    set (q' := AC._get_quadrant a') in *.
    set (b' := fst (BaseExercise.update_phase (AC.base s1') elapsed_time)) in *.
    pose proof (ankle_phase_twice (AC.set_base self b) (AC.set_base s1' b')
                  phase a a' q q' elapsed_time) as Htw.
    cbv zeta in Htw. rewrite Hph in Htw. cbn [fst] in Htw.
    destruct Htw as (Hc2 & Ha2); try reflexivity.
    { cbn [AC.set_base AC.active_ankle]. intros Hsame.
      assert (Hpts : AC.tracked_points s1' keypoints = AC.tracked_points self keypoints)
        by (apply tracked_points_active_ankle; exact Hsame).
      rewrite Htp, Htp' in Hpts. injection Hpts as -> ->. reflexivity. }
    destruct (AC.analyze_phase (AC.set_base s1' b') phase a' q' elapsed_time)
      as [[s2 fm'] fs'].
    cbn [fst] in Hc2, Ha2.
    eexists _, _, _, _. split; [exact E1|]. split; [exact E2|].
    cbn. cbn in Hc2, Ha2. rewrite Hc2, Ha2. auto 6.
  - destruct (ankle_analyze_shape (AC.set_base self b) _ _ elapsed_time Hwf)
      as (ok' & lowest' & ankle' & knee' & Hok' & _ & E2).
    cbn [AC.set_base AC.base] in Hok', E2.
    rewrite (check_confidence_threshold (AC.base self)) in Hok' by congruence.
    rewrite Hok in Hok'. injection Hok' as <-.
    eexists _, _, _, _. split; [exact E1|]. split; [exact E2|].
    cbn. unfold AC.rep_count. cbn. rewrite update_phase_rep_count. auto 6.
Qed.

(** ** Idempotence *)

(** C7: for every detector, in any state, a second [analyze] call with the
    same keypoints, confidences and elapsed time returns, and leaves every
    counter ([rep_count], [left_rotations], [right_rotations],
    [circle_count]) and the hysteresis flag ([in_squeeze],
    [rotation_direction]; the tracked ankle for the ankle detector) as the
    first call left them; the two calls report the same rep count. *)
Theorem analyze_twice_same_counters (exercise : Exercise)
    keypoints confidence elapsed_time :
  well_formed keypoints confidence ->
  exists exercise1 a1 exercise2 a2,
    analyze exercise keypoints confidence elapsed_time = Py.Return (exercise1, a1) /\
    analyze exercise1 keypoints confidence elapsed_time = Py.Return (exercise2, a2) /\
    counters exercise2 = counters exercise1 /\
    flag exercise2 = flag exercise1 /\
    EA.rep_count a2 = EA.rep_count a1.
Proof.
  intros Hwf. destruct exercise as [self|self|self].
  - destruct (shoulder_twice self _ _ elapsed_time Hwf)
      as (s1 & a1 & s2 & a2 & E1 & E2 & Hr & Hi & Ha).
    exists (ShoulderSqueezes s1), a1, (ShoulderSqueezes s2), a2.
    cbn [analyze counters flag]. rewrite E1, E2, Hr, Hi. cbn. auto.
  - destruct (neck_twice self _ _ elapsed_time Hwf)
      as (s1 & a1 & s2 & a2 & E1 & E2 & Hr & Hl & Hrr & Hd & Ha).
    exists (NeckRotations s1), a1, (NeckRotations s2), a2.
    cbn [analyze counters flag]. rewrite E1, E2, Hr, Hl, Hrr, Hd. cbn. auto.
  - destruct (ankle_twice self _ _ elapsed_time Hwf)
      as (s1 & a1 & s2 & a2 & E1 & E2 & Hr & Hc & Hact & Ha).
    exists (AnkleCircles s1), a1, (AnkleCircles s2), a2.
    cbn [analyze counters flag]. rewrite E1, E2, Hr, Hc, Hact. cbn. auto.
Qed.

Lemma analyze_twice_same_counters_witness :
  exists exercise1 a1 exercise2 a2,
    analyze (ShoulderSqueezes (SS.set_in_squeeze shoulder_after_setup true))
      (shoulders_apart 100) confidence_found 130 = Py.Return (exercise1, a1) /\
    analyze exercise1 (shoulders_apart 100) confidence_found 130
      = Py.Return (exercise2, a2) /\
    counters exercise1 = [1%Z] /\
    counters exercise2 = [1%Z].
Proof.
  destruct (analyze_twice_same_counters
              (ShoulderSqueezes (SS.set_in_squeeze shoulder_after_setup true))
              (shoulders_apart 100) confidence_found 130)
    as (e1 & a1 & e2 & a2 & E1 & E2 & Hc & _).
  - split; reflexivity.
  - exists e1, a1, e2, a2. split; [exact E1|]. split; [exact E2|].
    assert (He1 : counters e1 = [1%Z]).
    { vm_compute in E1. injection E1 as <- _. reflexivity. }
    rewrite Hc. auto.
Defined.

(** The transition log of the ankle detector is not covered by C7: after a
    completion a second call with the same quadrant logs it once more
    (and only then remembers it as the last quadrant); the count stays. *)
Lemma detect_again_after_completion :
  let s0 := AC.set_quadrant_visits ankle_in_quadrant_4 [1; 2; 3]%Z in
  let s0 := AC.set_last_quadrant s0 (Some 3%Z) in
  let '(s1, c1) := AC._detect_circle_completion s0 4 in
  let '(s2, c2) := AC._detect_circle_completion s1 4 in
  (c1, AC.circle_count s1, AC.quadrant_visits s1, AC.last_quadrant s1)
    = (true, 1%Z, [], Some 3%Z) /\
  (c2, AC.circle_count s2, AC.quadrant_visits s2, AC.last_quadrant s2)
    = (false, 1%Z, [4%Z], Some 4%Z).
Proof. cbn. auto. Qed.

(** ** Bearing and quadrants *)

Lemma atan_nonpos (x : R) : (x <= 0)%R -> (atan x <= 0)%R.
Proof.
  intros [H | ->].
  - left. rewrite <- atan_0. apply atan_increasing. exact H.
  - rewrite atan_0. apply Rle_refl.
Qed.

Lemma atan_pos (x : R) : (0 < x)%R -> (0 < atan x)%R.
Proof. intros H. rewrite <- atan_0. apply atan_increasing. exact H. Qed.

Lemma div_neg_nonneg (y x : R) : (x < 0)%R -> (0 <= y)%R -> (y / x <= 0)%R.
Proof.
  intros Hx Hy. unfold Rdiv.
  assert (H : (/ x < 0)%R) by (apply Rinv_lt_0_compat; exact Hx).
  replace 0%R with (y * 0)%R by ring.
  apply Rmult_le_compat_l; [exact Hy | left; exact H].
Qed.

Lemma div_neg_neg (y x : R) : (x < 0)%R -> (y < 0)%R -> (0 < y / x)%R.
Proof.
  intros Hx Hy. unfold Rdiv.
  assert (H : (/ x < 0)%R) by (apply Rinv_lt_0_compat; exact Hx).
  replace (y * / x)%R with ((- y) * (- / x))%R by ring.
  apply Rmult_lt_0_compat; rlra.
Qed.

(** [math.atan2] lies in (-pi, pi]. *)
Lemma atan2_range (y x : R) : (- PI < math.atan2 y x <= PI)%R.
Proof.
  pose proof PI_RGT_0 as Hpi. unfold math.atan2.
  destruct (Rlt_dec 0 x) as [Hx|Hx].
  - pose proof (atan_bound (y / x)). rlra.
  - destruct (Rlt_dec x 0) as [Hx'|Hx'].
    + pose proof (atan_bound (y / x)) as Hb.
      destruct (Rle_dec 0 y) as [Hy|Hy].
      * pose proof (atan_nonpos _ (div_neg_nonneg y x Hx' Hy)). rlra.
      * assert (Hy' : (y < 0)%R) by rlra.
        pose proof (atan_pos _ (div_neg_neg y x Hx' Hy')). rlra.
    + destruct (Rlt_dec 0 y); [rlra|]. destruct (Rlt_dec y 0); rlra.
Qed.

(** The remainder by a positive modulus lies in [0, m). *)
Lemma mod_range (x m : R) : (0 < m)%R -> (0 <= math.mod_ x m < m)%R.
Proof.
  intros Hm. unfold math.mod_.
  destruct (base_Int_part (x / m)) as [Hlo Hhi].
  set (k := IZR (Int_part (x / m))) in *.
  assert (Hx : x = (m * (x / m))%R) by (field; rlra).
  assert (H1 : (m * k <= m * (x / m))%R)
    by (apply Rmult_le_compat_l; rlra).
  assert (H2 : (m * (x / m) < m * (k + 1))%R)
    by (apply Rmult_lt_compat_l; rlra).
  rewrite <- Hx in H1, H2. split; rlra.
Qed.

Lemma get_quadrant_range (angle : R) : (1 <= AC._get_quadrant angle <= 4)%Z.
Proof.
  unfold AC._get_quadrant. cbv zeta.
  repeat destruct (Rlt_dec _ _); lia.
Qed.

(** C9, as the code has it: [_calculate_ankle_angle] returns
    [atan2(dy, dx)] as it is, a value in (-pi, pi]; it is [_get_quadrant]
    that reduces the angle modulo 2 pi, into [0, 2 pi), before it picks one
    of the quadrants 1 to 4. *)
Theorem bearing_range (ankle knee : Point) :
  let angle := AC._calculate_ankle_angle ankle knee in
  let normalized := math.mod_ angle (2 * math.pi) in
  (- PI < angle <= PI)%R /\
  (0 <= normalized < 2 * PI)%R /\
  (1 <= AC._get_quadrant angle <= 4)%Z.
Proof.
  cbv zeta. split; [|split].
  - apply atan2_range.
  - apply mod_range. unfold math.pi. pose proof PI_RGT_0. rlra.
  - apply get_quadrant_range.
Qed.

Lemma mod_small (x m : R) : (0 <= x < m)%R -> math.mod_ x m = x.
Proof.
  intros [H0 Hm]. unfold math.mod_.
  assert (Hk : 0%Z = Int_part (x / m)).
  { apply Int_part_spec. cbn [IZR].
    assert (0 <= x / m < 1)%R.
    { split.
      - apply Rmult_le_pos; [exact H0 | left; apply Rinv_0_lt_compat; rlra].
      - apply (Rmult_lt_reg_r m); [rlra|]. unfold Rdiv.
        rewrite Rmult_assoc, Rinv_l by rlra. rlra. }
    rlra. }
  rewrite <- Hk. cbn [IZR]. ring.
Qed.

Lemma mod_negative (x m : R) : (- m <= x < 0)%R -> math.mod_ x m = (x + m)%R.
Proof.
  intros [Hm H0]. unfold math.mod_.
  assert (Hk : (-1)%Z = Int_part (x / m)).
  { apply Int_part_spec.
    assert (-1 <= x / m < 0)%R.
    { assert (Hpos : (0 < m)%R) by rlra.
      split.
      - apply (Rmult_le_reg_r m); [exact Hpos|]. unfold Rdiv.
        rewrite Rmult_assoc, Rinv_l by rlra. rlra.
      - apply (Rmult_lt_reg_r m); [exact Hpos|]. unfold Rdiv.
        rewrite Rmult_assoc, Rinv_l by rlra. rlra. }
    rlra. }
  rewrite <- Hk. ring.
Qed.

(** The quadrant [_get_quadrant] gives to [atan2(dy, dx)], by the signs of
    [dx] and [dy]: the positive x axis and the origin are in quadrant 1,
    the positive y axis in 2, the negative x axis in 3 and the negative
    y axis in 4. *)
Lemma quadrant_by_signs (dy dx : R) :
  AC._get_quadrant (math.atan2 dy dx) =
    if Rlt_dec 0 dx then (if Rle_dec 0 dy then 1 else 4)%Z
    else if Rlt_dec dx 0 then (if Rlt_dec 0 dy then 2 else 3)%Z
    else if Rlt_dec 0 dy then 2%Z
    else if Rlt_dec dy 0 then 4%Z
    else 1%Z.
Proof.
  pose proof PI_RGT_0 as Hpi.
  assert (Hq : forall angle n : R,
             math.mod_ angle (2 * math.pi) = n ->
             AC._get_quadrant angle =
               if Rlt_dec n (PI / 2) then 1%Z
               else if Rlt_dec n PI then 2%Z
               else if Rlt_dec n (3 * PI / 2) then 3%Z
               else 4%Z).
  { intros angle n <-. reflexivity. }
  unfold math.atan2.
  destruct (Rlt_dec 0 dx) as [Hx|Hx].
  - pose proof (atan_bound (dy / dx)) as Hb.
    destruct (Rle_dec 0 dy) as [Hy|Hy].
    + assert (H0 : (0 <= atan (dy / dx))%R).
      { destruct Hy as [Hy | <-].
        - left. apply atan_pos. apply Rdiv_lt_0_compat; assumption.
        - unfold Rdiv. rewrite Rmult_0_l, atan_0. apply Rle_refl. }
      rewrite (Hq _ (atan (dy / dx))) by (apply mod_small; unfold math.pi; rlra).
      destruct (Rlt_dec _ _); [reflexivity | rlra].
    + assert (H0 : (atan (dy / dx) < 0)%R).
      { rewrite <- atan_0. apply atan_increasing.
        unfold Rdiv. replace 0%R with (0 * / dx)%R by ring.
        apply Rmult_lt_compat_r; [apply Rinv_0_lt_compat; exact Hx | rlra]. }
      rewrite (Hq _ (atan (dy / dx) + 2 * PI)%R)
        by (apply mod_negative; unfold math.pi; rlra).
      repeat (destruct (Rlt_dec _ _); [rlra|]). reflexivity.
  - destruct (Rlt_dec dx 0) as [Hx'|Hx'].
    + pose proof (atan_bound (dy / dx)) as Hb.
      destruct (Rle_dec 0 dy) as [Hy|Hy].
      * pose proof (atan_nonpos _ (div_neg_nonneg dy dx Hx' Hy)) as H0.
        rewrite (Hq _ (atan (dy / dx) + PI)%R)
          by (apply mod_small; unfold math.pi; rlra).
        destruct (Rlt_dec 0 dy) as [Hy'|Hy'].
        -- assert (H1 : (atan (dy / dx) < 0)%R).
           { rewrite <- atan_0. apply atan_increasing.
             unfold Rdiv. replace 0%R with (dy * 0)%R by ring.
             apply Rmult_lt_compat_l;
               [exact Hy' | apply Rinv_lt_0_compat; exact Hx']. }
           destruct (Rlt_dec _ _); [rlra|].
           destruct (Rlt_dec _ _); [reflexivity | rlra].
        -- assert (dy = 0%R) by rlra. subst dy.
           unfold Rdiv. rewrite Rmult_0_l, atan_0.
           repeat (destruct (Rlt_dec _ _); try rlra). reflexivity.
      * assert (Hy' : (dy < 0)%R) by rlra.
        pose proof (atan_pos _ (div_neg_neg dy dx Hx' Hy')) as H0.
        rewrite (Hq _ (atan (dy / dx) - PI + 2 * PI)%R)
          by (apply mod_negative; unfold math.pi; rlra).
        destruct (Rlt_dec 0 dy); [rlra|].
        repeat (destruct (Rlt_dec _ _); try rlra). reflexivity.
    + destruct (Rlt_dec 0 dy) as [Hy|Hy].
      * rewrite (Hq _ (PI / 2)%R) by (apply mod_small; unfold math.pi; rlra).
        repeat (destruct (Rlt_dec _ _); try rlra). reflexivity.
      * destruct (Rlt_dec dy 0) as [Hy'|Hy'].
        -- rewrite (Hq _ (- (PI / 2) + 2 * PI)%R)
             by (apply mod_negative; unfold math.pi; rlra).
           repeat (destruct (Rlt_dec _ _); try rlra). reflexivity.
        -- rewrite (Hq _ 0%R) by (apply mod_small; unfold math.pi; rlra).
           destruct (Rlt_dec _ _); [reflexivity | rlra].
Qed.

(** C9 as stated fails: for the ankle straight below the knee in image
    coordinates, at (0, -1) from it, the bearing returned is -pi/2. *)
Lemma bearing_counterexample :
  AC._calculate_ankle_angle (0, -1)%Q (0, 0)%Q = (- (PI / 2))%R /\
  ~ (0 <= AC._calculate_ankle_angle (0, -1)%Q (0, 0)%Q < 2 * PI)%R.
Proof.
  assert (H : AC._calculate_ankle_angle (0, -1)%Q (0, 0)%Q = (- (PI / 2))%R).
  { unfold AC._calculate_ankle_angle. cbn [fst snd].
    replace (Q2R (-1 - 0)) with (-1)%R by (unfold Q2R; cbn; rlra).
    replace (Q2R (0 - 0)) with 0%R by (unfold Q2R; cbn; rlra).
    unfold math.atan2.
    destruct (Rlt_dec 0 0) as [H|_]; [rlra|].
    destruct (Rlt_dec 0 (-1)) as [H|_]; [rlra|].
    destruct (Rlt_dec (-1) 0) as [_|H]; [reflexivity | rlra]. }
  split; [exact H|]. rewrite H. pose proof PI_RGT_0. rlra.
Qed.

(** ** Ankle circles: a full circle through [analyze] *)

Lemma sample_quadrants :
  AC._get_quadrant (AC._calculate_ankle_angle (1, -1)%Q (0, 0)%Q) = 4%Z /\
  AC._get_quadrant (AC._calculate_ankle_angle (1, 1)%Q (0, 0)%Q) = 1%Z /\
  AC._get_quadrant (AC._calculate_ankle_angle (-1, 1)%Q (0, 0)%Q) = 2%Z /\
  AC._get_quadrant (AC._calculate_ankle_angle (-1, -1)%Q (0, 0)%Q) = 3%Z.
Proof.
  unfold AC._calculate_ankle_angle. cbn [fst snd].
  replace (Q2R (1 - 0)) with 1%R by (unfold Q2R; cbn; rlra).
  replace (Q2R (-1 - 0)) with (-1)%R by (unfold Q2R; cbn; rlra).
  rewrite !quadrant_by_signs.
  repeat split;
    repeat (destruct (Rlt_dec _ _); try rlra);
    repeat (destruct (Rle_dec _ _); try rlra); reflexivity.
Qed.

(** [_detect_circle_completion] depends on the object through its
    detection state only. *)
Lemma detect_detection_state (s s' : AC.t) (quadrant : Z) :
  detection_state s' = detection_state s ->
  detection_state (fst (AC._detect_circle_completion s' quadrant))
  = detection_state (fst (AC._detect_circle_completion s quadrant)).
Proof.
  unfold detection_state. intros [= Hc Hl Hv].
  unfold AC._detect_circle_completion, AC._detect_circle_completion_if.
  cbn [AC.set_quadrant_visits AC.quadrant_visits].
  rewrite Hl, Hv. destruct (AC.last_quadrant s) as [last|] eqn:Hl0.
  - destruct (negb (quadrant =? last)%Z); [|cbn; congruence].
    destruct (4 <=? _)%nat; [|cbn; congruence].
    destruct (_ =? 4)%nat; cbn; congruence.
  - cbn. congruence.
Qed.

(** An Active frame at or before 180 s runs the completion check on the
    quadrant of the tracked ankle and nothing else touches the detection
    state. *)
Lemma ankle_active_step (self : AC.t) keypoints confidence elapsed_time
    (ankle knee : Point) (quadrant : Z) :
  default_configuration (AC.base self) ->
  active_frame AC.required_keypoints (keypoints, confidence, elapsed_time) ->
  elapsed_time <= 180 ->
  AC.tracked_points self keypoints = Py.Return (ankle, knee) ->
  AC._get_quadrant (AC._calculate_ankle_angle ankle knee) = quadrant ->
  exists self' a,
    AC.analyze self keypoints confidence elapsed_time = Py.Return (self', a) /\
    default_configuration (AC.base self') /\
    AC.active_ankle self' = AC.active_ankle self /\
    detection_state self'
      = detection_state (fst (AC._detect_circle_completion self quadrant)) /\
    EA.rep_count a = AC.circle_count self'.
Proof.
  intros Hcfg Hf Ht Htp Hq.
  destruct (ankle_active_frame self _ _ _ Hcfg Hf)
    as (lowest & ankle' & knee' & Htp' & E).
  rewrite Htp in Htp'. injection Htp' as <- <-.
  cbv zeta in E. rewrite Hq in E.
  pose proof (update_phase_configuration _ elapsed_time Hcfg) as Hcfg'.
  set (b := fst (BaseExercise.update_phase (AC.base self) elapsed_time)) in *.
  set (a := AC._calculate_ankle_angle ankle knee) in *.
  pose proof (ankle_active_state (AC.set_base self b) a quadrant elapsed_time) as Hst.
  assert (H180 : Py.ltb 180 elapsed_time = false) by (apply ltb_ge; exact Ht).
  rewrite H180 in Hst. cbn [andb] in Hst. cbv zeta in Hst.
  destruct (AC.analyze_active (AC.set_base self b) a quadrant elapsed_time)
    as [[s1 fm] fs].
  cbn [fst] in Hst. subst s1.
  eexists _, _. split; [exact E|].
  destruct (push_angle_fields (AC.set_base self b) a) as (Hc & Hl & Hv & Ha & Hb).
  repeat split.
  - cbn. rewrite detect_base, Hb. apply Hcfg'.
  - cbn. rewrite detect_base, Hb. apply Hcfg'.
  - cbn. rewrite detect_active_ankle, Ha. reflexivity.
  - transitivity
      (detection_state
         (fst (AC._detect_circle_completion
                 (AC.push_angle (AC.set_base self b) a) quadrant)));
      [reflexivity|].
    apply detect_detection_state. unfold detection_state.
    rewrite Hc, Hl, Hv. reflexivity.
Qed.

(** From a fresh detector, frames with the right ankle in quadrants
    4, 1, 2, 3, 4 count one circle, on the last frame, and leave the log
    empty. *)
Lemma ankle_circle_through_analyze :
  exists trace,
    run AC.analyze AC.__init__ circle_frames = Py.Return trace /\
    map (fun r => detection_state (fst r)) trace
      = [(0, Some 4, []); (0, Some 1, [1]); (0, Some 2, [1; 2]);
         (0, Some 3, [1; 2; 3]); (1, Some 3, [])]%Z /\
    map (fun r => EA.rep_count (snd r)) trace = [0; 0; 0; 0; 1]%Z.
Proof.
  destruct sample_quadrants as (Q4 & Q1 & Q2 & Q3).
  assert (Hf : forall p,
             active_frame AC.required_keypoints (ankle_at p, confidence_found, 130))
    by (intros p; active_found).
  assert (Ht : 130 <= 180) by discriminate.
  assert (Htp : forall s p,
             AC.active_ankle s = right ->
             AC.tracked_points s (ankle_at p) = Py.Return (p, (0, 0))).
  { intros s p Hs. unfold AC.tracked_points. rewrite Hs. reflexivity. }
  assert (Hstep : forall s p q d,
             default_configuration (AC.base s) ->
             AC.active_ankle s = right ->
             AC._get_quadrant (AC._calculate_ankle_angle p (0, 0)) = q ->
             detection_state s = d ->
             exists s' a,
               AC.analyze s (ankle_at p) confidence_found 130 = Py.Return (s', a) /\
               default_configuration (AC.base s') /\
               AC.active_ankle s' = right /\
               detection_state s'
                 = detection_state
                     (fst (AC._detect_circle_completion (with_detection_state d) q)) /\
               EA.rep_count a = AC.circle_count s').
  { intros s p q d Hc Ha Hq Hd.
    destruct (ankle_active_step s _ _ _ p (0, 0) q Hc (Hf p) Ht (Htp s p Ha) Hq)
      as (s' & a & E & Hc' & Ha' & Hd' & Hr).
    exists s', a. repeat split; try assumption; try apply Hc'; try congruence.
    rewrite Hd'. apply detect_detection_state.
    rewrite <- Hd. unfold detection_state. reflexivity. }
  destruct (Hstep AC.__init__ (1, -1) 4%Z (0%Z, None, [])) as
    (s1 & a1 & E1 & C1 & A1 & D1 & R1); try reflexivity; [split; reflexivity | exact Q4 |].
  cbn in D1.
  destruct (Hstep s1 (1, 1) 1%Z _ C1 A1 Q1 D1) as (s2 & a2 & E2 & C2 & A2 & D2 & R2).
  cbn in D2.
  destruct (Hstep s2 (-1, 1) 2%Z _ C2 A2 Q2 D2) as (s3 & a3 & E3 & C3 & A3 & D3 & R3).
  cbn in D3.
  destruct (Hstep s3 (-1, -1) 3%Z _ C3 A3 Q3 D3) as (s4 & a4 & E4 & C4 & A4 & D4 & R4).
  cbn in D4.
  destruct (Hstep s4 (1, -1) 4%Z _ C4 A4 Q4 D4) as (s5 & a5 & E5 & C5 & A5 & D5 & R5).
  cbn in D5.
  unfold circle_frames. cbn [map run].
  rewrite E1. cbn [Py.bind]. rewrite E2. cbn [Py.bind]. rewrite E3. cbn [Py.bind].
  rewrite E4. cbn [Py.bind]. rewrite E5. cbn [Py.bind].
  eexists. split; [reflexivity|]. cbn [map fst snd].
  rewrite D1, D2, D3, D4, D5, R1, R2, R3, R4, R5.
  unfold detection_state in D1, D2, D3, D4, D5.
  injection D1 as -> _ _. injection D2 as -> _ _. injection D3 as -> _ _.
  injection D4 as -> _ _. injection D5 as -> _ _.
  split; reflexivity.
Qed.

(** * Further properties *)

(** ** What a returning call of [analyze] went through *)

Lemma shoulder_analyze_inv (self s' : SS.t) keypoints confidence elapsed_time
    (a : EA.t) :
  SS.analyze self keypoints confidence elapsed_time = Py.Return (s', a) ->
  let b := fst (BaseExercise.update_phase (SS.base self) elapsed_time) in
  let phase := snd (BaseExercise.update_phase (SS.base self) elapsed_time) in
  (BaseExercise.check_confidence (SS.base self) confidence SS.required_keypoints
     = Py.Return false /\
   s' = SS.set_base self b /\
   a = SS.low_confidence_analysis s' phase) \/
  (BaseExercise.check_confidence (SS.base self) confidence SS.required_keypoints
     = Py.Return true /\
   exists left_shoulder right_shoulder fm fs required lowest,
     nth_error keypoints KeypointIndex.LEFT_SHOULDER = Some left_shoulder /\
     nth_error keypoints KeypointIndex.RIGHT_SHOULDER = Some right_shoulder /\
     SS.analyze_phase (SS.set_base self b) phase
       (Qabs (fst left_shoulder - fst right_shoulder)) elapsed_time
       = Py.Return (s', fm, fs) /\
     Py.take confidence SS.required_keypoints = Py.Return required /\
     Py.min required = Py.Return lowest /\
     a = SS.analysis s' phase fs fm lowest
           (Qabs (fst left_shoulder - fst right_shoulder))).
Proof.
  intros H b phase. subst b phase. unfold SS.analyze in H.
  pose proof (update_phase_threshold (SS.base self) elapsed_time) as Ht.
  destruct (BaseExercise.update_phase (SS.base self) elapsed_time) as [b phase].
  cbn [fst snd SS.base SS.set_base] in *.
  rewrite (check_confidence_threshold (SS.base self) b) in H by exact Ht.
  bind_inv H ok. destruct ok; cbn [negb] in H.
  - right. split; [reflexivity|].
    unfold Py.getitem in H.
    destruct (nth_error keypoints KeypointIndex.LEFT_SHOULDER) as [ls|] eqn:Hls;
      cbn [Py.bind] in H; [|discriminate].
    destruct (nth_error keypoints KeypointIndex.RIGHT_SHOULDER) as [rs|] eqn:Hrs;
      cbn [Py.bind] in H; [|discriminate].
    bind_inv H r. destruct r as [[s fm] fs]. bind_inv H required.
    bind_inv H lowest. injection H as <- <-.
    exists ls, rs, fm, fs, required, lowest. auto 10.
  - left. injection H as <- <-. auto.
Qed.

Lemma neck_analyze_inv (self s' : NR.t) keypoints confidence elapsed_time
    (a : EA.t) :
  NR.analyze self keypoints confidence elapsed_time = Py.Return (s', a) ->
  let b := fst (BaseExercise.update_phase (NR.base self) elapsed_time) in
  let phase := snd (BaseExercise.update_phase (NR.base self) elapsed_time) in
  (BaseExercise.check_confidence (NR.base self) confidence NR.required_keypoints
     = Py.Return false /\
   s' = NR.set_base self b /\
   a = NR.low_confidence_analysis s' phase) \/
  (BaseExercise.check_confidence (NR.base self) confidence NR.required_keypoints
     = Py.Return true /\
   exists nose left_shoulder right_shoulder s1 fm fs required lowest,
     nth_error keypoints KeypointIndex.NOSE = Some nose /\
     nth_error keypoints KeypointIndex.LEFT_SHOULDER = Some left_shoulder /\
     nth_error keypoints KeypointIndex.RIGHT_SHOULDER = Some right_shoulder /\
     NR.analyze_phase (NR.set_base self b) phase
       ((fst left_shoulder + fst right_shoulder) / 2)
       (fst nose - (fst left_shoulder + fst right_shoulder) / 2) elapsed_time
       = (s1, fm, fs) /\
     s' = NR.set_rep_count s1 (NR.left_rotations s1 + NR.right_rotations s1) /\
     Py.take confidence NR.required_keypoints = Py.Return required /\
     Py.min required = Py.Return lowest /\
     a = NR.analysis s' phase fs fm lowest
           (fst nose - (fst left_shoulder + fst right_shoulder) / 2)).
Proof.
  intros H b phase. subst b phase. unfold NR.analyze in H.
  pose proof (update_phase_threshold (NR.base self) elapsed_time) as Ht.
  destruct (BaseExercise.update_phase (NR.base self) elapsed_time) as [b phase].
  cbn [fst snd NR.base NR.set_base] in *.
  rewrite (check_confidence_threshold (NR.base self) b) in H by exact Ht.
  bind_inv H ok. destruct ok; cbn [negb] in H.
  - right. split; [reflexivity|].
    unfold Py.getitem in H.
    destruct (nth_error keypoints KeypointIndex.NOSE) as [n|] eqn:Hn;
      cbn [Py.bind] in H; [|discriminate].
    destruct (nth_error keypoints KeypointIndex.LEFT_SHOULDER) as [ls|] eqn:Hls;
      cbn [Py.bind] in H; [|discriminate].
    destruct (nth_error keypoints KeypointIndex.RIGHT_SHOULDER) as [rs|] eqn:Hrs;
      cbn [Py.bind] in H; [|discriminate].
    destruct (NR.analyze_phase _ _ _ _ _) as [[s1 fm] fs] eqn:Hph.
    bind_inv H required. bind_inv H lowest. injection H as <- <-.
    exists n, ls, rs, s1, fm, fs, required, lowest. auto 12.
  - left. injection H as <- <-. auto.
Qed.

Lemma ankle_analyze_inv (self s' : AC.t) keypoints confidence elapsed_time
    (a : EA.t) :
  AC.analyze self keypoints confidence elapsed_time = Py.Return (s', a) ->
  let b := fst (BaseExercise.update_phase (AC.base self) elapsed_time) in
  let phase := snd (BaseExercise.update_phase (AC.base self) elapsed_time) in
  (BaseExercise.check_confidence (AC.base self) confidence AC.required_keypoints
     = Py.Return false /\
   s' = AC.set_base self b /\
   a = AC.low_confidence_analysis s' phase) \/
  (BaseExercise.check_confidence (AC.base self) confidence AC.required_keypoints
     = Py.Return true /\
   exists ankle knee s1 fm fs required lowest,
     AC.tracked_points self keypoints = Py.Return (ankle, knee) /\
     AC.analyze_phase (AC.set_base self b) phase
       (AC._calculate_ankle_angle ankle knee)
       (AC._get_quadrant (AC._calculate_ankle_angle ankle knee)) elapsed_time
       = (s1, fm, fs) /\
     s' = AC.set_rep_count s1 (AC.circle_count s1) /\
     Py.take confidence AC.required_keypoints = Py.Return required /\
     Py.min required = Py.Return lowest /\
     a = AC.analysis s' phase fs fm lowest
           (AC._calculate_ankle_angle ankle knee)
           (AC._get_quadrant (AC._calculate_ankle_angle ankle knee))).
Proof.
  intros H b phase. subst b phase. unfold AC.analyze in H.
  pose proof (update_phase_threshold (AC.base self) elapsed_time) as Ht.
  destruct (BaseExercise.update_phase (AC.base self) elapsed_time) as [b phase].
  cbn [fst snd AC.base AC.set_base] in *.
  rewrite (check_confidence_threshold (AC.base self) b) in H by exact Ht.
  bind_inv H ok. destruct ok; cbn [negb] in H.
  - right. split; [reflexivity|].
    change (AC.tracked_points (AC.set_base self b) keypoints)
      with (AC.tracked_points self keypoints) in H.
    bind_inv H pts. destruct pts as [ankle knee].
    destruct (AC.analyze_phase _ _ _ _ _) as [[s1 fm] fs] eqn:Hph.
    bind_inv H required. bind_inv H lowest. injection H as <- <-.
    exists ankle, knee, s1, fm, fs, required, lowest. auto 12.
  - left. injection H as <- <-. auto.
Qed.

(** ** PhaseClock on any duration table *)

Lemma update_phase_loop_spec (items : list (ExercisePhase * Q))
    (elapsed_time cumulative_time : Q) :
  (forall item, In item items -> 0 <= snd item) ->
  cumulative_time <= elapsed_time ->
  (cumulative_time + total_duration items <= elapsed_time ->
     BaseExercise.update_phase_loop elapsed_time cumulative_time items = None) /\
  (elapsed_time < cumulative_time + total_duration items ->
     exists phase duration,
       BaseExercise.update_phase_loop elapsed_time cumulative_time items
         = Some phase /\
       In (phase, duration) items /\ 0 < duration).
Proof.
  revert cumulative_time.
  induction items as [|[phase duration] rest IH]; intros c Hpos Hc;
    cbn [BaseExercise.update_phase_loop total_duration fold_right snd].
  - split; [reflexivity | intros H; exfalso; qlra].
  - fold (total_duration rest).
    assert (Hd : 0 <= duration) by (apply (Hpos (phase, duration)); left; reflexivity).
    destruct (Py.ltb elapsed_time (c + duration)) eqn:E.
    + apply ltb_lt in E. split; [intros H|intros _].
      * assert (0 <= total_duration rest).
        { clear -Hpos. induction rest as [|item rest IH]; cbn; [discriminate|].
          assert (0 <= snd item) by (apply Hpos; right; left; reflexivity).
          assert (0 <= fold_right (fun item acc => snd item + acc) 0 rest).
          { apply IH. intros x [Hx|Hx]; apply Hpos; [left | right; right]; exact Hx. }
          qlra. }
        exfalso. qlra.
      * exists phase, duration. repeat split; [left; reflexivity | qlra].
    + apply ltb_ge in E.
      destruct (IH (c + duration)) as [Hnone Hsome].
      { intros item Hin. apply Hpos. right. exact Hin. }
      { exact E. }
      split.
      * intros H. apply Hnone. qlra.
      * intros H. destruct Hsome as (p & d & Hl & Hin & Hd'); [qlra|].
        exists p, d. repeat split; [exact Hl | right; exact Hin | exact Hd'].
Qed.

(** X1: for any table of non-negative durations and any elapsed time from
    0 on, [update_phase] returns Completed once the elapsed time reaches
    the sum of the durations, and before that a phase of the table whose
    duration is positive: a phase of length zero is never returned. *)
Theorem update_phase_any_table (self : BaseExercise.t) (elapsed_time : Q) :
  (forall item, In item (BaseExercise.phase_durations self) -> 0 <= snd item) ->
  0 <= elapsed_time ->
  let phase := snd (BaseExercise.update_phase self elapsed_time) in
  (total_duration (BaseExercise.phase_durations self) <= elapsed_time ->
     phase = COMPLETED) /\
  (elapsed_time < total_duration (BaseExercise.phase_durations self) ->
     exists duration,
       In (phase, duration) (BaseExercise.phase_durations self) /\ 0 < duration).
Proof.
  intros Hpos Ht phase. subst phase. unfold BaseExercise.update_phase.
  assert (E : Py.ltb elapsed_time 0 = false) by (apply ltb_ge; exact Ht).
  rewrite E.
  destruct (update_phase_loop_spec _ elapsed_time 0 Hpos Ht) as [Hnone Hsome].
  split.
  - intros H. rewrite Hnone by qlra. reflexivity.
  - intros H. destruct Hsome as (p & d & -> & Hin & Hd); [qlra|].
    exists d. split; assumption.
Qed.

Lemma update_phase_any_table_witness :
  exists duration,
    In (snd (BaseExercise.update_phase BaseExercise.__init__ 130), duration)
       BaseExercise.default_durations /\ 0 < duration.
Proof.
  apply (update_phase_any_table BaseExercise.__init__ 130).
  - intros item [<-|[<-|[<-|[]]]]; discriminate.
  - discriminate.
  - reflexivity.
Defined.

(** X2: with the default table the phase never moves backwards as the
    elapsed time grows. *)
Theorem update_phase_monotone (self : BaseExercise.t) (t1 t2 : Q) :
  BaseExercise.phase_durations self = BaseExercise.default_durations ->
  t1 <= t2 ->
  (phase_rank (snd (BaseExercise.update_phase self t1))
   <= phase_rank (snd (BaseExercise.update_phase self t2)))%nat.
Proof.
  intros Hd Ht.
  rewrite !(update_phase_default_cases self _ Hd).
  ltb_cases; cbn [phase_rank]; try lia; exfalso; qlra.
Qed.

Lemma update_phase_monotone_witness :
  (phase_rank (snd (BaseExercise.update_phase BaseExercise.__init__ 119))
   <= phase_rank (snd (BaseExercise.update_phase BaseExercise.__init__ 120)))%nat.
Proof.
  apply update_phase_monotone; [reflexivity | discriminate].
Defined.

(** ** ConfidenceGate: exactly when it passes, and what decides first *)

(** X3: the gate returns True exactly when every required index is in
    range and holds a confidence of at least the threshold. *)
Theorem check_confidence_true_iff (self : BaseExercise.t) (confidence : list Q)
    (required_indices : list nat) :
  BaseExercise.check_confidence self confidence required_indices = Py.Return true
  <->
  (forall idx, In idx required_indices ->
     exists c, nth_error confidence idx = Some c /\
               BaseExercise.confidence_threshold self <= c).
Proof.
  unfold BaseExercise.check_confidence.
  induction required_indices as [|idx rest IH];
    cbn [BaseExercise.check_confidence_loop].
  - split; [intros _ idx [] | reflexivity].
  - unfold Py.getitem. destruct (nth_error confidence idx) as [c|] eqn:Hc;
      cbn [Py.bind].
    + destruct (Py.ltb c _) eqn:E.
      * split; [discriminate|]. intros H.
        destruct (H idx (or_introl eq_refl)) as (c' & Hc' & Hge).
        rewrite Hc in Hc'. injection Hc' as <-.
        apply ltb_lt in E. exfalso. qlra.
      * apply ltb_ge in E. rewrite IH. split.
        -- intros H i [<-|Hi]; [eauto | apply H; exact Hi].
        -- intros H i Hi. apply H. right. exact Hi.
    + split; [discriminate|]. intros H.
      destruct (H idx (or_introl eq_refl)) as (c' & Hc' & _). congruence.
Qed.

(** X4: the indices are read in order and the first one that fails
    decides: below the threshold it makes the gate return False, whatever
    follows, even indices out of range; out of range it raises
    [IndexError]. *)
Theorem check_confidence_first_failure (self : BaseExercise.t)
    (confidence : list Q) (before after : list nat) (idx : nat) :
  (forall i, In i before ->
     exists c, nth_error confidence i = Some c /\
               BaseExercise.confidence_threshold self <= c) ->
  (forall c, nth_error confidence idx = Some c ->
     c < BaseExercise.confidence_threshold self ->
     BaseExercise.check_confidence self confidence (before ++ idx :: after)
       = Py.Return false) /\
  (nth_error confidence idx = None ->
     BaseExercise.check_confidence self confidence (before ++ idx :: after)
       = Py.Raise Py.IndexError).
Proof.
  unfold BaseExercise.check_confidence.
  induction before as [|i before IH]; intros Hb;
    cbn [app BaseExercise.check_confidence_loop]; unfold Py.getitem.
  - split.
    + intros c Hc Hlow. rewrite Hc. cbn [Py.bind].
      apply ltb_lt in Hlow. rewrite Hlow. reflexivity.
    + intros ->. reflexivity.
  - destruct (Hb i (or_introl eq_refl)) as (c & Hc & Hge).
    rewrite Hc. cbn [Py.bind]. apply ltb_ge in Hge. rewrite Hge.
    apply IH. intros j Hj. apply Hb. right. exact Hj.
Qed.

Lemma check_confidence_first_failure_witness :
  BaseExercise.check_confidence BaseExercise.__init__ [0.9; 0.1] [0; 1; 7]%nat
    = Py.Return false /\
  BaseExercise.check_confidence BaseExercise.__init__ [0.9; 0.1] [0; 7; 1]%nat
    = Py.Raise Py.IndexError.
Proof.
  split.
  - apply (check_confidence_first_failure BaseExercise.__init__ [0.9; 0.1]
             [0%nat] [7%nat] 1%nat) with (c := 0.1).
    + intros i [<-|[]]. exists 0.9. split; [reflexivity | discriminate].
    + reflexivity.
    + reflexivity.
  - apply (check_confidence_first_failure BaseExercise.__init__ [0.9; 0.1]
             [0%nat] [1%nat] 7%nat).
    + intros i [<-|[]]. exists 0.9. split; [reflexivity | discriminate].
    + reflexivity.
Defined.

Lemma check_confidence_true_iff_witness :
  BaseExercise.check_confidence BaseExercise.__init__ confidence_found
    ShoulderSqueezesExercise.required_keypoints = Py.Return true.
Proof.
  apply (proj2 (check_confidence_true_iff BaseExercise.__init__ confidence_found
                  ShoulderSqueezesExercise.required_keypoints)).
  passes_found.
Defined.

(** ** The confidence an analysis reports *)

Lemma fold_min_spec (rest : list Q) (x : Q) :
  let m := fold_left (fun m y => if Py.ltb y m then y else m) rest x in
  In m (x :: rest) /\ forall y, In y (x :: rest) -> m <= y.
Proof.
  revert x. induction rest as [|z rest IH]; intros x; cbn [fold_left].
  - split; [left; reflexivity|]. intros y [<-|[]]. apply Qle_refl.
  - destruct (Py.ltb z x) eqn:E.
    + apply ltb_lt in E. destruct (IH z) as [Hin Hle]. split.
      * destruct Hin as [<-|Hin]; [right; left; reflexivity | right; right; exact Hin].
      * intros y [<-|[<-|Hy]].
        -- specialize (Hle z (or_introl eq_refl)). qlra.
        -- apply Hle. left. reflexivity.
        -- apply Hle. right. exact Hy.
    + apply ltb_ge in E. destruct (IH x) as [Hin Hle]. split.
      * destruct Hin as [<-|Hin]; [left; reflexivity | right; right; exact Hin].
      * intros y [<-|[<-|Hy]].
        -- apply Hle. left. reflexivity.
        -- specialize (Hle x (or_introl eq_refl)). qlra.
        -- apply Hle. right. exact Hy.
Qed.

(** [min] returns an element that is below every element. *)
Lemma min_spec (seq : list Q) (m : Q) :
  Py.min seq = Py.Return m -> In m seq /\ forall y, In y seq -> m <= y.
Proof.
  destruct seq as [|x rest]; cbn [Py.min]; [discriminate|].
  intros [= <-]. apply fold_min_spec.
Qed.

(** [seq[indices]] holds the elements at the indices, in order. *)
Lemma take_spec {A} (seq : list A) (indices : list nat) (l : list A) :
  Py.take seq indices = Py.Return l ->
  Forall2 (fun idx x => nth_error seq idx = Some x) indices l.
Proof.
  revert l. induction indices as [|idx rest IH]; cbn [Py.take]; intros l.
  - intros [= <-]. constructor.
  - unfold Py.getitem. destruct (nth_error seq idx) as [x|] eqn:Hx;
      cbn [Py.bind]; [|discriminate].
    destruct (Py.take seq rest) as [l'|]; cbn [Py.bind]; [|discriminate].
    intros [= <-]. constructor; [exact Hx | apply IH; reflexivity].
Qed.

Lemma take_min_spec (confidence : list Q) (indices : list nat) required lowest :
  Py.take confidence indices = Py.Return required ->
  Py.min required = Py.Return lowest ->
  (exists idx, In idx indices /\ nth_error confidence idx = Some lowest) /\
  (forall idx c, In idx indices -> nth_error confidence idx = Some c -> lowest <= c).
Proof.
  intros Ht Hm. apply take_spec in Ht. apply min_spec in Hm.
  destruct Hm as [Hin Hle]. split.
  - clear Hle. induction Ht as [|idx x indices l Hx _ IH]; [destruct Hin|].
    destruct Hin as [<-|Hin].
    + exists idx. split; [left; reflexivity | exact Hx].
    + destruct (IH Hin) as (i & Hi & Hn). exists i. split; [right|]; assumption.
  - intros idx c Hi Hc. apply Hle. clear Hle Hin.
    induction Ht as [|i x indices l Hx _ IH]; [destruct Hi|].
    destruct Hi as [<-|Hi].
    + rewrite Hx in Hc. injection Hc as <-. left. reflexivity.
    + right. apply IH. exact Hi.
Qed.

(** A gate that returns False has met a confidence below the threshold. *)
Lemma check_confidence_false (self : BaseExercise.t) (confidence : list Q)
    (required_indices : list nat) :
  BaseExercise.check_confidence self confidence required_indices = Py.Return false ->
  exists idx c, In idx required_indices /\ nth_error confidence idx = Some c /\
                c < BaseExercise.confidence_threshold self.
Proof.
  unfold BaseExercise.check_confidence.
  induction required_indices as [|idx rest IH];
    cbn [BaseExercise.check_confidence_loop]; [discriminate|].
  unfold Py.getitem. destruct (nth_error confidence idx) as [c|] eqn:Hc;
    cbn [Py.bind]; [|discriminate].
  destruct (Py.ltb c _) eqn:E.
  - intros _. apply ltb_lt in E. exists idx, c. auto using in_eq.
  - intros H. destruct (IH H) as (i & c' & Hi & Hn & Hl).
    exists i, c'. auto using in_cons.
Qed.

Lemma check_confidence_true (self : BaseExercise.t) (confidence : list Q)
    (required_indices : list nat) :
  BaseExercise.check_confidence self confidence required_indices = Py.Return true ->
  forall idx c, In idx required_indices -> nth_error confidence idx = Some c ->
                BaseExercise.confidence_threshold self <= c.
Proof.
  unfold BaseExercise.check_confidence.
  induction required_indices as [|idx rest IH];
    cbn [BaseExercise.check_confidence_loop]; [intros _ i c []|].
  unfold Py.getitem. destruct (nth_error confidence idx) as [c|] eqn:Hc;
    cbn [Py.bind]; [|discriminate].
  destruct (Py.ltb c _) eqn:E; [discriminate|].
  intros H i c' [<-|Hi] Hn.
  - rewrite Hc in Hn. injection Hn as <-. apply ltb_ge. exact E.
  - exact (IH H i c' Hi Hn).
Qed.

(** What every returning call reports, whatever the detector. *)
Lemma analyze_inv (exercise exercise' : Exercise) keypoints confidence
    elapsed_time (a : EA.t) :
  analyze exercise keypoints confidence elapsed_time = Py.Return (exercise', a) ->
  EA.phase a = snd (BaseExercise.update_phase (base exercise) elapsed_time) /\
  ((BaseExercise.check_confidence (base exercise) confidence
      (required_keypoints exercise) = Py.Return false /\
    EA.is_proper_position a = false /\
    EA.confidence a = 0 /\
    EA.form_score a = 0) \/
   (BaseExercise.check_confidence (base exercise) confidence
      (required_keypoints exercise) = Py.Return true /\
    EA.is_proper_position a = true /\
    exists required lowest,
      Py.take confidence (required_keypoints exercise) = Py.Return required /\
      Py.min required = Py.Return lowest /\
      EA.confidence a = lowest * 100)).
Proof.
  destruct exercise as [self|self|self]; cbn [analyze base required_keypoints];
    unfold lift; intros H; bind_inv H r; destruct r as [s' a'];
    injection H as <- <-.
  - destruct (shoulder_analyze_inv _ _ _ _ _ _ E)
      as [(Hc & -> & ->) | (Hc & ls & rs & fm & fs & req & low & _ & _ & _ & Ht & Hm & ->)].
    + split; [reflexivity|]. left. auto.
    + split; [reflexivity|]. right. split; [exact Hc|]. split; [reflexivity|].
      exists req, low. auto.
  - destruct (neck_analyze_inv _ _ _ _ _ _ E)
      as [(Hc & -> & ->)
         | (Hc & n & ls & rs & s1 & fm & fs & req & low & _ & _ & _ & _ & _ & Ht & Hm & ->)].
    + split; [reflexivity|]. left. auto.
    + split; [reflexivity|]. right. split; [exact Hc|]. split; [reflexivity|].
      exists req, low. auto.
  - destruct (ankle_analyze_inv _ _ _ _ _ _ E)
      as [(Hc & -> & ->)
         | (Hc & an & kn & s1 & fm & fs & req & low & _ & _ & _ & Ht & Hm & ->)].
    + split; [reflexivity|]. left. auto.
    + split; [reflexivity|]. right. split; [exact Hc|]. split; [reflexivity|].
      exists req, low. auto.
Qed.

(** X5: an analysis is either degraded (not in proper position, confidence
    and score 0, some required confidence below the threshold) or carries
    100 times the lowest required confidence, which is then at least 100
    times the threshold: 60 with the default threshold. *)
Theorem analysis_confidence (exercise exercise' : Exercise) keypoints confidence
    elapsed_time (a : EA.t) :
  analyze exercise keypoints confidence elapsed_time = Py.Return (exercise', a) ->
  BaseExercise.confidence_threshold (base exercise) == 0.6 ->
  (EA.is_proper_position a = false /\
   EA.confidence a = 0 /\
   EA.form_score a = 0 /\
   exists idx c, In idx (required_keypoints exercise) /\
                 nth_error confidence idx = Some c /\ c < 0.6) \/
  (EA.is_proper_position a = true /\
   60 <= EA.confidence a /\
   (exists idx c, In idx (required_keypoints exercise) /\
                  nth_error confidence idx = Some c /\
                  EA.confidence a = c * 100) /\
   (forall idx c, In idx (required_keypoints exercise) ->
                  nth_error confidence idx = Some c ->
                  EA.confidence a <= c * 100)).
Proof.
  intros H Hthr.
  destruct (analyze_inv _ _ _ _ _ _ H)
    as [_ [(Hc & Hp & Hz & Hs) | (Hc & Hp & req & low & Ht & Hm & Ha)]].
  - left. repeat split; try assumption.
    destruct (check_confidence_false _ _ _ Hc) as (idx & c & Hi & Hn & Hl).
    exists idx, c. repeat split; try assumption. rewrite <- Hthr. exact Hl.
  - right. split; [exact Hp|].
    destruct (take_min_spec _ _ _ _ Ht Hm) as [(idx & Hi & Hn) Hle].
    pose proof (check_confidence_true _ _ _ Hc idx low Hi Hn) as Hge.
    rewrite Hthr in Hge. rewrite Ha. repeat split.
    + qlra.
    + exists idx, low. auto.
    + intros i c Hi' Hn'. specialize (Hle i c Hi' Hn'). qlra.
Qed.

Lemma analysis_confidence_witness :
  exists exercise' a,
    analyze (ShoulderSqueezes shoulder_after_setup) (shoulders_apart 75)
      confidence_found 130 = Py.Return (exercise', a) /\
    EA.is_proper_position a = true /\
    60 <= EA.confidence a.
Proof.
  eexists _, _. split; [vm_compute; reflexivity|].
  destruct (analysis_confidence (ShoulderSqueezes shoulder_after_setup) _
              (shoulders_apart 75) confidence_found 130 _ eq_refl)
    as [(Hp & _) | (Hp & Hc & _)].
  - reflexivity.
  - discriminate Hp.
  - split; [exact Hp | exact Hc].
Defined.

(** ** Exceptions *)

Lemma take_min_raises (confidence : list Q) (indices : list nat) {A}
    (k : Q -> Py.result A) (e : Py.error) :
  indices <> [] ->
  (required <- Py.take confidence indices ;; lowest <- Py.min required ;; k lowest)
    = Py.Raise e ->
  (forall lowest, k lowest <> Py.Raise e) ->
  e = Py.IndexError.
Proof.
  intros Hne H Hk.
  destruct (Py.take confidence indices) as [req|e'] eqn:Ht; cbn [Py.bind] in H.
  - apply take_length in Ht.
    destruct req as [|x req].
    + destruct indices; [congruence | discriminate Ht].
    + cbn [Py.min Py.bind] in H. exfalso. exact (Hk _ H).
  - injection H as <-. exact (take_raises _ _ _ Ht).
Qed.

Lemma neck_analyze_raises (self : NR.t) keypoints confidence elapsed_time e :
  NR.analyze self keypoints confidence elapsed_time = Py.Raise e ->
  e = Py.IndexError.
Proof.
  unfold NR.analyze.
  destruct (BaseExercise.update_phase (NR.base self) elapsed_time) as [b phase].
  cbn [NR.base NR.set_base].
  destruct (BaseExercise.check_confidence b confidence NR.required_keypoints)
    as [ok|e'] eqn:Hc; cbn [Py.bind].
  2:{ intros [= <-]. exact (check_confidence_raises _ _ _ _ Hc). }
  destruct ok; cbn [negb]; [|discriminate].
  destruct (Py.getitem keypoints KeypointIndex.NOSE) as [n|e'] eqn:Hn; cbn [Py.bind].
  2:{ intros [= <-]. exact (getitem_raises _ _ _ Hn). }
  destruct (Py.getitem keypoints KeypointIndex.LEFT_SHOULDER) as [ls|e'] eqn:Hls;
    cbn [Py.bind].
  2:{ intros [= <-]. exact (getitem_raises _ _ _ Hls). }
  destruct (Py.getitem keypoints KeypointIndex.RIGHT_SHOULDER) as [rs|e'] eqn:Hrs;
    cbn [Py.bind].
  2:{ intros [= <-]. exact (getitem_raises _ _ _ Hrs). }
  destruct (NR.analyze_phase _ _ _ _ _) as [[s1 fm] fs].
  intros H. apply (take_min_raises confidence NR.required_keypoints _ e) with (2 := H);
    [discriminate | intros lowest; discriminate].
Qed.

Lemma ankle_analyze_raises (self : AC.t) keypoints confidence elapsed_time e :
  AC.analyze self keypoints confidence elapsed_time = Py.Raise e ->
  e = Py.IndexError.
Proof.
  unfold AC.analyze.
  destruct (BaseExercise.update_phase (AC.base self) elapsed_time) as [b phase].
  cbn [AC.base AC.set_base].
  destruct (BaseExercise.check_confidence b confidence AC.required_keypoints)
    as [ok|e'] eqn:Hc; cbn [Py.bind].
  2:{ intros [= <-]. exact (check_confidence_raises _ _ _ _ Hc). }
  destruct ok; cbn [negb]; [|discriminate].
  destruct (AC.tracked_points (AC.set_base self b) keypoints) as [[ankle knee]|e']
    eqn:Htp; cbn [Py.bind].
  2:{ intros [= <-]. unfold AC.tracked_points in Htp.
      destruct (AC.active_ankle _);
        repeat match type of Htp with
               | Py.bind (Py.getitem ?l ?i) _ = _ =>
                   let G := fresh "G" in
                   destruct (Py.getitem l i) eqn:G; cbn [Py.bind] in Htp;
                   [|injection Htp as <-; exact (getitem_raises _ _ _ G)]
               end; discriminate. }
  destruct (AC.analyze_phase _ _ _ _ _) as [[s1 fm] fs].
  intros H. apply (take_min_raises confidence AC.required_keypoints _ e) with (2 := H);
    [discriminate | intros lowest; discriminate].
Qed.

(** On a well-formed frame every detector returns. *)
Lemma analyze_total (exercise : Exercise) keypoints confidence elapsed_time :
  well_formed keypoints confidence ->
  exists exercise' a,
    analyze exercise keypoints confidence elapsed_time = Py.Return (exercise', a).
Proof.
  intros Hwf. destruct exercise as [self|self|self]; cbn [analyze].
  - destruct (shoulder_analyze_shape self _ _ elapsed_time Hwf)
      as (ok & lowest & ls & rs & _ & _ & _ & ->).
    destruct ok; [|cbn; eauto]. cbv zeta.
    match goal with
    | |- context [SS.analyze_phase ?s ?p ?d ?t] =>
        destruct (shoulder_analyze_phase_total s p d t) as (s' & fm & fs & -> & _)
    end.
    cbn. eauto.
  - destruct (neck_analyze_shape self _ _ elapsed_time Hwf)
      as (ok & lowest & n & ls & rs & _ & _ & _ & _ & ->).
    destruct ok; [|cbn; eauto]. cbv zeta.
    destruct (NR.analyze_phase _ _ _ _ _) as [[s' fm] fs]. cbn. eauto.
  - destruct (ankle_analyze_shape self _ _ elapsed_time Hwf)
      as (ok & lowest & ankle & knee & _ & _ & ->).
    destruct ok; [|cbn; eauto]. cbv zeta.
    destruct (AC.analyze_phase _ _ _ _ _) as [[s' fm] fs]. cbn. eauto.
Qed.

(** X6: whatever the detector, its state and the input, the only exception
    [analyze] can raise is [IndexError], and only on a frame that is not
    made of 17 points and 17 confidences: no division by zero, no
    arithmetic on [None], no [min] of an empty sequence. *)
Theorem analyze_raises_only_index_error (exercise : Exercise)
    keypoints confidence elapsed_time (e : Py.error) :
  analyze exercise keypoints confidence elapsed_time = Py.Raise e ->
  e = Py.IndexError /\ ~ well_formed keypoints confidence.
Proof.
  intros H. split.
  - destruct exercise as [self|self|self]; cbn [analyze] in H; unfold lift in H.
    + destruct (SS.analyze self keypoints confidence elapsed_time) as [[s a]|e'] eqn:E;
        cbn [Py.bind] in H; [discriminate|].
      injection H as <-. exact (shoulder_analyze_raises _ _ _ _ _ E).
    + destruct (NR.analyze self keypoints confidence elapsed_time) as [[s a]|e'] eqn:E;
        cbn [Py.bind] in H; [discriminate|].
      injection H as <-. exact (neck_analyze_raises _ _ _ _ _ E).
    + destruct (AC.analyze self keypoints confidence elapsed_time) as [[s a]|e'] eqn:E;
        cbn [Py.bind] in H; [discriminate|].
      injection H as <-. exact (ankle_analyze_raises _ _ _ _ _ E).
  - intros Hwf.
    destruct (analyze_total exercise _ _ elapsed_time Hwf) as (e' & a & Hr).
    congruence.
Qed.

Lemma analyze_raises_only_index_error_witness :
  analyze (NeckRotations NR.__init__) [] confidence_found 130
    = Py.Raise Py.IndexError.
Proof.
  destruct (analyze (NeckRotations NR.__init__) [] confidence_found 130)
    as [[e' a]|e] eqn:E.
  - vm_compute in E. discriminate E.
  - destruct (analyze_raises_only_index_error _ _ _ _ _ E) as [-> _]. reflexivity.
Defined.

(** ** What one call can do to the counters *)

Lemma shoulder_phase_effect (s s' : SS.t) phase (d elapsed_time : Q) fm fs :
  SS.analyze_phase s phase d elapsed_time = Py.Return (s', fm, fs) ->
  SS.last_distance s' = SS.last_distance s /\
  SS.baseline_distance s' =
    match phase with
    | SETUP =>
        if match SS.baseline_distance s with None => true | Some _ => false end
           || Py.ltb elapsed_time 10
        then Some d else SS.baseline_distance s
    | _ => SS.baseline_distance s
    end /\
  ((SS.rep_count s' = SS.rep_count s /\
    (phase <> ACTIVE -> SS.in_squeeze s' = SS.in_squeeze s)) \/
   (phase = ACTIVE /\ SS.rep_count s' = (SS.rep_count s + 1)%Z /\
    SS.in_squeeze s = true /\ SS.in_squeeze s' = false)).
Proof.
  intros H. destruct phase; cbn [SS.analyze_phase] in H;
    try (injection H as <- <- <-; auto).
  - destruct (_ || _); injection H as <- <- <-; auto.
  - destruct (Py.truthy (SS.baseline_distance s)) eqn:Ht.
    + apply truthy_spec in Ht. destruct Ht as (b & Hb & Hnz).
      rewrite (shoulder_active_established s d b Hb Hnz) in H.
      destruct (Py.ltb 20 _); destruct (SS.in_squeeze s) eqn:Hi; cbn [negb] in H;
        injection H as <- <- <-; cbn; repeat split; auto;
        try (left; split; [reflexivity | congruence]);
        try (right; unfold SS.rep_count; cbn; auto).
    + rewrite (shoulder_active_skipped s d Ht) in H. injection H as <- <- <-. auto.
Qed.

Lemma neck_phase_effect (s : NR.t) phase (m o elapsed_time : Q) :
  let s' := fst (fst (NR.analyze_phase s phase m o elapsed_time)) in
  (NR.left_rotations s' = NR.left_rotations s /\
   NR.right_rotations s' = NR.right_rotations s /\
   (phase <> ACTIVE -> NR.rotation_direction s' = NR.rotation_direction s)) \/
  (phase = ACTIVE /\
   NR.left_rotations s' = (NR.left_rotations s + 1)%Z /\
   NR.right_rotations s' = NR.right_rotations s /\
   NR.rotation_direction s <> Some left /\
   NR.rotation_direction s' = Some left) \/
  (phase = ACTIVE /\
   NR.right_rotations s' = (NR.right_rotations s + 1)%Z /\
   NR.left_rotations s' = NR.left_rotations s /\
   NR.rotation_direction s <> Some right /\
   NR.rotation_direction s' = Some right).
Proof.
  destruct phase; cbn [NR.analyze_phase fst]; auto.
  unfold NR.analyze_active.
  destruct (Py.ltb elapsed_time 180);
    destruct (Py.ltb o (- NR.rotation_threshold s));
    destruct (Py.ltb (NR.rotation_threshold s) o);
    destruct (NR.rotation_direction s) as [[|]|] eqn:Hd;
    cbn [NR.direction_ne fst]; cbn;
    first [ left; repeat split; (reflexivity || congruence)
          | right; left; repeat split; (reflexivity || congruence)
          | right; right; repeat split; (reflexivity || congruence) ].
Qed.

Lemma detect_count (s : AC.t) (quadrant : Z) :
  AC.circle_count (fst (AC._detect_circle_completion s quadrant)) =
    (AC.circle_count s
     + if snd (AC._detect_circle_completion s quadrant) then 1 else 0)%Z.
Proof.
  unfold AC._detect_circle_completion, AC._detect_circle_completion_if.
  cbn [AC.set_quadrant_visits AC.quadrant_visits].
  destruct (AC.last_quadrant s) as [last|]; [|cbn; lia].
  destruct (negb (quadrant =? last)%Z); [|cbn; lia].
  destruct (4 <=? _)%nat; [|cbn; lia].
  destruct (_ =? 4)%nat; cbn; lia.
Qed.

Lemma ankle_phase_effect (s : AC.t) phase (a : R) (q : Z) (elapsed_time : Q) :
  let s' := fst (fst (AC.analyze_phase s phase a q elapsed_time)) in
  (AC.circle_count s' = AC.circle_count s /\
   AC.active_ankle s' = AC.active_ankle s /\
   (phase <> ACTIVE ->
    AC.quadrant_visits s' = AC.quadrant_visits s /\
    AC.last_quadrant s' = AC.last_quadrant s)) \/
  (phase = ACTIVE /\
   AC.circle_count s' = (AC.circle_count s + 1)%Z /\
   AC.active_ankle s' = AC.active_ankle s) \/
  (phase = ACTIVE /\
   AC.active_ankle s = right /\ AC.active_ankle s' = left /\
   AC.circle_count s' = 0%Z /\
   AC.quadrant_visits s' = [] /\ AC.last_quadrant s' = None).
Proof.
  destruct phase; cbn [AC.analyze_phase fst]; cbv zeta; auto.
  rewrite ankle_active_state. cbv zeta.
  destruct (push_angle_fields s a) as (Hc & _ & _ & Ha & _).
  destruct (Py.ltb 180 elapsed_time); cbn [andb].
  - destruct (AC.active_ankle s) eqn:Hact.
    + pose proof (detect_count (AC.push_angle s a) q) as Hd.
      rewrite Hc in Hd. rewrite detect_active_ankle, Ha.
      destruct (snd (AC._detect_circle_completion (AC.push_angle s a) q)).
      * right. left. auto.
      * left. repeat split; [lia | congruence | congruence].
    + right. right. cbn. auto 10.
  - pose proof (detect_count (AC.push_angle s a) q) as Hd.
    rewrite Hc in Hd. rewrite detect_active_ankle, Ha.
    destruct (snd (AC._detect_circle_completion (AC.push_angle s a) q)).
    + right. left. auto.
    + left. repeat split; [lia | congruence | congruence].
Qed.

(** The three things a returning call can do to the count of a detector:
    leave it (and, outside the Active phase, leave the flag too), add one
    during the Active phase, or, for the ankle detector during the Active
    phase, reset it while switching from the right to the left ankle. *)
Lemma analyze_step (exercise exercise' : Exercise) keypoints confidence
    elapsed_time (a : EA.t) :
  analyze exercise keypoints confidence elapsed_time = Py.Return (exercise', a) ->
  (current_count exercise' = current_count exercise /\
   (EA.phase a <> ACTIVE -> flag exercise' = flag exercise)) \/
  (EA.phase a = ACTIVE /\ EA.is_proper_position a = true /\
   current_count exercise' = (current_count exercise + 1)%Z) \/
  (EA.phase a = ACTIVE /\ EA.is_proper_position a = true /\
   flag exercise = ActiveAnkle right /\ flag exercise' = ActiveAnkle left /\
   current_count exercise' = 0%Z).
Proof.
  destruct exercise as [self|self|self]; cbn [analyze];
    unfold lift; intros H; bind_inv H r; destruct r as [s' a'];
    injection H as <- <-; cbn [current_count flag].
  - destruct (shoulder_analyze_inv _ _ _ _ _ _ E)
      as [(_ & -> & ->) | (_ & ls & rs & fm & fs & req & low & _ & _ & Hph & _ & _ & ->)].
    + left. unfold SS.rep_count. cbn. rewrite update_phase_rep_count. auto.
    + destruct (shoulder_phase_effect _ _ _ _ _ _ _ Hph)
        as (_ & _ & [(Hr & Hi) | (Hp & Hr & _ & _)]).
      * left. unfold SS.rep_count in *. cbn in *.
        rewrite update_phase_rep_count in Hr. split; [exact Hr|].
        intros Hne. rewrite (Hi Hne). reflexivity.
      * right. left. unfold SS.rep_count in *. cbn in *.
        rewrite update_phase_rep_count in Hr. auto.
  - destruct (neck_analyze_inv _ _ _ _ _ _ E)
      as [(_ & -> & ->)
         | (_ & n & ls & rs & s1 & fm & fs & req & low & _ & _ & _ & Hph & -> & _ & _ & ->)].
    + left. cbn. auto.
    + pose proof (neck_phase_effect
                    (NR.set_base self
                       (fst (BaseExercise.update_phase (NR.base self) elapsed_time)))
                    (snd (BaseExercise.update_phase (NR.base self) elapsed_time))
                    ((fst ls + fst rs) / 2) (fst n - (fst ls + fst rs) / 2)
                    elapsed_time) as Heff.
      cbv zeta in Heff. rewrite Hph in Heff. cbn [fst] in Heff. cbn in Heff |- *.
      destruct Heff as [(Hl & Hr & Hd) | [(Hp & Hl & Hr & _) | (Hp & Hr & Hl & _)]].
      * left. split; [lia|]. intros Hne. rewrite (Hd Hne). reflexivity.
      * right. left. repeat split; [exact Hp | lia].
      * right. left. repeat split; [exact Hp | lia].
  - destruct (ankle_analyze_inv _ _ _ _ _ _ E)
      as [(_ & -> & ->)
         | (_ & an & kn & s1 & fm & fs & req & low & _ & Hph & -> & _ & _ & ->)].
    + left. cbn. auto.
    + pose proof (ankle_phase_effect
                    (AC.set_base self
                       (fst (BaseExercise.update_phase (AC.base self) elapsed_time)))
                    (snd (BaseExercise.update_phase (AC.base self) elapsed_time))
                    (AC._calculate_ankle_angle an kn)
                    (AC._get_quadrant (AC._calculate_ankle_angle an kn))
                    elapsed_time) as Heff.
      cbv zeta in Heff. rewrite Hph in Heff. cbn [fst] in Heff. cbn in Heff |- *.
      destruct Heff as [(Hc & Ha & _) | [(Hp & Hc & _) | (Hp & Hr & Hl & Hc & _)]].
      * left. split; [exact Hc|]. intros _. rewrite Ha. reflexivity.
      * right. left. auto.
      * right. right. rewrite Hr, Hl. auto 6.
Qed.

(** X7: a call that returns adds at most one to the count of a detector,
    and only in the Active phase on a frame that passes the gate; the one
    other change is the reset to 0 when the ankle detector switches from
    the right to the left ankle. *)
Theorem analyze_counts_at_most_one (exercise exercise' : Exercise)
    keypoints confidence elapsed_time (a : EA.t) :
  analyze exercise keypoints confidence elapsed_time = Py.Return (exercise', a) ->
  current_count exercise' = current_count exercise \/
  (EA.phase a = ACTIVE /\ EA.is_proper_position a = true /\
   current_count exercise' = (current_count exercise + 1)%Z) \/
  (EA.phase a = ACTIVE /\ EA.is_proper_position a = true /\
   flag exercise = ActiveAnkle right /\ flag exercise' = ActiveAnkle left /\
   current_count exercise' = 0%Z).
Proof.
  intros H. destruct (analyze_step _ _ _ _ _ _ H) as [[Hc _] | [Hs | Hs]]; auto.
Qed.

Lemma analyze_counts_at_most_one_witness :
  exists exercise' a,
    analyze (ShoulderSqueezes (SS.set_in_squeeze shoulder_after_setup true))
      (shoulders_apart 100) confidence_found 130 = Py.Return (exercise', a) /\
    current_count exercise' = 1%Z.
Proof.
  eexists _, _. split; [vm_compute; reflexivity|].
  destruct (analyze_counts_at_most_one
              (ShoulderSqueezes (SS.set_in_squeeze shoulder_after_setup true)) _
              (shoulders_apart 100) confidence_found 130 _ eq_refl)
    as [H | [(_ & _ & H) | (_ & _ & H & _)]].
  - reflexivity.
  - exact H.
  - discriminate H.
Defined.

(** X8: outside the Active phase (not started, Setup, Cooldown,
    Completed) a call changes neither the count nor the flag of a
    detector: a squeeze still held when Cooldown begins is never counted. *)
Theorem nothing_counted_outside_active (exercise exercise' : Exercise)
    keypoints confidence elapsed_time (a : EA.t) :
  analyze exercise keypoints confidence elapsed_time = Py.Return (exercise', a) ->
  EA.phase a <> ACTIVE ->
  current_count exercise' = current_count exercise /\
  flag exercise' = flag exercise.
Proof.
  intros H Hne.
  destruct (analyze_step _ _ _ _ _ _ H) as [[Hc Hf] | [(Hp & _) | (Hp & _)]];
    [auto | contradiction | contradiction].
Qed.

Lemma nothing_counted_outside_active_witness :
  exists exercise' a,
    analyze (ShoulderSqueezes (SS.set_in_squeeze shoulder_after_setup true))
      (shoulders_apart 100) confidence_found 250 = Py.Return (exercise', a) /\
    current_count exercise' = 0%Z /\
    flag exercise' = InSqueeze true.
Proof.
  eexists _, _. split; [vm_compute; reflexivity|].
  apply (nothing_counted_outside_active
           (ShoulderSqueezes (SS.set_in_squeeze shoulder_after_setup true)) _
           (shoulders_apart 100) confidence_found 250 _ eq_refl).
  discriminate.
Defined.

(** ** Sessions: what no call changes *)

Lemma last_app_single {A} (l : list A) (x d : A) : last (l ++ [x]) d = x.
Proof.
  induction l as [|y l IH]; [reflexivity|].
  cbn [app]. destruct (l ++ [x]) eqn:E.
  - destruct l; discriminate E.
  - cbn [last] in *. exact IH.
Qed.

Lemma adjacent_in_app_single {A} (l : list A) (q : A) before x y after :
  l ++ [q] = before ++ x :: y :: after ->
  (exists after', l = before ++ x :: y :: after') \/
  (l = before ++ [x] /\ y = q /\ after = []).
Proof.
  revert before. induction l as [|z l IH]; intros before H.
  - destruct before as [|b before]; [discriminate H|].
    destruct before; discriminate H.
  - destruct before as [|b before].
    + cbn [app] in H. injection H as <- H.
      destruct l as [|z' l].
      * injection H as <- <-. right. auto.
      * injection H as <- H. left. exists l. reflexivity.
    + cbn [app] in H. injection H as <- H.
      destruct (IH before H) as [(after' & ->) | (-> & -> & ->)].
      * left. exists after'. reflexivity.
      * right. auto.
Qed.

(** The completion check keeps the invariant of the log, for a quadrant
    between 1 and 4. *)
Lemma detect_log_invariant (s : AC.t) (quadrant : Z) :
  (1 <= quadrant <= 4)%Z ->
  ankle_log_invariant s ->
  ankle_log_invariant (fst (AC._detect_circle_completion s quadrant)).
Proof.
  intros Hq (Hall & Hlast & Hend & Hadj).
  assert (Hsame : ankle_log_invariant (AC.set_last_quadrant s (Some quadrant))
                  <-> (AC.quadrant_visits s <> [] ->
                       quadrant = last (AC.quadrant_visits s) 0%Z)).
  { unfold ankle_log_invariant. cbn. split.
    - intros (_ & _ & H & _) Hne. specialize (H Hne). congruence.
    - intros H. split; [exact Hall|]. split; [intros q [= <-]; exact Hq|].
      split; [intros Hne; rewrite (H Hne); reflexivity | exact Hadj]. }
  unfold AC._detect_circle_completion, AC._detect_circle_completion_if.
  cbn [AC.set_quadrant_visits AC.quadrant_visits].
  destruct (AC.last_quadrant s) as [l|] eqn:Hl.
  - destruct (quadrant =? l)%Z eqn:E; cbn [negb fst].
    + apply Z.eqb_eq in E. subst l. apply Hsame.
      intros Hne. specialize (Hend Hne). congruence.
    + apply Z.eqb_neq in E.
      assert (Hnew : ankle_log_invariant
                (AC.set_last_quadrant
                   (AC.set_quadrant_visits s (AC.quadrant_visits s ++ [quadrant]))
                   (Some quadrant))).
      { unfold ankle_log_invariant. cbn.
        split; [|split; [|split]].
        - apply Forall_app. split; [exact Hall | repeat constructor; apply Hq].
        - intros q [= <-]. exact Hq.
        - intros _. rewrite last_app_single. reflexivity.
        - intros before x y after H.
          destruct (adjacent_in_app_single _ _ _ _ _ _ H)
            as [(after' & Hv) | (Hv & -> & _)].
          + exact (Hadj _ _ _ _ Hv).
          + assert (Hne : AC.quadrant_visits s <> [])
              by (rewrite Hv; destruct before; discriminate).
            specialize (Hend Hne). rewrite Hv, last_app_single in Hend.
            congruence. }
      destruct (4 <=? _)%nat; [|exact Hnew].
      destruct (_ =? 4)%nat; [|exact Hnew].
      unfold ankle_log_invariant. cbn.
      split; [constructor|]. split; [|split].
      * intros q Hq'. apply Hlast. congruence.
      * congruence.
      * intros before x y after H. destruct before; discriminate H.
  - cbn [fst]. apply Hsame. intros Hne. specialize (Hend Hne). congruence.
Qed.

Lemma ankle_phase_log_invariant (s : AC.t) phase (a : R) (q : Z) (elapsed_time : Q) :
  (1 <= q <= 4)%Z ->
  ankle_log_invariant s ->
  ankle_log_invariant (fst (fst (AC.analyze_phase s phase a q elapsed_time))).
Proof.
  intros Hq Hinv.
  destruct phase; cbn [AC.analyze_phase fst]; try exact Hinv.
  rewrite ankle_active_state. cbv zeta.
  assert (Hp : ankle_log_invariant (AC.push_angle s a)).
  { destruct (push_angle_fields s a) as (_ & Hl & Hv & _).
    unfold ankle_log_invariant in *. rewrite Hl, Hv. exact Hinv. }
  destruct (_ && _).
  - unfold ankle_log_invariant. cbn.
    split; [constructor|]. split; [discriminate|]. split; [congruence|].
    intros before x y after H. destruct before; discriminate H.
  - apply detect_log_invariant; assumption.
Qed.

Ltac inv_simpl :=
  unfold session_invariant, default_configuration in *; cbn in *;
  unfold SS.rep_count, NR.rep_count, AC.rep_count in *; cbn in *.

Lemma analyze_session_invariant (exercise exercise' : Exercise) keypoints
    confidence elapsed_time (a : EA.t) :
  analyze exercise keypoints confidence elapsed_time = Py.Return (exercise', a) ->
  session_invariant exercise ->
  session_invariant exercise'.
Proof.
  intros H Hinv.
  assert (Hcfg' : default_configuration
                    (fst (BaseExercise.update_phase (base exercise) elapsed_time)))
    by (apply update_phase_configuration; apply Hinv).
  pose proof (update_phase_rep_count (base exercise) elapsed_time) as Hr'.
  destruct Hcfg' as [Hcfg1 Hcfg2].
  destruct exercise as [self|self|self]; cbn [analyze] in H;
    unfold lift in H; bind_inv H r; destruct r as [s' a'];
    injection H as <- <-.
  - destruct (shoulder_analyze_inv _ _ _ _ _ _ E)
      as [(_ & -> & ->) | (_ & ls & rs & fm & fs & req & low & _ & _ & Hph & _ & _ & ->)].
    + inv_simpl. rewrite Hr'. intuition.
    + destruct (shoulder_phase_base _ _ _ _ _ _ _ Hph) as [Ht Hd].
      destruct (shoulder_phase_effect _ _ _ _ _ _ _ Hph)
        as (_ & _ & [(Hc & _) | (_ & Hc & _)]);
        inv_simpl; rewrite Ht, Hd; rewrite Hr' in Hc; intuition lia.
  - destruct (neck_analyze_inv _ _ _ _ _ _ E)
      as [(_ & -> & ->)
         | (_ & n & ls & rs & s1 & fm & fs & req & low & _ & _ & _ & Hph & -> & _ & _ & ->)].
    + inv_simpl. rewrite Hr'. intuition.
    + pose proof (neck_phase_base
                    (NR.set_base self
                       (fst (BaseExercise.update_phase (NR.base self) elapsed_time)))
                    (snd (BaseExercise.update_phase (NR.base self) elapsed_time))
                    ((fst ls + fst rs) / 2) (fst n - (fst ls + fst rs) / 2)
                    elapsed_time) as Hb.
      pose proof (neck_phase_effect
                    (NR.set_base self
                       (fst (BaseExercise.update_phase (NR.base self) elapsed_time)))
                    (snd (BaseExercise.update_phase (NR.base self) elapsed_time))
                    ((fst ls + fst rs) / 2) (fst n - (fst ls + fst rs) / 2)
                    elapsed_time) as Heff.
      cbv zeta in Hb, Heff. rewrite Hph in Hb, Heff. cbn [fst] in Hb, Heff.
      destruct Hb as [Hb Hthr].
      inv_simpl. rewrite Hb, Hthr. cbn.
      destruct Heff as [(Hl & Hr & _) | [(_ & Hl & Hr & _) | (_ & Hr & Hl & _)]];
        rewrite Hl, Hr; intuition lia.
  - destruct (ankle_analyze_inv _ _ _ _ _ _ E)
      as [(_ & -> & ->)
         | (_ & an & kn & s1 & fm & fs & req & low & _ & Hph & -> & _ & _ & ->)].
    + inv_simpl. rewrite Hr'. intuition.
    + destruct Hinv as (_ & _ & Hpos & Hown). cbn [current_count] in Hpos.
      set (s0 := AC.set_base self
                   (fst (BaseExercise.update_phase (AC.base self) elapsed_time))) in *.
      set (ph := snd (BaseExercise.update_phase (AC.base self) elapsed_time)) in *.
      set (ang := AC._calculate_ankle_angle an kn) in *.
      pose proof (ankle_phase_base s0 ph ang (AC._get_quadrant ang) elapsed_time) as Hb.
      pose proof (ankle_phase_effect s0 ph ang (AC._get_quadrant ang) elapsed_time)
        as Heff.
      pose proof (ankle_phase_log_invariant s0 ph ang (AC._get_quadrant ang)
                    elapsed_time (get_quadrant_range ang) Hown) as Hlog.
      cbv zeta in Heff. rewrite Hph in Hb, Heff, Hlog. cbn [fst] in Hb, Heff, Hlog.
      assert (Hc : (0 <= AC.circle_count s1)%Z).
      { destruct Heff as [(Hc & _) | [(_ & Hc & _) | (_ & _ & _ & Hc & _)]];
          rewrite Hc; subst s0; cbn; lia. }
      unfold session_invariant. split; [|split; [|split]].
      * unfold default_configuration. cbn. rewrite Hb. split; assumption.
      * reflexivity.
      * exact Hc.
      * exact Hlog.
Qed.

Lemma reachable_session_invariant (exercise : Exercise) :
  reachable exercise -> session_invariant exercise.
Proof.
  induction 1 as [exercise_type exercise Hget | e e' kp conf t a _ IH Han].
  - unfold get_exercise in Hget.
    repeat match type of Hget with
           | (if ?c then _ else _) = _ => destruct c
           end; try discriminate Hget; injection Hget as <-;
      unfold session_invariant, default_configuration, ankle_log_invariant; cbn;
      repeat split; try reflexivity; try discriminate; try constructor;
      try (intros; congruence).
    intros before x y after H. destruct before; discriminate H.
  - exact (analyze_session_invariant _ _ _ _ _ _ Han IH).
Qed.

(** X9: in every session the configuration stays the one [__init__]
    sets: confidence threshold 0.6, durations 120, 120 and 60 s, rotation
    threshold 30; no call of [analyze] changes it. *)
Theorem configuration_never_changes (exercise : Exercise) :
  reachable exercise ->
  default_configuration (base exercise) /\
  (forall self, exercise = NeckRotations self -> NR.rotation_threshold self = 30).
Proof.
  intros H. destruct (reachable_session_invariant _ H) as (Hcfg & _ & _ & Hown).
  split; [exact Hcfg|]. intros self ->. apply Hown.
Qed.

(** X10: in every session the [rep_count] attribute is the count the
    detector reports (the squeeze count, left plus right rotations, the
    circle count of the tracked ankle), and no count is negative. *)
Theorem rep_count_is_current_count (exercise : Exercise) :
  reachable exercise ->
  BaseExercise.rep_count (base exercise) = current_count exercise /\
  (0 <= current_count exercise)%Z /\
  (forall self, exercise = NeckRotations self ->
     (0 <= NR.left_rotations self)%Z /\ (0 <= NR.right_rotations self)%Z).
Proof.
  intros H. destruct (reachable_session_invariant _ H) as (_ & Hrep & Hpos & Hown).
  split; [exact Hrep|]. split; [exact Hpos|]. intros self ->. apply Hown.
Qed.

(** X11: in every session the transition log of the ankle detector holds
    quadrants 1 to 4 only, never the same quadrant twice in a row, and its
    last entry, when there is one, is the last quadrant seen. *)
Theorem transition_log_invariant (self : AC.t) :
  reachable (AnkleCircles self) -> ankle_log_invariant self.
Proof.
  intros H. destruct (reachable_session_invariant _ H) as (_ & _ & _ & Hown).
  exact Hown.
Qed.

Lemma configuration_never_changes_witness :
  default_configuration (base (NeckRotations NR.__init__)).
Proof.
  apply (configuration_never_changes (NeckRotations NR.__init__)).
  apply (reachable_fresh "neck_rotations"). reflexivity.
Defined.

Lemma rep_count_is_current_count_witness :
  BaseExercise.rep_count (base (NeckRotations NR.__init__))
  = current_count (NeckRotations NR.__init__).
Proof.
  apply (rep_count_is_current_count (NeckRotations NR.__init__)).
  apply (reachable_fresh "neck_rotations"). reflexivity.
Defined.

Lemma transition_log_invariant_witness : ankle_log_invariant AC.__init__.
Proof.
  apply transition_log_invariant.
  apply (reachable_fresh "ankle_circles"). reflexivity.
Defined.

(** ** Ankle circles: the tracked limb and the angle history *)

(** X12: once the ankle detector tracks the left ankle it keeps tracking
    it, and from then on a call leaves the circle count or adds one: the
    reset of the switch happens at most once in a session. *)
Theorem left_ankle_is_kept (self s' : AC.t) keypoints confidence elapsed_time
    (a : EA.t) :
  AC.analyze self keypoints confidence elapsed_time = Py.Return (s', a) ->
  AC.active_ankle self = left ->
  AC.active_ankle s' = left /\
  (AC.circle_count s' = AC.circle_count self \/
   AC.circle_count s' = (AC.circle_count self + 1)%Z).
Proof.
  intros H Hleft.
  destruct (ankle_analyze_inv _ _ _ _ _ _ H)
    as [(_ & -> & ->)
       | (_ & an & kn & s1 & fm & fs & req & low & _ & Hph & -> & _ & _ & ->)].
  - cbn. auto.
  - pose proof (ankle_phase_effect
                  (AC.set_base self
                     (fst (BaseExercise.update_phase (AC.base self) elapsed_time)))
                  (snd (BaseExercise.update_phase (AC.base self) elapsed_time))
                  (AC._calculate_ankle_angle an kn)
                  (AC._get_quadrant (AC._calculate_ankle_angle an kn))
                  elapsed_time) as Heff.
    cbv zeta in Heff. rewrite Hph in Heff. cbn [fst] in Heff. cbn in Heff |- *.
    destruct Heff as [(Hc & Ha & _) | [(_ & Hc & Ha) | (_ & Hr & _)]].
    + rewrite Ha. auto.
    + rewrite Ha. auto.
    + congruence.
Qed.

Lemma left_ankle_is_kept_witness :
  exists s' a,
    AC.analyze (AC.set_active_ankle AC.__init__ left) keypoints_none
      confidence_none 200 = Py.Return (s', a) /\
    AC.active_ankle s' = left.
Proof.
  destruct (AC.analyze (AC.set_active_ankle AC.__init__ left) keypoints_none
              confidence_none 200) as [[s' a]|e] eqn:E.
  - exists s', a. split; [reflexivity|].
    apply (left_ankle_is_kept _ _ _ _ _ _ E). reflexivity.
  - rewrite ankle_analyze_low in E by reflexivity. discriminate E.
Defined.

Lemma detect_angle_history (s : AC.t) (quadrant : Z) :
  AC.angle_history (fst (AC._detect_circle_completion s quadrant))
  = AC.angle_history s.
Proof.
  unfold AC._detect_circle_completion, AC._detect_circle_completion_if.
  destruct (AC.last_quadrant s) as [last|]; [|reflexivity].
  destruct (negb (quadrant =? last)%Z); [|reflexivity].
  cbn [AC.set_quadrant_visits AC.quadrant_visits].
  destruct (4 <=? _)%nat; [|reflexivity].
  destruct (_ =? 4)%nat; reflexivity.
Qed.

Lemma ankle_phase_angle_history (s : AC.t) phase (a : R) (q : Z) (elapsed_time : Q) :
  AC.angle_history (fst (fst (AC.analyze_phase s phase a q elapsed_time))) =
    match phase with
    | SETUP => AC.angle_history s ++ [a]
    | ACTIVE =>
        if (100 <? List.length (AC.angle_history s ++ [a]))%nat
        then tl (AC.angle_history s ++ [a])
        else AC.angle_history s ++ [a]
    | _ => AC.angle_history s
    end.
Proof.
  destruct phase; cbn [AC.analyze_phase fst]; try reflexivity.
  rewrite ankle_active_state. cbv zeta.
  assert (H : AC.angle_history
                (fst (AC._detect_circle_completion (AC.push_angle s a) q)) =
              if (100 <? List.length (AC.angle_history s ++ [a]))%nat
              then tl (AC.angle_history s ++ [a])
              else AC.angle_history s ++ [a]).
  { rewrite detect_angle_history. unfold AC.push_angle.
    cbn [AC.set_angle_history AC.angle_history].
    destruct (100 <? _)%nat; reflexivity. }
  destruct (_ && _); cbn; exact H.
Qed.



(** ** Shoulder squeezes: the baseline *)

(** X14: the baseline is written in Setup only, by a frame that passes the
    gate, and then only while it is still [None] or the elapsed time is
    below 10 s: it becomes the shoulder distance of that frame, so the
    last such frame wins.  Every other call leaves the baseline as it
    is. *)
Theorem baseline_written_in_early_setup (self s' : SS.t) keypoints confidence
    elapsed_time (a : EA.t) :
  SS.analyze self keypoints confidence elapsed_time = Py.Return (s', a) ->
  (EA.is_proper_position a = true -> EA.phase a = SETUP ->
   SS.baseline_distance self = None \/ elapsed_time < 10 ->
   exists left_shoulder right_shoulder,
     nth_error keypoints KeypointIndex.LEFT_SHOULDER = Some left_shoulder /\
     nth_error keypoints KeypointIndex.RIGHT_SHOULDER = Some right_shoulder /\
     SS.baseline_distance s'
       = Some (Qabs (fst left_shoulder - fst right_shoulder))) /\
  (EA.is_proper_position a = false \/ EA.phase a <> SETUP \/
   (SS.baseline_distance self <> None /\ 10 <= elapsed_time) ->
   SS.baseline_distance s' = SS.baseline_distance self).
Proof.
  intros H.
  destruct (shoulder_analyze_inv _ _ _ _ _ _ H)
    as [(_ & -> & ->) | (_ & ls & rs & fm & fs & req & low & Hls & Hrs & Hph & _ & _ & ->)].
  - cbn. split; [discriminate | reflexivity].
  - destruct (shoulder_phase_effect _ _ _ _ _ _ _ Hph) as (_ & Hb & _).
    cbn [SS.set_base SS.baseline_distance] in Hb. cbn.
    set (phase := snd (BaseExercise.update_phase (SS.base self) elapsed_time)) in *.
    split.
    + intros _ Hp Hearly. exists ls, rs. split; [exact Hls|]. split; [exact Hrs|].
      rewrite Hb, Hp.
      destruct Hearly as [-> | Ht]; [reflexivity|].
      apply ltb_lt in Ht. rewrite Ht, orb_true_r. reflexivity.
    + intros [Hf | [Hp | [Hsome Ht]]].
      * discriminate Hf.
      * rewrite Hb. destruct phase; try reflexivity. contradiction.
      * rewrite Hb. apply ltb_ge in Ht. rewrite Ht.
        destruct phase; try reflexivity.
        destruct (SS.baseline_distance self); [reflexivity | contradiction].
Qed.

Lemma baseline_written_in_early_setup_witness :
  exists s' a,
    SS.analyze shoulder_after_setup (shoulders_apart 80) confidence_found 5
      = Py.Return (s', a) /\
    exists left_shoulder right_shoulder,
      nth_error (shoulders_apart 80) KeypointIndex.LEFT_SHOULDER = Some left_shoulder /\
      nth_error (shoulders_apart 80) KeypointIndex.RIGHT_SHOULDER = Some right_shoulder /\
      SS.baseline_distance s' = Some (Qabs (fst left_shoulder - fst right_shoulder)).
Proof.
  eexists _, _. split; [vm_compute; reflexivity|].
  apply (baseline_written_in_early_setup shoulder_after_setup _
           (shoulders_apart 80) confidence_found 5 _ eq_refl);
    [reflexivity | reflexivity | right; reflexivity].
Defined.

(** ** Neck rotations: the second half and excursions without a rest *)

(** What a second-half Active frame whose nose offset is [x] does to the
    rotation detector (threshold 30). *)
Lemma neck_active_right_step (self : NR.t) frame (x : Q) :
  default_configuration (NR.base self) ->
  NR.rotation_threshold self == 30 ->
  active_frame NR.required_keypoints frame ->
  180 <= snd frame ->
  nose_offset_at frame x ->
  let far_left := Py.ltb x (-30) in
  let far_right := Py.ltb 30 x in
  exists self' a,
    NR.analyze self (fst (fst frame)) (snd (fst frame)) (snd frame)
      = Py.Return (self', a) /\
    default_configuration (NR.base self') /\
    NR.rotation_threshold self' == 30 /\
    NR.right_rotations self' =
      (NR.right_rotations self
       + if far_right && NR.direction_ne (NR.rotation_direction self) right
         then 1 else 0)%Z /\
    NR.left_rotations self' = NR.left_rotations self /\
    NR.rotation_direction self' =
      (if far_right then Some right
       else if far_left then NR.rotation_direction self else None) /\
    EA.rep_count a = (NR.left_rotations self' + NR.right_rotations self')%Z.
Proof.
  intros Hcfg Hthr Hf Hge (n & ls & rs & Hn & Hls & Hrs & Hx) far_left far_right.
  destruct frame as [[keypoints confidence] elapsed_time].
  destruct Hf as (Hwf & Hpass & Ht). cbn [fst snd] in *.
  destruct (neck_analyze_shape self _ _ elapsed_time Hwf)
    as (ok & lowest & n' & ls' & rs' & Hok & Hn' & Hls' & Hrs' & ->).
  destruct Hcfg as [Hc Hdur].
  rewrite (check_confidence_pass _ _ _ Hc Hpass) in Hok. injection Hok as <-.
  rewrite Hn in Hn'. injection Hn' as <-.
  rewrite Hls in Hls'. injection Hls' as <-.
  rewrite Hrs in Hrs'. injection Hrs' as <-.
  rewrite (update_phase_active _ _ Hdur Ht).
  pose proof (update_phase_configuration _ elapsed_time (conj Hc Hdur)) as Hcfg'.
  set (b := fst (BaseExercise.update_phase (NR.base self) elapsed_time)) in *.
  cbv zeta. cbn [NR.analyze_phase]. unfold NR.analyze_active.
  cbn [NR.set_base NR.rotation_threshold NR.rotation_direction NR.right_rotations].
  assert (H180 : Py.ltb elapsed_time 180 = false) by (apply ltb_ge; exact Hge).
  rewrite H180.
  rewrite (ltb_proper2 _ x _ (-30) Hx) by (rewrite Hthr; reflexivity).
  rewrite (ltb_proper2 _ 30 _ x Hthr Hx).
  fold far_left far_right.
  destruct far_right;
    [destruct (NR.rotation_direction self) as [[|]|] eqn:Hdir|destruct far_left];
    cbn [andb NR.direction_ne]; eexists _, _; (split; [reflexivity|]); cbn;
    rewrite ?Hdir;
    repeat split; try assumption; try reflexivity; try apply Hcfg'; lia.
Qed.

(** X15: in the Active phase from 180 s on, with threshold 30, the rule
    of the first half is mirrored: an offset above 30 counts one right
    rotation unless the tracked direction is already 'right', an offset in
    the dead zone clears the tracked direction, an offset below -30 changes
    nothing, and no left rotation is ever counted. *)
Theorem right_rotation_debounce (self : NR.t) frame (x : Q) :
  default_configuration (NR.base self) ->
  NR.rotation_threshold self == 30 ->
  active_frame NR.required_keypoints frame ->
  180 <= snd frame ->
  nose_offset_at frame x ->
  exists self' a,
    NR.analyze self (fst (fst frame)) (snd (fst frame)) (snd frame)
      = Py.Return (self', a) /\
    NR.left_rotations self' = NR.left_rotations self /\
    (30 < x -> NR.rotation_direction self <> Some right ->
       NR.rotation_direction self' = Some right /\
       NR.right_rotations self' = (NR.right_rotations self + 1)%Z) /\
    (30 < x -> NR.rotation_direction self = Some right ->
       NR.rotation_direction self' = Some right /\
       NR.right_rotations self' = NR.right_rotations self) /\
    (-30 <= x <= 30 ->
       NR.rotation_direction self' = None /\
       NR.right_rotations self' = NR.right_rotations self) /\
    (x < -30 ->
       NR.rotation_direction self' = NR.rotation_direction self /\
       NR.right_rotations self' = NR.right_rotations self).
Proof.
  intros Hcfg Hthr Hf Hge Hx.
  destruct (neck_active_right_step self frame x Hcfg Hthr Hf Hge Hx)
    as (self' & a & Ha & _ & _ & Hr & Hl & Hd & _).
  exists self', a. split; [exact Ha|]. split; [exact Hl|].
  split; [|split; [|split]].
  - intros Hx' Hne. apply ltb_lt in Hx'. rewrite Hx' in Hd, Hr.
    split; [exact Hd|]. rewrite Hr.
    destruct (NR.rotation_direction self) as [[|]|]; cbn; congruence.
  - intros Hx' He. apply ltb_lt in Hx'. rewrite Hx' in Hd, Hr.
    split; [exact Hd|]. rewrite Hr, He. cbn. lia.
  - intros [H1 H2]. apply ltb_ge in H1, H2. rewrite H2 in Hr, Hd.
    rewrite H1 in Hd. split; [exact Hd|]. rewrite Hr. cbn. lia.
  - intros Hx'. assert (H30 : Py.ltb 30 x = false) by (apply ltb_ge; qlra).
    apply ltb_lt in Hx'. rewrite H30 in Hr, Hd. rewrite Hx' in Hd.
    split; [exact Hd|]. rewrite Hr. cbn. lia.
Qed.

Lemma right_rotation_debounce_witness :
  exists self' a,
    NR.analyze NR.__init__ (nose_at 40) confidence_found 200 = Py.Return (self', a) /\
    NR.rotation_direction self' = Some right /\
    NR.right_rotations self' = 1%Z.
Proof.
  destruct (right_rotation_debounce NR.__init__ (nose_at 40, confidence_found, 200) 40)
    as (self' & a & Ha & _ & Hr & _).
  - split; reflexivity.
  - reflexivity.
  - active_found.
  - discriminate.
  - eexists _, _, _. repeat split; reflexivity.
  - exists self', a. split; [exact Ha|]. apply Hr; [reflexivity | discriminate].
Defined.

Lemma last_cons_default {A} (l : list A) (x d : A) : last (x :: l) d = last l x.
Proof.
  revert x d. induction l as [|y l IH]; intros x d; [reflexivity|].
  change (last (x :: y :: l) d) with (last (y :: l) d).
  rewrite (IH y d), (IH y x). reflexivity.
Qed.

(** X16: in the Active phase before 180 s, as long as no sample falls in
    the dead zone, however many frames come and however the head swings
    between left and right, at most one left rotation is counted, and none
    if the tracked direction was already 'left': only a sample in the dead
    zone arms the next count. *)
Theorem no_rest_no_new_rotation (frames : list (list Point * list Q * Q))
    (offsets : list Q) (self : NR.t) :
  default_configuration (NR.base self) ->
  NR.rotation_threshold self == 30 ->
  Forall (active_frame NR.required_keypoints) frames ->
  Forall (fun frame => snd frame < 180) frames ->
  Forall2 nose_offset_at frames offsets ->
  Forall (fun x => x < -30 \/ 30 < x) offsets ->
  exists trace,
    run NR.analyze self frames = Py.Return trace /\
    let final := last (map fst trace) self in
    (NR.left_rotations self <= NR.left_rotations final
       <= NR.left_rotations self + 1)%Z /\
    (NR.rotation_direction self = Some left ->
       NR.left_rotations final = NR.left_rotations self) /\
    NR.right_rotations final = NR.right_rotations self.
Proof.
  intros Hcfg Hthr Hact Hlt Hoff Hout. revert self Hcfg Hthr Hact Hlt Hout.
  induction Hoff as [|frame x frames offsets Hx _ IH];
    intros self Hcfg Hthr Hact Hlt Hout.
  - exists []. cbn. split; [reflexivity|]. repeat split; lia.
  - inversion Hact as [|? ? A Hact']; subst.
    inversion Hlt as [|? ? T Hlt']; subst.
    inversion Hout as [|? ? O Hout']; subst.
    destruct (neck_active_left_step self frame x Hcfg Hthr A T Hx)
      as (s1 & a1 & E1 & C1 & Th1 & L1 & R1 & D1 & _).
    destruct (IH s1 C1 Th1 Hact' Hlt' Hout') as (trace & Hrun & Hfin).
    cbv zeta in Hfin. destruct Hfin as (Hb & Hheld & Hr).
    destruct frame as [[kp conf] t]. cbn [fst snd] in E1.
    exists ((s1, a1) :: trace). cbn [run]. rewrite E1. cbn [Py.bind].
    rewrite Hrun. cbn [Py.bind]. split; [reflexivity|].
    cbv zeta. cbn [map fst]. rewrite last_cons_default.
    set (final := last (map fst trace) s1) in *.
    rewrite Hr, R1.
    destruct O as [Hfar | Hfar].
    + apply ltb_lt in Hfar. rewrite Hfar in L1, D1. cbn [andb] in L1.
      specialize (Hheld D1).
      destruct (NR.rotation_direction self) as [[|]|]; cbn [NR.direction_ne] in L1;
        repeat split; intros; try lia; try discriminate.
    + assert (Hnl : Py.ltb x (-30) = false) by (apply ltb_ge; qlra).
      apply ltb_lt in Hfar. rewrite Hnl in L1, D1. rewrite Hfar in D1.
      cbn [andb] in L1. rewrite D1 in Hheld.
      repeat split; intros; try lia. rewrite Hheld by assumption. lia.
Qed.

Lemma no_rest_no_new_rotation_witness :
  exists trace,
    run NR.analyze NR.__init__
      (map (fun x => (nose_at x, confidence_found, 150)) [-40; 40; -40])
      = Py.Return trace /\
    (NR.left_rotations (last (map fst trace) NR.__init__) <= 1)%Z.
Proof.
  destruct (no_rest_no_new_rotation
              (map (fun x => (nose_at x, confidence_found, 150)) [-40; 40; -40])
              [-40; 40; -40] NR.__init__)
    as (trace & Hrun & Hb & _).
  - split; reflexivity.
  - reflexivity.
  - cbn [map]. repeat (apply Forall_cons; [active_found|]). apply Forall_nil.
  - cbn [map]. repeat (apply Forall_cons; [reflexivity|]). apply Forall_nil.
  - cbn [map].
    repeat (apply Forall2_cons; [eexists _, _, _; repeat split; reflexivity|]).
    apply Forall2_nil.
  - repeat (apply Forall_cons; [first [left; reflexivity | right; reflexivity]|]).
    apply Forall_nil.
  - exists trace. split; [exact Hrun|]. apply Hb.
Defined.

(** ** Ankle circles: exactly when a circle is counted *)

Lemma nodup_length_le (l : list Z) :
  (List.length (nodup Z.eq_dec l) <= List.length l)%nat.
Proof.
  induction l as [|x l IH]; cbn [nodup List.length]; [lia|].
  destruct (in_dec Z.eq_dec x l); cbn [List.length]; lia.
Qed.

Lemma len_set_full_iff (l : list Z) : Py.len_set l = List.length l <-> NoDup l.
Proof.
  unfold Py.len_set. split; [|intros H; rewrite (nodup_fixed_point Z.eq_dec H); reflexivity].
  induction l as [|x l IH]; cbn [nodup List.length]; [constructor|].
  pose proof (nodup_length_le l).
  destruct (in_dec Z.eq_dec x l) as [Hin|Hnin]; cbn [List.length]; intros H'.
  - lia.
  - constructor; [exact Hnin | apply IH; lia].
Qed.

(** X17: [_detect_circle_completion] returns True, and then adds exactly
    one to the circle count, exactly when the quadrant differs from the
    last one seen and the last four entries of the log, the new one
    included, are four different quadrants; in every other case the count
    is left alone and the quadrant becomes the last one seen. *)
Theorem circle_counted_iff (self : AC.t) (quadrant : Z) :
  let self' := fst (AC._detect_circle_completion self quadrant) in
  let completed := snd (AC._detect_circle_completion self quadrant) in
  let log := AC.quadrant_visits self ++ [quadrant] in
  (completed = true <->
     (exists last, AC.last_quadrant self = Some last /\ quadrant <> last) /\
     (4 <= List.length log)%nat /\
     NoDup (Py.last4 log)) /\
  AC.circle_count self' =
    (AC.circle_count self + if completed then 1 else 0)%Z /\
  (completed = false -> AC.last_quadrant self' = Some quadrant).
Proof.
  cbv zeta. split; [|split; [apply detect_count|]].
  - unfold AC._detect_circle_completion, AC._detect_circle_completion_if.
    cbn [AC.set_quadrant_visits AC.quadrant_visits].
    destruct (AC.last_quadrant self) as [last|].
    2:{ cbn. split; [discriminate | intros ((l & [=] & _) & _)]. }
    destruct (quadrant =? last)%Z eqn:E; cbn [negb].
    { apply Z.eqb_eq in E. cbn. split; [discriminate|].
      intros ((l & [= <-] & Hne) & _). contradiction. }
    apply Z.eqb_neq in E.
    destruct (4 <=? _)%nat eqn:E4.
    2:{ apply Nat.leb_gt in E4. cbn. split; [discriminate|].
        intros (_ & Hlen & _). lia. }
    apply Nat.leb_le in E4.
    pose proof (last4_length _ E4) as Hl4.
    destruct (_ =? 4)%nat eqn:Es.
    + apply Nat.eqb_eq in Es. cbn. split; [intros _|reflexivity].
      split; [eauto|]. split; [exact E4|].
      apply len_set_full_iff. congruence.
    + apply Nat.eqb_neq in Es. cbn. split; [discriminate|].
      intros (_ & _ & Hnd). apply len_set_full_iff in Hnd. congruence.
  - unfold AC._detect_circle_completion, AC._detect_circle_completion_if.
    cbn [AC.set_quadrant_visits AC.quadrant_visits].
    destruct (AC.last_quadrant self) as [last|]; [|reflexivity].
    destruct (negb (quadrant =? last)%Z); [|reflexivity].
    destruct (4 <=? _)%nat; [|reflexivity].
    destruct (_ =? 4)%nat; [discriminate | reflexivity].
Qed.

Lemma circle_counted_iff_witness :
  snd (AC._detect_circle_completion
         (AC.set_quadrant_visits (AC.set_last_quadrant AC.__init__ (Some 2%Z))
            [4; 3; 2]%Z) 1) = true.
Proof.
  apply (proj1 (circle_counted_iff
                  (AC.set_quadrant_visits
                     (AC.set_last_quadrant AC.__init__ (Some 2%Z)) [4; 3; 2]%Z) 1)).
  split; [exists 2%Z; split; [reflexivity | discriminate]|].
  split; [cbn; lia|].
  cbn. repeat constructor; cbn; intuition discriminate.
Defined.

Lemma detect_completed_state (self : AC.t) (quadrant : Z) :
  snd (AC._detect_circle_completion self quadrant) = true ->
  exists last,
    AC.last_quadrant self = Some last /\
    (quadrant =? last)%Z = false /\
    fst (AC._detect_circle_completion self quadrant) =
      AC.set_quadrant_visits
        (AC.set_circle_count
           (AC.set_quadrant_visits self (AC.quadrant_visits self ++ [quadrant]))
           (AC.circle_count self + 1)) [].
Proof.
  unfold AC._detect_circle_completion, AC._detect_circle_completion_if.
  cbn [AC.set_quadrant_visits AC.quadrant_visits].
  destruct (AC.last_quadrant self) as [last|] eqn:Hl; [|discriminate].
  destruct (quadrant =? last)%Z eqn:E; cbn [negb]; [discriminate|].
  destruct (4 <=? _)%nat; [|discriminate].
  destruct (_ =? 4)%nat; [|discriminate].
  intros _. exists last. repeat split. exact E.
Qed.

(** X18: a completion does not record its quadrant as the last one seen,
    so a next frame in the same quadrant is taken for a change: it is
    logged as the first entry of the new log, without any count, and only
    then remembered. *)
Theorem completing_quadrant_logged_again (self : AC.t) (quadrant : Z) :
  snd (AC._detect_circle_completion self quadrant) = true ->
  let s1 := fst (AC._detect_circle_completion self quadrant) in
  let s2 := fst (AC._detect_circle_completion s1 quadrant) in
  AC.last_quadrant s1 = AC.last_quadrant self /\
  AC.quadrant_visits s1 = [] /\
  snd (AC._detect_circle_completion s1 quadrant) = false /\
  AC.quadrant_visits s2 = [quadrant] /\
  AC.last_quadrant s2 = Some quadrant /\
  AC.circle_count s2 = AC.circle_count s1.
Proof.
  intros H. destruct (detect_completed_state self quadrant H) as (last & Hl & E & ->).
  cbv zeta. unfold AC._detect_circle_completion, AC._detect_circle_completion_if.
  cbn. rewrite Hl, E. cbn. auto 6.
Qed.

Lemma completing_quadrant_logged_again_witness :
  let s0 := AC.set_quadrant_visits (AC.set_last_quadrant AC.__init__ (Some 2%Z))
              [4; 3; 2]%Z in
  let s1 := fst (AC._detect_circle_completion s0 1) in
  AC.quadrant_visits (fst (AC._detect_circle_completion s1 1)) = [1%Z].
Proof.
  cbv zeta.
  apply (completing_quadrant_logged_again
           (AC.set_quadrant_visits (AC.set_last_quadrant AC.__init__ (Some 2%Z))
              [4; 3; 2]%Z) 1).
  reflexivity.
Defined.

(** ** Ankle circles: the quadrant of an ankle *)

Lemma Rlt_dec_ltb (x y : Q) (A : Type) (a b : A) :
  (if Rlt_dec (Q2R x) (Q2R y) then a else b) = if Py.ltb x y then a else b.
Proof.
  destruct (Rlt_dec (Q2R x) (Q2R y)) as [H|H], (Py.ltb x y) eqn:E;
    try reflexivity; exfalso.
  - apply ltb_ge in E. apply Qreals.Qle_Rle in E. rlra.
  - apply ltb_lt in E. apply Qreals.Qlt_Rlt in E. contradiction.
Qed.

Lemma Rle_dec_ltb (x y : Q) (A : Type) (a b : A) :
  (if Rle_dec (Q2R x) (Q2R y) then a else b) = if Py.ltb y x then b else a.
Proof.
  destruct (Rle_dec (Q2R x) (Q2R y)) as [H|H], (Py.ltb y x) eqn:E;
    try reflexivity; exfalso.
  - apply ltb_lt in E. apply Qreals.Qlt_Rlt in E. rlra.
  - apply ltb_ge in E. apply Qreals.Qle_Rle in E. contradiction.
Qed.


Lemma mod_periodic (x m : R) (k : Z) :
  (0 < m)%R -> math.mod_ (x + m * IZR k) m = math.mod_ x m.
Proof.
  intros Hm. unfold math.mod_.
  assert (E : Int_part ((x + m * IZR k) / m) = (Int_part (x / m) + k)%Z).
  { symmetry. apply Int_part_spec. rewrite plus_IZR.
    replace ((x + m * IZR k) / m)%R with (x / m + IZR k)%R
      by (field; rlra).
    pose proof (base_Int_part (x / m)). rlra. }
  rewrite E, plus_IZR. ring.
Qed.


(** ** Geometry helpers of the base class *)

Local Open Scope R_scope.

Lemma sumsq_nonneg (a b : R) : 0 <= a ^ 2 + b ^ 2.
Proof. Lra.nra. Qed.

Lemma math_sqrt_sumsq (a b : R) :
  Geometry.math_sqrt (a ^ 2 + b ^ 2) = Py.Return (sqrt (a ^ 2 + b ^ 2)).
Proof.
  unfold Geometry.math_sqrt.
  destruct (Rle_dec 0 (a ^ 2 + b ^ 2)) as [_|H]; [reflexivity|].
  exfalso. apply H, sumsq_nonneg.
Qed.

Lemma sqrt_sumsq_zero (a b : R) : sqrt (a ^ 2 + b ^ 2) = 0 <-> a = 0 /\ b = 0.
Proof.
  split.
  - intros H. apply sqrt_eq_0 in H; [|apply sumsq_nonneg]. split; Lra.nra.
  - intros [-> ->]. replace (0 ^ 2 + 0 ^ 2) with 0 by ring. apply sqrt_0.
Qed.

Lemma point_eq_iff (p q : Geometry.RPoint) :
  p = q <-> fst p - fst q = 0 /\ snd p - snd q = 0.
Proof.
  destruct p as [a b], q as [c d]. cbn [fst snd]. split.
  - intros [= -> ->]. split; ring.
  - intros [H1 H2]. f_equal; rlra.
Qed.

Lemma calculate_distance_returns (p1 p2 : Geometry.RPoint) :
  Geometry.calculate_distance p1 p2 =
    Py.Return (dist_euc (fst p1) (snd p1) (fst p2) (snd p2)).
Proof.
  unfold Geometry.calculate_distance, dist_euc.
  rewrite math_sqrt_sumsq, !Rsqr_pow2. reflexivity.
Qed.



Lemma clamp_bounds (c : R) : -1 <= Rmax (-1) (Rmin 1 c) <= 1.
Proof.
  unfold Rmax, Rmin.
  destruct (Rle_dec 1 c); destruct (Rle_dec (-1) _); rlra.
Qed.

Lemma clamp_inside (c : R) : -1 <= c <= 1 -> Rmax (-1) (Rmin 1 c) = c.
Proof.
  intros H. unfold Rmax, Rmin.
  destruct (Rle_dec 1 c); destruct (Rle_dec (-1) _); rlra.
Qed.

Lemma math_acos_clamped (c : R) :
  Geometry.math_acos (Rmax (-1) (Rmin 1 c)) =
    Py.Return (acos (Rmax (-1) (Rmin 1 c))).
Proof.
  pose proof (clamp_bounds c) as [H1 H2]. unfold Geometry.math_acos.
  destruct (Rle_dec (-1) _); [|contradiction].
  destruct (Rle_dec _ 1); [reflexivity | contradiction].
Qed.

Lemma math_degrees_bounds (x : R) :
  0 <= x <= PI -> 0 <= Geometry.math_degrees x <= 180.
Proof.
  intros [H0 H1]. pose proof PI_RGT_0 as Hpi. unfold Geometry.math_degrees.
  assert (Hi : 0 < / PI) by (apply Rinv_0_lt_compat; exact Hpi).
  assert (E : PI * / PI = 1) by (field; rlra).
  unfold Rdiv. split.
  - apply Rmult_le_pos; [exact H0|]. Lra.nra.
  - replace 180 with (PI * (180 * / PI)) at 2 by (field; rlra).
    apply Rmult_le_compat_r; [Lra.nra | exact H1].
Qed.

(** The value of [calculate_angle], case by case. *)
Lemma calculate_angle_returns (p1 p2 p3 : Geometry.RPoint) :
  let x1 := fst p1 - fst p2 in
  let y1 := snd p1 - snd p2 in
  let x2 := fst p3 - fst p2 in
  let y2 := snd p3 - snd p2 in
  Geometry.calculate_angle p1 p2 p3 =
    Py.Return
      (if Req_dec_T (sqrt (x1 ^ 2 + y1 ^ 2)) 0 then 0
       else if Req_dec_T (sqrt (x2 ^ 2 + y2 ^ 2)) 0 then 0
       else Geometry.math_degrees
              (acos (Rmax (-1)
                       (Rmin 1 ((x1 * x2 + y1 * y2) /
                                (sqrt (x1 ^ 2 + y1 ^ 2) * sqrt (x2 ^ 2 + y2 ^ 2))))))).
Proof.
  cbv zeta. unfold Geometry.calculate_angle. cbv zeta. cbn [fst snd].
  rewrite !math_sqrt_sumsq. cbn [Py.bind].
  destruct (Req_dec_T _ 0); [reflexivity|].
  destruct (Req_dec_T _ 0); [reflexivity|].
  rewrite math_acos_clamped. reflexivity.
Qed.


Lemma math_degrees_values :
  Geometry.math_degrees 0 = 0 /\
  Geometry.math_degrees (PI / 2) = 90 /\
  Geometry.math_degrees PI = 180.
Proof.
  pose proof PI_RGT_0. unfold Geometry.math_degrees.
  repeat split; field; rlra.
Qed.





Local Close Scope R_scope.
